(** * The pyquil Quil listener ([pyquil/_parser/PyQuilListener.py])

    A shallow embedding of the semantic-analysis pass that walks a Quil
    parse tree and builds the instruction list, together with the
    properties of it that the design document states.

    Conventions.
    - A Python exception is a value of [exn]: the name of its class and its
      message.  A computation that may raise returns a [res].
    - The generated parser ([gen3]) and the ANTLR runtime are not part of
      the development; a parse-tree node is a record holding what the
      listener reads from it through its accessors.
    - Python list objects that the listener aliases (the accumulation
      buffers) live in a store indexed by locations. *)

From Stdlib Require Import Ascii String QArith_base.
From stdpp Require Import gmap strings list fin_maps pretty.

Local Open Scope string_scope.
Local Open Scope list_scope.
Local Open Scope Z_scope.

(** ** Exceptions *)

Record exn := Exn { exn_class : string; exn_msg : string }.

Inductive res (A : Type) : Type :=
| Ok (a : A)
| Raise (e : exn).
Arguments Ok {A} a.
Arguments Raise {A} e.

#[global] Instance res_ret : MRet res := fun A a => Ok a.
#[global] Instance res_bind : MBind res := fun A B f r =>
  match r with
  | Ok a => f a
  | Raise e => Raise e
  end.

Definition ValueError {A} (msg : string) : res A := Raise (Exn "ValueError" msg).
Definition RuntimeError {A} (msg : string) : res A := Raise (Exn "RuntimeError" msg).
Definition IndexError {A} (msg : string) : res A := Raise (Exn "IndexError" msg).
Definition AttributeError {A} (msg : string) : res A := Raise (Exn "AttributeError" msg).

(** [try: r except cls: h] for a handler that ignores the exception value.
    Only exceptions whose class is exactly [cls] are caught (none of the
    exceptions raised in this file is a subclass of another). *)
Definition try_except {A} (r : res A) (cls : string) (h : res A) : res A :=
  match r with
  | Ok a => Ok a
  | Raise e => if String.eqb (exn_class e) cls then h else Raise e
  end.

Definition is_ok {A} (r : res A) : bool :=
  match r with Ok _ => true | Raise _ => false end.

(** ** Host (Python) operations used by the listener *)

Module Py.

(** [sep.join(l)] *)
Fixpoint join (sep : string) (l : list string) : string :=
  match l with
  | [] => ""
  | [x] => x
  | x :: l' => x +:+ sep +:+ join sep l'
  end.

(** [l[a:b]] for [0 <= a], [0 <= b]: slicing clamps to the list, it
    never raises. *)
Definition slice {A} (l : list A) (a b : nat) : list A :=
  take (b - a) (drop a l).

(** [l[i]] with Python's indexing: a negative index counts from the
    end, an index out of range raises IndexError. *)
Definition index {A} (l : list A) (i : Z) : res A :=
  let n := Z.of_nat (length l) in
  let j := if i <? 0 then i + n else i in
  if (0 <=? j) && (j <? n) then
    match l !! Z.to_nat j with
    | Some x => Ok x
    | None => IndexError "list index out of range"
    end
  else IndexError "list index out of range".

(** [l.pop()] : the last element and the shortened list. *)
Definition pop {A} (l : list A) : res (A * list A) :=
  match reverse l with
  | [] => IndexError "pop from empty list"
  | x :: r => Ok (x, reverse r)
  end.

(** [l.count(x)] *)
Definition count (x : string) (l : list string) : nat :=
  length (filter (fun y => y = x) l).

(** [str.strip(chars)] for a one-character set. *)
Fixpoint lstrip_chars (p : ascii -> bool) (l : list ascii) : list ascii :=
  match l with
  | [] => []
  | c :: l' => if p c then lstrip_chars p l' else l
  end.

Definition strip_chars (p : ascii -> bool) (l : list ascii) : list ascii :=
  reverse (lstrip_chars p (reverse (lstrip_chars p l))).

Definition strip (c : ascii) (s : string) : string :=
  string_of_list_ascii
    (strip_chars (fun a => bool_decide (a = c)) (list_ascii_of_string s)).

(** Whitespace for [int()].  The texts here are ASCII, as the tokens of
    the grammar are; on an ASCII [str] the whitespace that [int()] strips
    is U+0009..U+000D and space. *)
Definition isspace (a : ascii) : bool :=
  let n := nat_of_ascii a in
  ((9 <=? n) && (n <=? 13) || (n =? 32))%nat.

(** The digit run of an [int()] literal in base 10: decimal digits, with
    single underscores allowed between two digits. *)
Fixpoint int_digits (acc : N) (after_digit : bool) (l : list ascii) : option N :=
  match l with
  | [] => if after_digit then Some acc else None
  | c :: l' =>
      match Ascii.is_nat c with
      | Some d => int_digits (10 * acc + N.of_nat d)%N true l'
      | None =>
          if bool_decide (c = "_"%char) && after_digit
          then int_digits acc false l'
          else None
      end
  end.

Definition int_chars (l : list ascii) : option Z :=
  match strip_chars isspace l with
  | "-"%char :: r => n ← int_digits 0 false r; Some (- Z.of_N n)
  | "+"%char :: r => n ← int_digits 0 false r; Some (Z.of_N n)
  | r => n ← int_digits 0 false r; Some (Z.of_N n)
  end.

(** [int(s)] for a [str] argument: the only exception is ValueError. *)
Definition int (s : string) : res Z :=
  match int_chars (list_ascii_of_string s) with
  | Some z => Ok z
  | None => ValueError ("invalid literal for int() with base 10: '" +:+ s +:+ "'")
  end.

(** The character U+0022, the string delimiter of Quil. *)
Definition quote_char : ascii := "034"%char.

(** [str(z)] for an integer. *)
Definition str_int (z : Z) : string := pretty z.

(** [s[1:-1]]: the text without its first and its last character. *)
Definition strip_ends (s : string) : string :=
  string_of_list_ascii (removelast (tail (list_ascii_of_string s))).

End Py.

(** ** Atoms (from [pyquil.quilatom], modelled by their constructors) *)

(** Modelled from the spec: a qubit reference is a fixed integer index
    ([Qubit]) or a named formal argument ([FormalArgument]); the classes
    themselves are in [pyquil.quilatom], and the resolver does not validate
    the index. *)
Inductive QubitRef :=
| Qubit (index : Z)
| FormalArgument (name : string).

#[global] Instance QubitRef_eq_dec : EqDecision QubitRef.
Proof. solve_decision. Defined.

(** A parse-tree node read only through [getText()]. *)
Record TextContext := { getText : string }.

(** [_qubit] *)
Definition _qubit (qubit : TextContext) : res QubitRef :=
  i ← Py.int (getText qubit); Ok (Qubit i).

(** [_formalQubit] *)
Definition _formalQubit (fq : TextContext) : res QubitRef :=
  try_except (_qubit fq) "ValueError" (Ok (FormalArgument (getText fq))).


(** Modelled from the spec: a classical address is a named memory region
    with an integer offset, or (legacy form, class [Addr]) a bare integer
    offset into the implicit register.  Both are memory references: [_addr]
    is typed as returning a [MemoryReference]. *)
Inductive MemoryReference :=
| MemRef (name : string) (offset : Z)
| Addr (value : Z).

#[global] Instance MemoryReference_eq_dec : EqDecision MemoryReference.
Proof. solve_decision. Defined.

#[global] Instance MemoryReference_countable : Countable MemoryReference.
Proof.
  refine (inj_countable'
    (fun m => match m with MemRef n o => inl (n, o) | Addr v => inr v end)
    (fun x => match x with inl (n, o) => MemRef n o | inr v => Addr v end) _).
  by intros [].
Defined.

(** Modelled from the spec: the value of an evaluated expression is a
    concrete host number or a symbolic node (an operator over
    sub-expressions, a named parameter, a memory reference, a function
    application).  Host numbers (int, float, complex) are a parameter. *)
Inductive PyVal (number : Type) : Type :=
| VNumber (n : number)
| VParameter (name : string)
| VMemoryReference (m : MemoryReference)
| VBinaryExp (op : string) (op1 op2 : PyVal number)
| VFunction (name : string) (expression : PyVal number).
Arguments VNumber {number} n.
Arguments VParameter {number} name.
Arguments VMemoryReference {number} m.
Arguments VBinaryExp {number} op op1 op2.
Arguments VFunction {number} name expression.

(** Modelled from the spec: [_contained_mrefs] of [pyquil.quilatom], the
    set of memory references that occur as sub-expressions. *)
Fixpoint _contained_mrefs {number} (expression : PyVal number) : gset MemoryReference :=
  match expression with
  | VBinaryExp _ op1 op2 => _contained_mrefs op1 ∪ _contained_mrefs op2
  | VFunction _ e => _contained_mrefs e
  | VMemoryReference m => {[ m ]}
  | VNumber _ | VParameter _ => ∅
  end.

(** The sub-expression relation that [_contained_mrefs] is meant to
    compute with. *)
Inductive subexpression {number} : PyVal number -> PyVal number -> Prop :=
| sub_refl e : subexpression e e
| sub_op1 e op a b : subexpression e a -> subexpression e (VBinaryExp op a b)
| sub_op2 e op a b : subexpression e b -> subexpression e (VBinaryExp op a b)
| sub_fun e f a : subexpression e a -> subexpression e (VFunction f a).

(** ** Gates (class [Gate] of [pyquil.quilbase]) *)

(** Modelled from the spec: the modifier chain of a gate is a record of
    (kind, extra qubit or extra parameters). *)
Inductive Modifier (number : Type) : Type :=
| MControlled (control_qubit : QubitRef)
| MDagger
| MForked (fork_qubit : QubitRef) (alt_params : list (PyVal number)).
Arguments MControlled {number} control_qubit.
Arguments MDagger {number}.
Arguments MForked {number} fork_qubit alt_params.

Record Gate (number : Type) : Type := mkGate {
  gate_name : string;
  gate_params : list (PyVal number);
  gate_qubits : list QubitRef;
  gate_modifiers : list (Modifier number)
}.
Arguments mkGate {number} _ _ _ _.
Arguments gate_name {number} _.
Arguments gate_params {number} _.
Arguments gate_qubits {number} _.
Arguments gate_modifiers {number} _.

(** Modelled from the spec: [Gate(name, params, qubits)] starts with an
    empty modifier chain. *)
Definition new_Gate {number} (name : string) (params : list (PyVal number))
    (qubits : list QubitRef) : Gate number :=
  mkGate name params qubits [].

(** Modelled from the spec: [gate.controlled(q)] wraps the gate as
    controlled; the new qubit argument prefixes the old ones. *)
Definition controlled {number} (control_qubit : QubitRef) (g : Gate number) : Gate number :=
  mkGate (gate_name g) (gate_params g) (control_qubit :: gate_qubits g)
         (MControlled control_qubit :: gate_modifiers g).

(** Modelled from the spec: [gate.dagger()] wraps the gate as adjoint. *)
Definition dagger {number} (g : Gate number) : Gate number :=
  mkGate (gate_name g) (gate_params g) (gate_qubits g) (MDagger :: gate_modifiers g).

(** Modelled from the spec: [gate.forked(q, alt_params)] wraps the gate as
    forked on [q]; the alternative parameters follow the ones the gate
    already has, and are recorded in the chain. *)
Definition forked {number} (fork_qubit : QubitRef) (alt_params : list (PyVal number))
    (g : Gate number) : Gate number :=
  mkGate (gate_name g) (gate_params g ++ alt_params) (fork_qubit :: gate_qubits g)
         (MForked fork_qubit alt_params :: gate_modifiers g).

(** The keyword of a chain entry, and the parameter groups of a gate: the
    base gate's parameters followed by the alternative parameters of each
    fork, innermost fork first. *)
Definition modifier_keyword {number} (m : Modifier number) : string :=
  match m with
  | MControlled _ => "CONTROLLED"
  | MDagger => "DAGGER"
  | MForked _ _ => "FORKED"
  end.

Definition fork_groups {number} (ms : list (Modifier number)) : list (list (PyVal number)) :=
  reverse (omap (fun m => match m with MForked _ a => Some a | _ => None end) ms).

Definition modifier_qubit {number} (m : Modifier number) : option QubitRef :=
  match m with
  | MControlled q | MForked q _ => Some q
  | MDagger => None
  end.

(** ** Instructions (classes of [pyquil.quilbase], modelled by their
    constructors) *)

Record Frame := mkFrame { frame_qubits : list QubitRef; frame_name : string }.

(** Modelled from the spec: a label is the identifier text, used verbatim
    as a jump target name (class [Label]). *)
Record Label := mkLabel { label_name : string }.

(** A token node of the parse tree that the listener hands on as it is
    ([ctx.IDENTIFIER()] in LOAD and STORE). *)
Record TerminalNode := { TerminalNode_getText : string }.

(** Modelled from the spec: a waveform is a bare named reference
    ([WaveformReference]) or, when named parameters are present, a
    parameterized instance of a template of the catalog, held here by the
    template's name and its parameters. *)
Inductive Waveform (number : Type) : Type :=
| WaveformReference (name : string)
| TemplateWaveform (name : string) (parameters : gmap string (PyVal number)).
Arguments WaveformReference {number} name.
Arguments TemplateWaveform {number} name parameters.

(** A term of a Pauli sum ([PauliTerm] of [pyquil.paulis]), held by the
    arguments of [PauliTerm.from_list]: the (letter, qubit) pairs and the
    coefficient. *)
Record PauliTerm (number : Type) : Type := mkPauliTerm {
  pauli_ops : list (ascii * QubitRef);
  pauli_coefficient : PyVal number
}.
Arguments mkPauliTerm {number} _ _.
Arguments pauli_ops {number} _.
Arguments pauli_coefficient {number} _.

(** A Python list object that holds an accumulation buffer is named by
    its location in the store. *)
Definition loc := nat.

Inductive Instr (number : Type) : Type :=
| IGate (g : Gate number)
| RawInstr (text : string)
| Halt
| Nop
| Wait
| FenceAll
| Fence (qubits : list QubitRef)
| ClassicalAnd (left : MemoryReference) (right : Z + MemoryReference)
| ClassicalOr (left : MemoryReference) (right : Z + MemoryReference)
| ClassicalInclusiveOr (left : MemoryReference) (right : Z + MemoryReference)
| ClassicalExclusiveOr (left : MemoryReference) (right : Z + MemoryReference)
(* [Declare_] is the class [Declare] of pyquil.quilbase; the plain name
   would read as the start of a vernacular command. *)
| Declare_ (name memory_type : string) (memory_size : Z)
    (shared_region : option string) (offsets : list (Z * string))
| DefCalibration (name : string) (parameters : list (PyVal number))
    (qubits : list QubitRef) (instrs : option loc)
| DefMeasureCalibration (qubit : QubitRef) (memory_reference : option QubitRef)
    (instrs : option loc)
| DefWaveform (name : string) (parameters : list string) (entries : list (PyVal number))
| DelayFrames (frames : list Frame) (duration : PyVal number)
| DelayQubits (qubits : list QubitRef) (duration : PyVal number)
| DefGate (name : string) (matrix : list (list (PyVal number)))
    (parameters : list (PyVal number))
| DefPermutationGate (name : string) (permutation : list (PyVal number))
(* the body is the list given to [PauliSum] *)
| DefGateByPaulis (name : string) (parameters : list (PyVal number))
    (arguments : list QubitRef) (body : list (PauliTerm number))
| Measurement (qubit : QubitRef) (classical_reg : option MemoryReference)
| JumpTarget (label : Label)
| Jump (target : Label)
| JumpWhen (target : Label) (condition : MemoryReference)
| JumpUnless (target : Label) (condition : MemoryReference)
| ResetQubit (qubit : QubitRef)
| Reset
| ClassicalTrue (target : MemoryReference)
| ClassicalFalse (target : MemoryReference)
| ClassicalNot (target : MemoryReference)
| ClassicalNeg (target : MemoryReference)
| ClassicalAdd (left : MemoryReference) (right : number + MemoryReference)
| ClassicalSub (left : MemoryReference) (right : number + MemoryReference)
| ClassicalMul (left : MemoryReference) (right : number + MemoryReference)
| ClassicalDiv (left : MemoryReference) (right : number + MemoryReference)
| ClassicalMove (left : MemoryReference) (right : number + MemoryReference)
| ClassicalExchange (left right : MemoryReference)
| ClassicalConvert (left right : MemoryReference)
| ClassicalLoad (target : MemoryReference) (left : option TerminalNode)
    (right : MemoryReference)
| ClassicalStore (target : option TerminalNode) (left : MemoryReference)
    (right : number + MemoryReference)
| ClassicalEqual (target left : MemoryReference) (right : number + MemoryReference)
| ClassicalGreaterThan (target left : MemoryReference) (right : number + MemoryReference)
| ClassicalGreaterEqual (target left : MemoryReference) (right : number + MemoryReference)
| ClassicalLessThan (target left : MemoryReference) (right : number + MemoryReference)
| ClassicalLessEqual (target left : MemoryReference) (right : number + MemoryReference)
(* [freeform_string] is [None] when the argument is not passed *)
| Pragma (command : string) (args : list string) (freeform_string : option string)
(* the keyword arguments [**options]: a text or an evaluated expression *)
| DefFrame (frame : Frame) (options : gmap string (string + PyVal number))
| Pulse (frame : Frame) (waveform : Waveform number) (nonblocking : bool)
| SetFrequency (frame : Frame) (freq : PyVal number)
| ShiftFrequency (frame : Frame) (freq : PyVal number)
| SetPhase (frame : Frame) (phase : PyVal number)
| ShiftPhase (frame : Frame) (phase : PyVal number)
| SwapPhase (frameA frameB : Frame)
| SetScale (frame : Frame) (scale : PyVal number)
| Capture (frame : Frame) (kernel : Waveform number) (memory_region : MemoryReference)
    (nonblocking : bool)
| RawCapture (frame : Frame) (duration : PyVal number) (memory_region : MemoryReference)
    (nonblocking : bool).
Arguments IGate {number} g.
Arguments RawInstr {number} text.
Arguments Halt {number}.
Arguments Nop {number}.
Arguments Wait {number}.
Arguments FenceAll {number}.
Arguments Fence {number} qubits.
Arguments ClassicalAnd {number} left right.
Arguments ClassicalOr {number} left right.
Arguments ClassicalInclusiveOr {number} left right.
Arguments ClassicalExclusiveOr {number} left right.
Arguments Declare_ {number} name memory_type memory_size shared_region offsets.
Arguments DefCalibration {number} name parameters qubits instrs.
Arguments DefMeasureCalibration {number} qubit memory_reference instrs.
Arguments DefWaveform {number} name parameters entries.
Arguments DelayFrames {number} frames duration.
Arguments DelayQubits {number} qubits duration.
Arguments DefGate {number} name matrix parameters.
Arguments DefPermutationGate {number} name permutation.
Arguments DefGateByPaulis {number} name parameters arguments body.
Arguments Measurement {number} qubit classical_reg.
Arguments JumpTarget {number} label.
Arguments Jump {number} target.
Arguments JumpWhen {number} target condition.
Arguments JumpUnless {number} target condition.
Arguments ResetQubit {number} qubit.
Arguments Reset {number}.
Arguments ClassicalTrue {number} target.
Arguments ClassicalFalse {number} target.
Arguments ClassicalNot {number} target.
Arguments ClassicalNeg {number} target.
Arguments ClassicalAdd {number} left right.
Arguments ClassicalSub {number} left right.
Arguments ClassicalMul {number} left right.
Arguments ClassicalDiv {number} left right.
Arguments ClassicalMove {number} left right.
Arguments ClassicalExchange {number} left right.
Arguments ClassicalConvert {number} left right.
Arguments ClassicalLoad {number} target left right.
Arguments ClassicalStore {number} target left right.
Arguments ClassicalEqual {number} target left right.
Arguments ClassicalGreaterThan {number} target left right.
Arguments ClassicalGreaterEqual {number} target left right.
Arguments ClassicalLessThan {number} target left right.
Arguments ClassicalLessEqual {number} target left right.
Arguments Pragma {number} command args freeform_string.
Arguments DefFrame {number} frame options.
Arguments Pulse {number} frame waveform nonblocking.
Arguments SetFrequency {number} frame freq.
Arguments ShiftFrequency {number} frame freq.
Arguments SetPhase {number} frame phase.
Arguments ShiftPhase {number} frame phase.
Arguments SwapPhase {number} frameA frameB.
Arguments SetScale {number} frame scale.
Arguments Capture {number} frame kernel memory_region nonblocking.
Arguments RawCapture {number} frame duration memory_region nonblocking.

(** Which instructions are definitions (a circuit definition is kept as
    a raw instruction), and which are delays. *)
Definition is_definition {number} (i : Instr number) : bool :=
  match i with
  | RawInstr _ | DefCalibration _ _ _ _ | DefMeasureCalibration _ _ _
  | DefWaveform _ _ _ | DefGate _ _ _ | DefPermutationGate _ _
  | DefGateByPaulis _ _ _ _ | DefFrame _ _ => true
  | _ => false
  end.

Definition is_delay {number} (i : Instr number) : bool :=
  match i with
  | DelayFrames _ _ | DelayQubits _ _ => true
  | _ => false
  end.

(** ** Collaborators

    What the listener takes from outside this file: the host's numbers
    and the evaluation of an expression node to a value ([_expression],
    which rests on the host's float, complex and numpy arithmetic), the gate
    catalog [QUANTUM_GATES] (a constructor receives the positional
    arguments [*base_params, *base_qubits]), the names of the waveform
    templates [_waveform_classes], the text of a set of memory references,
    and the method [out()] of an instruction. *)
Class Host := {
  number : Type;
  ExpressionContext : Type;
  _expression : ExpressionContext -> res (PyVal number);
  QUANTUM_GATES : gmap string (list (PyVal number + QubitRef) -> res (Gate number));
  _waveform_classes : gset string;
  str_mrefs : gset MemoryReference -> string;
  out : Instr number -> string
}.

(** What the other handlers take from outside this file: the evaluation of
    a number node ([_number], which rests on the host's float and complex
    arithmetic), the instances of the template waveforms ([_wf_from_dict]
    of [pyquil.quiltwaveforms]), the terms of a Pauli sum
    ([PauliTerm.from_list] of [pyquil.paulis]) and the text of a frame
    ([str(frame)]). *)
Class HostFunctions `{Host} := {
  NumberNode : Type;
  _number : NumberNode -> res number;
  _wf_from_dict : string -> gmap string (PyVal number) -> res (Waveform number);
  PauliTerm_from_list : list (ascii * QubitRef) -> PyVal number -> res (PauliTerm number);
  str_Frame : Frame -> string
}.

(** ** Syntax error reporting ([CustomErrorListener]) *)

(** The parser's vocabulary tables. *)
Record Recognizer := {
  literalNames : list string;
  symbolicNames : list string
}.

(** [get_expected_tokens]: a generator; consuming it looks up both tables
    for each token type in turn. *)
Fixpoint get_expected_tokens (parser : Recognizer) (interval_set : list Z) : res (list string) :=
  match interval_set with
  | [] => Ok []
  | tok :: rest =>
      literal_name ← Py.index (literalNames parser) tok;
      symbolic_name ← Py.index (symbolicNames parser) tok;
      let y := if bool_decide (literal_name ≠ "<INVALID>") then literal_name
               else symbolic_name in
      ys ← get_expected_tokens parser rest;
      Ok (y :: ys)
  end.

(** [syntaxError]; [e] is the recognition exception, given by the token
    types of [e.getExpectedTokens()], or [None]. *)
Definition syntaxError (recognizer : Recognizer) (offendingSymbol_text : string)
    (line column : Z) (msg : string) (e : option (list Z)) : res unit :=
  let expected_tokens :=
    match e with
    | Some interval_set => get_expected_tokens recognizer interval_set
    | None => Ok []
    end in
  expected ← expected_tokens;
  RuntimeError
    ("Error encountered while parsing the quil program at line "
       +:+ Py.str_int line +:+ " and column " +:+ Py.str_int (column + 1)
       +:+ String "010" ""
       +:+ "Received an '" +:+ offendingSymbol_text
       +:+ "' but was expecting one of [ " +:+ Py.join ", " expected +:+ " ]").

(** ** The listener *)

Section Listener.
Context `{Host}.

Abbreviation Val := (PyVal number).
Abbreviation Instruction := (Instr number).

(** *** Parse-tree nodes, by the accessors the listener uses *)

Record ParamContext := {
  param_expression : option ExpressionContext;
  param_getText : string
}.

Record GateContext := {
  Gate_name : TextContext;
  Gate_modifier : list TextContext;
  Gate_param : list ParamContext;
  Gate_qubit : list TextContext
}.

Record CircuitGateContext := {
  CircuitGate_name : TextContext;
  CircuitGate_param : list ParamContext;
  CircuitGate_circuitQubit : list TextContext
}.

Record AddrContext := {
  Addr_IDENTIFIER : option string;
  Addr_INT : option string
}.

(** The keyword token of a logical binary operation: the grammar has
    exactly one of the four. *)
Inductive LogicalKeyword := AND | OR | IOR | XOR.

Record LogicalBinaryOpContext := {
  Logical_keyword : LogicalKeyword;
  Logical_addr : list AddrContext;
  Logical_INT : option string
}.

Record OffsetDescriptorContext := {
  Offset_INT : string;
  Offset_IDENTIFIER : string
}.

Record MemoryDescriptorContext := {
  Memory_IDENTIFIER : list string;
  Memory_INT : option string;
  Memory_SHARING : bool;
  Memory_offsetDescriptor : list OffsetDescriptorContext
}.

Record DelayContext := {
  Delay_formalQubit : list TextContext;
  Delay_STRING : list string;
  Delay_expression : ExpressionContext
}.

Record FenceContext := { Fence_formalQubit : list TextContext }.

Record DefCircuitContext := {
  DefCircuit_name : TextContext;
  DefCircuit_variable : list TextContext;
  DefCircuit_qubitVariable : list TextContext
}.

Record DefCalibrationContext := {
  DefCalibration_name : TextContext;
  DefCalibration_param : list ParamContext;
  DefCalibration_formalQubit : list TextContext
}.

Record DefMeasCalibrationContext := {
  DefMeasCalibration_name : option TextContext;
  DefMeasCalibration_formalQubit : TextContext
}.

Record DefWaveformContext := {
  DefWaveform_waveformName : list TextContext;
  DefWaveform_param : list ParamContext;
  DefWaveform_matrix : list (list ExpressionContext)
}.

(** *** Helper functions *)

(** [_param] *)
Definition _param (param : ParamContext) : res Val :=
  match param_expression param with
  | Some e => _expression e
  | None => RuntimeError ("Unexpected param: " +:+ param_getText param)
  end.

(** [_matrix] *)
Definition _matrix (matrix : list (list ExpressionContext)) : res (list (list Val)) :=
  mapM (fun row => mapM _expression row) matrix.

(** [_addr] *)
Definition _addr (classical : AddrContext) : res MemoryReference :=
  match Addr_IDENTIFIER classical with
  | Some identifier =>
      match Addr_INT classical with
      | Some int_text => offset ← Py.int int_text; Ok (MemRef identifier offset)
      | None => Ok (MemRef identifier 0)
      end
  | None =>
      match Addr_INT classical with
      | Some int_text => value ← Py.int int_text; Ok (Addr value)
      | None => AttributeError "'NoneType' object has no attribute 'getText'"
      end
  end.

(** [ctx.addr(i)] is [None] when the node has no such child, and [_addr]
    then fails on its first accessor. *)
Definition _addr_at (addrs : list AddrContext) (i : nat) : res MemoryReference :=
  match addrs !! i with
  | Some a => _addr a
  | None => AttributeError "'NoneType' object has no attribute 'IDENTIFIER'"
  end.

(** [_waveform_name] *)
Definition _waveform_name (names : list TextContext) : string :=
  Py.join "/" (getText <$> names).

(** *** State of the listener

    [self.result] and [self.previous_result] hold a list object or
    [None]. *)
Record PyQuilListener := mkListener {
  heap : gmap loc (list Instruction);
  result : option loc;
  previous_result : option loc
}.

(** [__init__] *)
Definition init : PyQuilListener :=
  mkListener {[ 0%nat := [] ]} (Some 0%nat) None.

(** The current buffer's contents. *)
Definition buffer (l : option loc) (s : PyQuilListener) : list Instruction :=
  match l with
  | Some r => default [] (heap s !! r)
  | None => []
  end.

(** [self.result.append(instr)] *)
Definition append (instr : Instruction) (s : PyQuilListener) : res PyQuilListener :=
  match result s with
  | Some r =>
      Ok (mkListener (alter (fun b => b ++ [instr]) r (heap s)) (result s)
                     (previous_result s))
  | None => AttributeError "'NoneType' object has no attribute 'append'"
  end.

(** [self.previous_result = self.result; self.result = []]: the new list
    is a fresh object. *)
Definition enter_definition (s : PyQuilListener) : PyQuilListener :=
  let fresh_loc := fresh (dom (heap s)) in
  mkListener (<[ fresh_loc := [] ]> (heap s)) (Some fresh_loc) (result s).

(** *** Gate application ([exitGate]) *)

(** The first loop of [exitGate]: one modifier qubit per CONTROLLED or
    FORKED, read from the front of [qubits]. *)
Fixpoint collect_modifier_qubits (modifiers : list string) (qubits : list QubitRef)
    (modifier_qubits : list QubitRef) : res (list QubitRef) :=
  match modifiers with
  | [] => Ok modifier_qubits
  | m :: rest =>
      if bool_decide (m ∈ ["CONTROLLED"; "FORKED"]) then
        q ← Py.index qubits (Z.of_nat (length modifier_qubits));
        collect_modifier_qubits rest qubits (modifier_qubits ++ [q])
      else collect_modifier_qubits rest qubits modifier_qubits
  end.

(** The base gate: from the catalog when the name is known, a generic
    [Gate] otherwise. *)
Definition base_gate (name : string) (base_params : list Val)
    (base_qubits : list QubitRef) : res (Gate number) :=
  match QUANTUM_GATES !! name with
  | Some constructor =>
      if bool_decide (base_params ≠ [])
      then constructor ((inl <$> base_params) ++ (inr <$> base_qubits))
      else constructor (inr <$> base_qubits)
  | None => Ok (new_Gate name base_params base_qubits)
  end.

(** One iteration of the second loop of [exitGate]; the loop's variables
    are the gate, the modifier qubits not yet consumed and
    [forked_offset]. *)
Definition apply_modifier (params : list Val) (modifier : string)
    (st : Gate number * list QubitRef * nat) : res (Gate number * list QubitRef * nat) :=
  let '(gate, modifier_qubits, forked_offset) := st in
  if bool_decide (modifier = "CONTROLLED") then
    '(q, modifier_qubits') ← Py.pop modifier_qubits;
    Ok (controlled q gate, modifier_qubits', forked_offset)
  else if bool_decide (modifier = "DAGGER") then
    Ok (dagger gate, modifier_qubits, forked_offset)
  else if bool_decide (modifier = "FORKED") then
    '(q, modifier_qubits') ← Py.pop modifier_qubits;
    Ok (forked q (Py.slice params forked_offset (2 * forked_offset)) gate,
        modifier_qubits', (forked_offset * 2)%nat)
  else ValueError ("Unsupported gate modifier " +:+ modifier +:+ ".").

Fixpoint apply_modifiers (params : list Val) (reversed_modifiers : list string)
    (st : Gate number * list QubitRef * nat) : res (Gate number * list QubitRef * nat) :=
  match reversed_modifiers with
  | [] => Ok st
  | modifier :: rest =>
      st' ← apply_modifier params modifier st;
      apply_modifiers params rest st'
  end.

(** The gate that [exitGate] builds from the texts and values it read. *)
Definition build_gate (gate_name : string) (modifiers : list string)
    (params : list Val) (qubits : list QubitRef) : res (Gate number) :=
  modifier_qubits ← collect_modifier_qubits modifiers qubits [];
  let base_qubits := drop (length modifier_qubits) qubits in
  let forked_offset := Nat.shiftr (length params) (Py.count "FORKED" modifiers) in
  let base_params := take forked_offset params in
  gate ← base_gate gate_name base_params base_qubits;
  '(gate, _, _) ← apply_modifiers params (reverse modifiers)
                     (gate, modifier_qubits, forked_offset);
  Ok gate.

Definition exitGate (ctx : GateContext) (s : PyQuilListener) : res PyQuilListener :=
  let gate_name := getText (Gate_name ctx) in
  let modifiers := getText <$> Gate_modifier ctx in
  params ← mapM _param (Gate_param ctx);
  qubits ← mapM _qubit (Gate_qubit ctx);
  gate ← build_gate gate_name modifiers params qubits;
  append (IGate gate) s.

(** [exitCircuitGate] *)
Definition exitCircuitGate (ctx : CircuitGateContext) (s : PyQuilListener)
    : res PyQuilListener :=
  let gate_name := getText (CircuitGate_name ctx) in
  let params := param_getText <$> CircuitGate_param ctx in
  let qubits := getText <$> CircuitGate_circuitQubit ctx in
  if bool_decide (params ≠ []) then
    append (RawInstr (gate_name +:+ "(" +:+ Py.join ", " params +:+ ") "
                        +:+ Py.join " " qubits)) s
  else
    append (RawInstr (gate_name +:+ " " +:+ Py.join " " qubits)) s.

(** [exitHalt], [exitNop], [exitWait], [exitFenceAll], [exitFence] *)
Definition exitHalt (s : PyQuilListener) : res PyQuilListener := append Halt s.
Definition exitNop (s : PyQuilListener) : res PyQuilListener := append Nop s.
Definition exitWait (s : PyQuilListener) : res PyQuilListener := append Wait s.
Definition exitFenceAll (s : PyQuilListener) : res PyQuilListener := append FenceAll s.
Definition exitFence (ctx : FenceContext) (s : PyQuilListener) : res PyQuilListener :=
  qubits ← mapM _formalQubit (Fence_formalQubit ctx);
  append (Fence qubits) s.

(** *** Classical instructions *)

(** [exitLogicalBinaryOp] *)
Definition exitLogicalBinaryOp (ctx : LogicalBinaryOpContext) (s : PyQuilListener)
    : res PyQuilListener :=
  left ← _addr_at (Logical_addr ctx) 0;
  right ← match Logical_INT ctx with
          | Some int_text => n ← Py.int int_text; Ok (inl n)
          | None => m ← _addr_at (Logical_addr ctx) 1; Ok (inr m)
          end;
  match Logical_keyword ctx with
  | AND => append (ClassicalAnd left right) s
  | OR =>
      match right with
      | inr _ => append (ClassicalOr left right) s
      | inl n =>
          RuntimeError
            ("Right operand of deprecated OR instruction must be a"
               +:+ " MemoryReference, but found '" +:+ Py.str_int n +:+ "'")
      end
  | IOR => append (ClassicalInclusiveOr left right) s
  | XOR => append (ClassicalExclusiveOr left right) s
  end.

(** [ctx.IDENTIFIER(i).getText()] *)
Definition IDENTIFIER_text (identifiers : list string) (i : nat) : res string :=
  match identifiers !! i with
  | Some t => Ok t
  | None => AttributeError "'NoneType' object has no attribute 'getText'"
  end.

(** [exitMemoryDescriptor] *)
Definition exitMemoryDescriptor (ctx : MemoryDescriptorContext) (s : PyQuilListener)
    : res PyQuilListener :=
  name ← IDENTIFIER_text (Memory_IDENTIFIER ctx) 0;
  memory_type ← IDENTIFIER_text (Memory_IDENTIFIER ctx) 1;
  memory_size ← match Memory_INT ctx with
                | Some int_text => Py.int int_text
                | None => Ok 1
                end;
  '(shared_region, offsets) ←
    (if Memory_SHARING ctx then
       shared_region ← IDENTIFIER_text (Memory_IDENTIFIER ctx) 2;
       offsets ← mapM (fun offset_ctx =>
                         n ← Py.int (Offset_INT offset_ctx);
                         Ok (n, Offset_IDENTIFIER offset_ctx))
                      (Memory_offsetDescriptor ctx);
       Ok (Some shared_region, offsets)
     else Ok (None, []));
  append (Declare_ name memory_type memory_size shared_region offsets) s.

(** *** Timing *)

(** [exitDelay] *)
Definition exitDelay (ctx : DelayContext) (s : PyQuilListener) : res PyQuilListener :=
  qubits ← mapM _formalQubit (Delay_formalQubit ctx);
  let explicit_frames := Py.strip Py.quote_char <$> Delay_STRING ctx in
  duration ← _expression (Delay_expression ctx);
  let delay :=
    if bool_decide (explicit_frames ≠ [])
    then DelayFrames ((fun name => mkFrame qubits name) <$> explicit_frames) duration
    else DelayQubits qubits duration in
  append delay s.

(** *** Definitions *)

(** [enterDefCircuit], [enterDefCalibration], [enterDefMeasCalibration] *)
Definition enterDefCircuit (s : PyQuilListener) : res PyQuilListener :=
  Ok (enter_definition s).
Definition enterDefCalibration (s : PyQuilListener) : res PyQuilListener :=
  Ok (enter_definition s).
Definition enterDefMeasCalibration (s : PyQuilListener) : res PyQuilListener :=
  Ok (enter_definition s).

(** [self.result = self.previous_result; self.previous_result = None;
    self.result.append(instr)] *)
Definition restore_and_append (instr : Instruction) (s : PyQuilListener)
    : res PyQuilListener :=
  append instr (mkListener (heap s) (previous_result s) None).

(** [exitDefCircuit] *)
Definition exitDefCircuit (ctx : DefCircuitContext) (s : PyQuilListener)
    : res PyQuilListener :=
  let circuit_name := getText (DefCircuit_name ctx) in
  let variables := getText <$> DefCircuit_variable ctx in
  let qubitVariables := getText <$> DefCircuit_qubitVariable ctx in
  let space := if bool_decide (qubitVariables ≠ []) then " " else "" in
  let raw_defcircuit :=
    if bool_decide (variables ≠ []) then
      "DEFCIRCUIT " +:+ circuit_name +:+ "(" +:+ Py.join ", " variables +:+ ")"
        +:+ space +:+ Py.join " " qubitVariables +:+ ":"
    else
      "DEFCIRCUIT " +:+ circuit_name +:+ space +:+ Py.join " " qubitVariables +:+ ":" in
  match result s with
  | None => Raise (Exn "TypeError" "'NoneType' object is not iterable")
  | Some r =>
      let body := buffer (Some r) s in
      let raw_defcircuit :=
        raw_defcircuit +:+ Py.join (String "010" "    ") ("" :: (out <$> body)) in
      match previous_result s with
      | None => AttributeError "'NoneType' object has no attribute 'append'"
      | Some p =>
          Ok (mkListener (alter (fun b => b ++ [RawInstr raw_defcircuit]) p (heap s))
                         (Some p) None)
      end
  end.

(** The validation loop of [exitDefCalibration]. *)
Fixpoint check_parameters (name : string) (parameters : list Val) : res unit :=
  match parameters with
  | [] => Ok ()
  | p :: rest =>
      let mrefs := _contained_mrefs p in
      if bool_decide (mrefs ≠ ∅) then
        ValueError ("Unexpected memory references " +:+ str_mrefs mrefs
                      +:+ " in DEFCAL " +:+ name +:+ ". Did you forget a '%'?")
      else check_parameters name rest
  end.

(** [exitDefCalibration] *)
Definition exitDefCalibration (ctx : DefCalibrationContext) (s : PyQuilListener)
    : res PyQuilListener :=
  let name := getText (DefCalibration_name ctx) in
  parameters ← mapM _param (DefCalibration_param ctx);
  _ ← check_parameters name parameters;
  qubits ← mapM _formalQubit (DefCalibration_formalQubit ctx);
  let instrs := result s in
  restore_and_append (DefCalibration name parameters qubits instrs) s.

(** [exitDefMeasCalibration] *)
Definition exitDefMeasCalibration (ctx : DefMeasCalibrationContext) (s : PyQuilListener)
    : res PyQuilListener :=
  let memory_reference :=
    match DefMeasCalibration_name ctx with
    | Some name => Some (FormalArgument (getText name))
    | None => None
    end in
  qubit ← _formalQubit (DefMeasCalibration_formalQubit ctx);
  let instrs := result s in
  restore_and_append (DefMeasureCalibration qubit memory_reference instrs) s.

(** [exitDefWaveform] *)
Definition exitDefWaveform (ctx : DefWaveformContext) (s : PyQuilListener)
    : res PyQuilListener :=
  let name := _waveform_name (DefWaveform_waveformName ctx) in
  if bool_decide (name ∈ _waveform_classes) then
    ValueError ("Attempted to redefine built-in template waveform " +:+ name +:+ ".")
  else
    let parameters := param_getText <$> DefWaveform_param ctx in
    rows ← _matrix (DefWaveform_matrix ctx);
    let entries := concat rows in
    append (DefWaveform name parameters entries) s.

End Listener.

(** ** More of the listener *)

(** *** Frames and named parameters *)

Record FrameContext := {
  Frame_formalQubit : list TextContext;
  Frame_STRING : string
}.

(** [_str_contents] *)
Definition _str_contents (x : string) : string := Py.strip Py.quote_char x.

(** [_frame] *)
Definition _frame (frame : FrameContext) : res Frame :=
  qubits ← mapM _formalQubit (Frame_formalQubit frame);
  let name := _str_contents (Frame_STRING frame) in
  Ok (mkFrame qubits name).

Section NamedParameters.
Context `{Host}.

Record NamedParamContext := {
  NamedParam_IDENTIFIER : string;
  NamedParam_expression : ExpressionContext
}.

(** [_named_parameters]: the dict is a finite map; a later assignment to a
    key replaces the earlier one. *)
Fixpoint named_parameters_loop (params : list NamedParamContext)
    (ret : gmap string (PyVal number)) : res (gmap string (PyVal number)) :=
  match params with
  | [] => Ok ret
  | param :: rest =>
      let name := NamedParam_IDENTIFIER param in
      expr ← _expression (NamedParam_expression param);
      named_parameters_loop rest (<[ name := expr ]> ret)
  end.

Definition _named_parameters (params : list NamedParamContext)
    : res (gmap string (PyVal number)) :=
  named_parameters_loop params ∅.

End NamedParameters.

(** *** Circuit bodies and raw instructions *)

Record CircuitMeasureContext := {
  CircuitMeasure_circuitQubit : TextContext;
  CircuitMeasure_addr : option TextContext
}.

Record CircuitResetStateContext := {
  CircuitResetState_circuitQubit : TextContext
}.

Record IncludeContext := {
  Include_INCLUDE : string;
  Include_STRING : string
}.

Section CircuitListener.
Context `{Host}.

(** [exitCircuitMeasure]; the test [if classical] fails on [None] and on
    the empty text. *)
Definition exitCircuitMeasure (ctx : CircuitMeasureContext) (s : PyQuilListener)
    : res PyQuilListener :=
  let qubit := getText (CircuitMeasure_circuitQubit ctx) in
  let classical := getText <$> CircuitMeasure_addr ctx in
  append
    (RawInstr
       (match classical with
        | Some c =>
            if bool_decide (c ≠ "") then "MEASURE " +:+ qubit +:+ " " +:+ c
            else "MEASURE " +:+ qubit
        | None => "MEASURE " +:+ qubit
        end)) s.

(** [exitCircuitResetState] *)
Definition exitCircuitResetState (ctx : CircuitResetStateContext) (s : PyQuilListener)
    : res PyQuilListener :=
  let qubit := getText (CircuitResetState_circuitQubit ctx) in
  append (RawInstr ("RESET " +:+ qubit)) s.

(** [exitInclude] *)
Definition exitInclude (ctx : IncludeContext) (s : PyQuilListener) : res PyQuilListener :=
  append (RawInstr (Include_INCLUDE ctx +:+ " " +:+ Include_STRING ctx)) s.

(** The header line of the text that [exitDefCircuit] builds. *)
Definition defcircuit_header (ctx : DefCircuitContext) : string :=
  let circuit_name := getText (DefCircuit_name ctx) in
  let variables := getText <$> DefCircuit_variable ctx in
  let qubitVariables := getText <$> DefCircuit_qubitVariable ctx in
  let space := if bool_decide (qubitVariables ≠ []) then " " else "" in
  if bool_decide (variables ≠ []) then
    "DEFCIRCUIT " +:+ circuit_name +:+ "(" +:+ Py.join ", " variables +:+ ")"
      +:+ space +:+ Py.join " " qubitVariables +:+ ":"
  else
    "DEFCIRCUIT " +:+ circuit_name +:+ space +:+ Py.join " " qubitVariables +:+ ":".

End CircuitListener.

(** *** The expression evaluator

    The host's numbers and its arithmetic are a parameter: [float(text)],
    an [int] as a number, [complex(0, x)], [np.pi], the operators of module
    [operator] on two numbers and the functions of [numpy.ma]. *)

Inductive BinaryOperator := OpPow | OpMul | OpTrueDiv | OpAdd | OpSub.

Inductive NumpyFunction := np_sin | np_cos | np_sqrt | np_exp.

Class HostNumbers (num : Type) := {
  float_of_text : string -> res num;
  num_of_int : Z -> num;
  num_complex : num -> res num;
  num_pi : num;
  num_operator : BinaryOperator -> num -> num -> res num;
  num_function : NumpyFunction -> num -> res num
}.

(** The nodes of the rule [expression], by class, and of [number] and
    [realN]; [OtherExp], [NumOther], [RealOther] and [OtherFunction] stand
    for a node that none of the tests of the evaluator recognises.  An
    operator node carries its operator token and a signed node its sign, as
    the grammar has them. *)
Inductive SignToken := PLUS | MINUS.
Inductive MulDivToken := TIMES | DIVIDE.
Inductive FunctionToken := SIN | COS | SQRT | EXP | CIS | OtherFunction (text : string).

Inductive RealNContext :=
| RealFLOAT (text : string)
| RealINT (text : string)
| RealOther (text : string).

Inductive NumberBody :=
| NumRealN (real : RealNContext)
| NumImaginaryN (real : RealNContext)
| NumI
| NumPI
| NumOther.

Record NumberContext := {
  Number_MINUS : bool;
  Number_body : NumberBody;
  Number_getText : string
}.

Inductive ExpressionNode :=
| ParenthesisExp (e : ExpressionNode)
| PowerExp (e1 e2 : ExpressionNode)
| MulDivExp (token : MulDivToken) (e1 e2 : ExpressionNode)
| AddSubExp (token : SignToken) (e1 e2 : ExpressionNode)
| SignedExp (sign : SignToken) (e : ExpressionNode)
| FunctionExp (function : FunctionToken) (e : ExpressionNode)
| AddrExp (addr : AddrContext)
| NumberExp (number_ctx : NumberContext)
| VariableExp (identifier : string)
| OtherExp (text : string).

(** Modelled from the spec: an evaluated expression is symbolic (an
    [Expression] of [pyquil.quilatom]) unless it is a host number. *)
Definition is_Expression {num} (v : PyVal num) : bool :=
  match v with
  | VNumber _ => false
  | _ => true
  end.

Definition operator_symbol (op : BinaryOperator) : string :=
  match op with
  | OpPow => "^"
  | OpMul => "*"
  | OpTrueDiv => "/"
  | OpAdd => "+"
  | OpSub => "-"
  end.

Module Evaluator.
Section Evaluator.
Context {num : Type} `{HostNumbers num}.

(** Modelled from the spec: an operator of module [operator] on two
    values.  On two numbers it is the host's; when an operand is symbolic
    the arithmetic methods of [Expression] build the operator node over
    the two operands. *)
Definition apply_operator (op : BinaryOperator) (a b : PyVal num) : res (PyVal num) :=
  match a, b with
  | VNumber x, VNumber y => n ← num_operator op x y; Ok (VNumber n)
  | _, _ => Ok (VBinaryExp (operator_symbol op) a b)
  end.

(** [_sign] *)
Definition _sign (MINUS_present : bool) : Z := if MINUS_present then -1 else 1.

(** [_real] *)
Definition _real (real : RealNContext) : res num :=
  match real with
  | RealFLOAT text => float_of_text text
  | RealINT text => z ← Py.int text; Ok (num_of_int z)
  | RealOther text => RuntimeError ("Unexpected real: " +:+ text)
  end.

(** [_number] *)
Definition _number (number_ctx : NumberContext) : res num :=
  let sign := num_of_int (_sign (Number_MINUS number_ctx)) in
  match Number_body number_ctx with
  | NumRealN real => x ← _real real; num_operator OpMul sign x
  | NumImaginaryN real =>
      x ← _real real; c ← num_complex x; num_operator OpMul sign c
  | NumI => c ← num_complex (num_of_int 1); num_operator OpMul sign c
  | NumPI => num_operator OpMul sign num_pi
  | NumOther => RuntimeError ("Unexpected number: " +:+ Number_getText number_ctx)
  end.

(** [_apply_function]; the symbolic functions [quil_sin], ... of
    [pyquil.quilatom] are modelled from the spec as function nodes. *)
Definition _apply_function (func : FunctionToken) (arg : PyVal num) : res (PyVal num) :=
  match arg with
  | VNumber x =>
      match func with
      | SIN => n ← num_function np_sin x; Ok (VNumber n)
      | COS => n ← num_function np_cos x; Ok (VNumber n)
      | SQRT => n ← num_function np_sqrt x; Ok (VNumber n)
      | EXP => n ← num_function np_exp x; Ok (VNumber n)
      | CIS =>
          c ← num_function np_cos x;
          i ← num_complex (num_of_int 1);
          s ← num_function np_sin x;
          m ← num_operator OpMul i s;
          n ← num_operator OpAdd c m;
          Ok (VNumber n)
      | OtherFunction text => RuntimeError ("Unexpected function to apply: " +:+ text)
      end
  | _ =>
      match func with
      | SIN => Ok (VFunction "SIN" arg)
      | COS => Ok (VFunction "COS" arg)
      | SQRT => Ok (VFunction "SQRT" arg)
      | EXP => Ok (VFunction "EXP" arg)
      | CIS => Ok (VFunction "CIS" arg)
      | OtherFunction text => RuntimeError ("Unexpected function to apply: " +:+ text)
      end
  end.

(** [_variable] *)
Definition _variable (identifier : string) : PyVal num := VParameter identifier.

(** [_expression], with [_binary_exp] unfolded: both operands are
    evaluated, the left one first, then the operator is applied. *)
Fixpoint _expression (expression : ExpressionNode) : res (PyVal num) :=
  match expression with
  | ParenthesisExp e => _expression e
  | PowerExp e1 e2 =>
      a ← _expression e1; b ← _expression e2; apply_operator OpPow a b
  | MulDivExp TIMES e1 e2 =>
      a ← _expression e1; b ← _expression e2; apply_operator OpMul a b
  | MulDivExp DIVIDE e1 e2 =>
      a ← _expression e1; b ← _expression e2; apply_operator OpTrueDiv a b
  | AddSubExp PLUS e1 e2 =>
      a ← _expression e1; b ← _expression e2; apply_operator OpAdd a b
  | AddSubExp MINUS e1 e2 =>
      a ← _expression e1; b ← _expression e2; apply_operator OpSub a b
  | SignedExp PLUS e => _expression e
  | SignedExp MINUS e =>
      v ← _expression e; apply_operator OpMul (VNumber (num_of_int (-1))) v
  | FunctionExp func e => v ← _expression e; _apply_function func v
  | AddrExp addr => m ← _addr addr; Ok (VMemoryReference m)
  | NumberExp number_ctx => x ← _number number_ctx; Ok (VNumber x)
  | VariableExp identifier => Ok (_variable identifier)
  | OtherExp text => RuntimeError ("Unexpected expression type:" +:+ text)
  end.

End Evaluator.
End Evaluator.

(** The address and variable leaves of an expression. *)
Fixpoint addr_leaves (e : ExpressionNode) : list AddrContext :=
  match e with
  | ParenthesisExp e | SignedExp _ e | FunctionExp _ e => addr_leaves e
  | PowerExp e1 e2 | MulDivExp _ e1 e2 | AddSubExp _ e1 e2 =>
      addr_leaves e1 ++ addr_leaves e2
  | AddrExp addr => [addr]
  | NumberExp _ | VariableExp _ | OtherExp _ => []
  end.

Fixpoint variable_leaves (e : ExpressionNode) : list string :=
  match e with
  | ParenthesisExp e | SignedExp _ e | FunctionExp _ e => variable_leaves e
  | PowerExp e1 e2 | MulDivExp _ e1 e2 | AddSubExp _ e1 e2 =>
      variable_leaves e1 ++ variable_leaves e2
  | VariableExp identifier => [identifier]
  | NumberExp _ | AddrExp _ | OtherExp _ => []
  end.

(** The listener on top of the evaluator: the collaborators whose
    expression nodes are [ExpressionNode] and whose [_expression] is the
    evaluator above. *)
Definition evaluator_host {num : Type} `{HostNumbers num}
    (gates : gmap string (list (PyVal num + QubitRef) -> res (Gate num)))
    (waveform_classes : gset string)
    (str_of_mrefs : gset MemoryReference -> string)
    (out_of : Instr num -> string) : Host := {|
  number := num;
  ExpressionContext := ExpressionNode;
  _expression := Evaluator._expression;
  QUANTUM_GATES := gates;
  _waveform_classes := waveform_classes;
  str_mrefs := str_of_mrefs;
  out := out_of
|}.

(** The other collaborators on top of the evaluator: a number node is a
    [NumberContext], and [_number] is the evaluator's. *)
Definition evaluator_functions {num : Type} `{HostNumbers num}
    (gates : gmap string (list (PyVal num + QubitRef) -> res (Gate num)))
    (waveform_classes : gset string)
    (str_of_mrefs : gset MemoryReference -> string)
    (out_of : Instr num -> string)
    (wf_from_dict : string -> gmap string (PyVal num) -> res (Waveform num))
    (from_list : list (ascii * QubitRef) -> PyVal num -> res (PauliTerm num))
    (str_of_frame : Frame -> string)
    : @HostFunctions (evaluator_host gates waveform_classes str_of_mrefs out_of) :=
  @Build_HostFunctions (evaluator_host gates waveform_classes str_of_mrefs out_of)
    NumberContext Evaluator._number wf_from_dict from_list str_of_frame.

(** [_permutation]: the entries of a matrix that has exactly one row.  The
    rows are counted before any entry is evaluated. *)
Section Permutation.
Context `{Host}.

Definition _permutation (matrix : list (list ExpressionContext)) : res (list (PyVal number)) :=
  match matrix with
  | [row] => mapM _expression row
  | _ =>
      RuntimeError
        ("Permutation gates are defined by a single row, but found "
           +:+ Py.str_int (Z.of_nat (length matrix)) +:+ " during parsing.")
  end.

End Permutation.

(** ** The other handlers of the listener *)

Section Instructions.
Context `{Host} `{!HostFunctions}.

Abbreviation Val := (PyVal number).
Abbreviation Instruction := (Instr number).

(** *** Parse-tree nodes

    A variable node is held by the text of its identifier, which is all
    that [_variable] reads. *)

Record DefGateContext := {
  DefGate_name : TextContext;
  DefGate_gatetype : option TextContext;
  DefGate_matrix : list (list ExpressionContext);
  DefGate_variable : list string
}.

Record PauliTermContext := {
  PauliTerm_IDENTIFIER : string;
  PauliTerm_qubitVariable : list TextContext;
  PauliTerm_expression : ExpressionContext
}.

(** [DefGateAsPauli_pauliTerm] is [ctx.pauliTerms().pauliTerm()]. *)
Record DefGateAsPauliContext := {
  DefGateAsPauli_name : TextContext;
  DefGateAsPauli_variable : list string;
  DefGateAsPauli_qubitVariable : list TextContext;
  DefGateAsPauli_pauliTerm : list PauliTermContext
}.

Record MeasureContext := {
  Measure_qubit : TextContext;
  Measure_addr : option AddrContext
}.

Record LabelContext := { Label_IDENTIFIER : string }.

Record DefLabelContext := { DefLabel_label : LabelContext }.

Record JumpContext := { Jump_label : LabelContext }.

Record JumpWhenContext := {
  JumpWhen_label : LabelContext;
  JumpWhen_addr : AddrContext
}.

Record JumpUnlessContext := {
  JumpUnless_label : LabelContext;
  JumpUnless_addr : AddrContext
}.

Record ResetStateContext := { ResetState_qubit : option TextContext }.

(** The keyword token of a unary, an arithmetic and a comparison
    instruction: the grammar has exactly one of each group. *)
Inductive UnaryKeyword := TRUE | FALSE | NOT | NEG.

Record ClassicalUnaryContext := {
  Unary_keyword : UnaryKeyword;
  Unary_addr : AddrContext
}.

Inductive ArithmeticKeyword := ADD | SUB | MUL | DIV.

Record ArithmeticBinaryOpContext := {
  Arithmetic_keyword : ArithmeticKeyword;
  Arithmetic_addr : list AddrContext;
  Arithmetic_number : option NumberNode
}.

Record MoveContext := {
  Move_addr : list AddrContext;
  Move_number : option NumberNode
}.

Record ExchangeContext := { Exchange_addr : list AddrContext }.

Record ConvertContext := { Convert_addr : list AddrContext }.

Record LoadContext := {
  Load_addr : list AddrContext;
  Load_IDENTIFIER : option TerminalNode
}.

Record StoreContext := {
  Store_IDENTIFIER : option TerminalNode;
  Store_addr : list AddrContext;
  Store_number : option NumberNode
}.

Inductive ComparisonKeyword := EQ | GT | GE | LT | LE.

Record ClassicalComparisonContext := {
  Comparison_keyword : ComparisonKeyword;
  Comparison_addr : list AddrContext;
  Comparison_number : option NumberNode
}.

Record PragmaContext := {
  Pragma_IDENTIFIER : option string;
  Pragma_keyword : option TextContext;
  Pragma_pragma_name : list TextContext;
  Pragma_STRING : option string
}.

Record FrameSpecContext := {
  FrameSpec_frameAttr : TextContext;
  FrameSpec_STRING : option string;
  FrameSpec_expression : option ExpressionContext
}.

Record DefFrameContext := {
  DefFrame_frame : FrameContext;
  DefFrame_frameSpec : list FrameSpecContext
}.

Record WaveformContext := {
  Waveform_waveformName : list TextContext;
  Waveform_namedParam : list NamedParamContext
}.

Record PulseContext := {
  Pulse_frame : FrameContext;
  Pulse_waveform : WaveformContext;
  Pulse_NONBLOCKING : bool
}.

(** The nodes of SET-FREQUENCY, SHIFT-FREQUENCY, SET-PHASE, SHIFT-PHASE
    and SET-SCALE have the same children: a frame and an expression. *)
Record FrameExpressionContext := {
  FrameExpression_frame : FrameContext;
  FrameExpression_expression : ExpressionContext
}.

Record SwapPhaseContext := { SwapPhase_frame : list FrameContext }.

Record CaptureContext := {
  Capture_frame : FrameContext;
  Capture_waveform : WaveformContext;
  Capture_addr : AddrContext;
  Capture_NONBLOCKING : bool
}.

Record RawCaptureContext := {
  RawCapture_frame : FrameContext;
  RawCapture_expression : ExpressionContext;
  RawCapture_addr : AddrContext;
  RawCapture_NONBLOCKING : bool
}.

(** *** Helper functions *)

(** [_label] *)
Definition _label (label : LabelContext) : Label := mkLabel (Label_IDENTIFIER label).

(** [_pauliTerm]; [zip] stops at the shorter of the letters and the
    qubits. *)
Definition _pauliTerm (term : PauliTermContext) : res (PauliTerm number) :=
  let letters := PauliTerm_IDENTIFIER term in
  args ← mapM _formalQubit (PauliTerm_qubitVariable term);
  coeff ← _expression (PauliTerm_expression term);
  PauliTerm_from_list (zip (list_ascii_of_string letters) args) coeff.

(** [_waveform] *)
Definition _waveform (ctx : WaveformContext) : res (Waveform number) :=
  let name := _waveform_name (Waveform_waveformName ctx) in
  param_dict ← _named_parameters (Waveform_namedParam ctx);
  if bool_decide (param_dict ≠ ∅) then _wf_from_dict name param_dict
  else Ok (WaveformReference name).

(** [_frame(ctx.frame(i))]: [ctx.frame(i)] is [None] when the node has no
    such child, and [_frame] then fails on its first accessor. *)
Definition _frame_at (frames : list FrameContext) (i : nat) : res Frame :=
  match frames !! i with
  | Some f => _frame f
  | None => AttributeError "'NoneType' object has no attribute 'formalQubit'"
  end.

(** The right operand [_number(ctx.number())] if the node has a number,
    [_addr(ctx.addr(i))] otherwise. *)
Definition number_or_addr (number_node : option NumberNode) (addrs : list AddrContext)
    (i : nat) : res (number + MemoryReference) :=
  match number_node with
  | Some n => x ← _number n; Ok (inl x)
  | None => m ← _addr_at addrs i; Ok (inr m)
  end.

(** [self.result.append(e)] for an argument [e] whose evaluation may
    raise: the bound method [self.result.append] is looked up first, then
    the argument is evaluated, then the call is made. *)
Definition append_arg (arg : res Instruction) (s : PyQuilListener) : res PyQuilListener :=
  match result s with
  | Some _ => instr ← arg; append instr s
  | None => AttributeError "'NoneType' object has no attribute 'append'"
  end.

(** *** Gate definitions *)

(** [exitDefGate] *)
Definition exitDefGate (ctx : DefGateContext) (s : PyQuilListener) : res PyQuilListener :=
  let gate_name := getText (DefGate_name ctx) in
  let gate_type := DefGate_gatetype ctx in
  if bool_decide (getText <$> gate_type = Some "PERMUTATION") then
    permutation ← _permutation (DefGate_matrix ctx);
    append (DefPermutationGate gate_name permutation) s
  else
    matrix ← _matrix (DefGate_matrix ctx);
    let parameters := Evaluator._variable <$> DefGate_variable ctx in
    append (DefGate gate_name matrix parameters) s.

(** [exitDefGateAsPauli] *)
Definition exitDefGateAsPauli (ctx : DefGateAsPauliContext) (s : PyQuilListener)
    : res PyQuilListener :=
  let gate_name := getText (DefGateAsPauli_name ctx) in
  let parameters := Evaluator._variable <$> DefGateAsPauli_variable ctx in
  arguments ← mapM _formalQubit (DefGateAsPauli_qubitVariable ctx);
  body ← mapM _pauliTerm (DefGateAsPauli_pauliTerm ctx);
  append (DefGateByPaulis gate_name parameters arguments body) s.

(** *** Measurement, control flow and reset *)

(** [exitMeasure] *)
Definition exitMeasure (ctx : MeasureContext) (s : PyQuilListener) : res PyQuilListener :=
  qubit ← _qubit (Measure_qubit ctx);
  classical ← match Measure_addr ctx with
              | Some a => m ← _addr a; Ok (Some m)
              | None => Ok None
              end;
  append (Measurement qubit classical) s.

(** [exitDefLabel], [exitJump], [exitJumpWhen], [exitJumpUnless] *)
Definition exitDefLabel (ctx : DefLabelContext) (s : PyQuilListener) : res PyQuilListener :=
  append (JumpTarget (_label (DefLabel_label ctx))) s.

Definition exitJump (ctx : JumpContext) (s : PyQuilListener) : res PyQuilListener :=
  append (Jump (_label (Jump_label ctx))) s.

Definition exitJumpWhen (ctx : JumpWhenContext) (s : PyQuilListener) : res PyQuilListener :=
  append_arg (condition ← _addr (JumpWhen_addr ctx);
              Ok (JumpWhen (_label (JumpWhen_label ctx)) condition)) s.

Definition exitJumpUnless (ctx : JumpUnlessContext) (s : PyQuilListener)
    : res PyQuilListener :=
  append_arg (condition ← _addr (JumpUnless_addr ctx);
              Ok (JumpUnless (_label (JumpUnless_label ctx)) condition)) s.

(** [exitResetState] *)
Definition exitResetState (ctx : ResetStateContext) (s : PyQuilListener)
    : res PyQuilListener :=
  match ResetState_qubit ctx with
  | Some q => append_arg (qubit ← _qubit q; Ok (ResetQubit qubit)) s
  | None => append Reset s
  end.

(** *** Classical instructions *)

(** [exitClassicalUnary] *)
Definition exitClassicalUnary (ctx : ClassicalUnaryContext) (s : PyQuilListener)
    : res PyQuilListener :=
  match Unary_keyword ctx with
  | TRUE => append_arg (target ← _addr (Unary_addr ctx); Ok (ClassicalTrue target)) s
  | FALSE => append_arg (target ← _addr (Unary_addr ctx); Ok (ClassicalFalse target)) s
  | NOT => append_arg (target ← _addr (Unary_addr ctx); Ok (ClassicalNot target)) s
  | NEG => append_arg (target ← _addr (Unary_addr ctx); Ok (ClassicalNeg target)) s
  end.

(** [exitArithmeticBinaryOp] *)
Definition exitArithmeticBinaryOp (ctx : ArithmeticBinaryOpContext) (s : PyQuilListener)
    : res PyQuilListener :=
  left ← _addr_at (Arithmetic_addr ctx) 0;
  right ← number_or_addr (Arithmetic_number ctx) (Arithmetic_addr ctx) 1;
  match Arithmetic_keyword ctx with
  | ADD => append (ClassicalAdd left right) s
  | SUB => append (ClassicalSub left right) s
  | MUL => append (ClassicalMul left right) s
  | DIV => append (ClassicalDiv left right) s
  end.

(** [exitMove] *)
Definition exitMove (ctx : MoveContext) (s : PyQuilListener) : res PyQuilListener :=
  target ← _addr_at (Move_addr ctx) 0;
  source ← number_or_addr (Move_number ctx) (Move_addr ctx) 1;
  append (ClassicalMove target source) s.

(** [exitExchange], [exitConvert] *)
Definition exitExchange (ctx : ExchangeContext) (s : PyQuilListener) : res PyQuilListener :=
  append_arg (left ← _addr_at (Exchange_addr ctx) 0;
              right ← _addr_at (Exchange_addr ctx) 1;
              Ok (ClassicalExchange left right)) s.

Definition exitConvert (ctx : ConvertContext) (s : PyQuilListener) : res PyQuilListener :=
  append_arg (left ← _addr_at (Convert_addr ctx) 0;
              right ← _addr_at (Convert_addr ctx) 1;
              Ok (ClassicalConvert left right)) s.

(** [exitLoad], [exitStore]: the identifier is handed on as the token
    node, not as its text. *)
Definition exitLoad (ctx : LoadContext) (s : PyQuilListener) : res PyQuilListener :=
  append_arg (target ← _addr_at (Load_addr ctx) 0;
              right ← _addr_at (Load_addr ctx) 1;
              Ok (ClassicalLoad target (Load_IDENTIFIER ctx) right)) s.

Definition exitStore (ctx : StoreContext) (s : PyQuilListener) : res PyQuilListener :=
  right ← number_or_addr (Store_number ctx) (Store_addr ctx) 1;
  append_arg (left ← _addr_at (Store_addr ctx) 0;
              Ok (ClassicalStore (Store_IDENTIFIER ctx) left right)) s.

(** [exitClassicalComparison] *)
Definition exitClassicalComparison (ctx : ClassicalComparisonContext) (s : PyQuilListener)
    : res PyQuilListener :=
  target ← _addr_at (Comparison_addr ctx) 0;
  left ← _addr_at (Comparison_addr ctx) 1;
  right ← number_or_addr (Comparison_number ctx) (Comparison_addr ctx) 2;
  match Comparison_keyword ctx with
  | EQ => append (ClassicalEqual target left right) s
  | GT => append (ClassicalGreaterThan target left right) s
  | GE => append (ClassicalGreaterEqual target left right) s
  | LT => append (ClassicalLessThan target left right) s
  | LE => append (ClassicalLessEqual target left right) s
  end.

(** *** Pragmas *)

(** [(ctx.IDENTIFIER() or ctx.keyword()).getText()] *)
Definition pragma_command (ctx : PragmaContext) : res string :=
  match Pragma_IDENTIFIER ctx with
  | Some text => Ok text
  | None =>
      match Pragma_keyword ctx with
      | Some keyword => Ok (getText keyword)
      | None => AttributeError "'NoneType' object has no attribute 'getText'"
      end
  end.

(** [exitPragma] *)
Definition exitPragma (ctx : PragmaContext) (s : PyQuilListener) : res PyQuilListener :=
  let args := getText <$> Pragma_pragma_name ctx in
  match Pragma_STRING ctx with
  | Some text =>
      append_arg (command ← pragma_command ctx;
                  Ok (Pragma command args (Some (Py.strip_ends text)))) s
  | None =>
      append_arg (command ← pragma_command ctx; Ok (Pragma command args None)) s
  end.

(** *** Frames and pulses *)

(** [item.STRING().getText()] and [_expression(item.expression())] for a
    child that may be absent: [_expression(None)] passes every
    [isinstance] test and fails on [expression.getText()]. *)
Definition STRING_text (text : option string) : res string :=
  match text with
  | Some t => Ok t
  | None => AttributeError "'NoneType' object has no attribute 'getText'"
  end.

Definition expression_of (e : option ExpressionContext) : res Val :=
  match e with
  | Some e => _expression e
  | None => AttributeError "'NoneType' object has no attribute 'getText'"
  end.

(** [_add_option], the local function of [exitDefFrame]; [options] is the
    dict it updates. *)
Definition _add_option (frame : Frame) (item : FrameSpecContext)
    (options : gmap string (string + Val)) : res (gmap string (string + Val)) :=
  let attr := getText (FrameSpec_frameAttr item) in
  if bool_decide (attr = "DIRECTION") then
    text ← STRING_text (FrameSpec_STRING item);
    Ok (<[ "direction" := inl (_str_contents text) ]> options)
  else if bool_decide (attr = "HARDWARE-OBJECT") then
    text ← STRING_text (FrameSpec_STRING item);
    Ok (<[ "hardware_object" := inl (_str_contents text) ]> options)
  else if bool_decide (attr = "INITIAL-FREQUENCY") then
    value ← expression_of (FrameSpec_expression item);
    Ok (<[ "initial_frequency" := inr value ]> options)
  else if bool_decide (attr = "SAMPLE-RATE") then
    value ← expression_of (FrameSpec_expression item);
    Ok (<[ "sample_rate" := inr value ]> options)
  else if bool_decide (attr = "CENTER-FREQUENCY") then
    value ← expression_of (FrameSpec_expression item);
    Ok (<[ "center_frequency" := inr value ]> options)
  else
    ValueError ("Unexpected attribute " +:+ attr +:+ " in definition of frame "
                  +:+ str_Frame frame).

Fixpoint add_options (frame : Frame) (items : list FrameSpecContext)
    (options : gmap string (string + Val)) : res (gmap string (string + Val)) :=
  match items with
  | [] => Ok options
  | item :: rest =>
      options' ← _add_option frame item options;
      add_options frame rest options'
  end.

(** [exitDefFrame] *)
Definition exitDefFrame (ctx : DefFrameContext) (s : PyQuilListener) : res PyQuilListener :=
  frame ← _frame (DefFrame_frame ctx);
  options ← add_options frame (DefFrame_frameSpec ctx) ∅;
  append (DefFrame frame options) s.

(** [exitPulse] *)
Definition exitPulse (ctx : PulseContext) (s : PyQuilListener) : res PyQuilListener :=
  frame ← _frame (Pulse_frame ctx);
  waveform ← _waveform (Pulse_waveform ctx);
  append (Pulse frame waveform (Pulse_NONBLOCKING ctx)) s.

(** [exitSetFrequency], [exitShiftFrequency], [exitSetPhase],
    [exitShiftPhase], [exitSetScale] *)
Definition exitSetFrequency (ctx : FrameExpressionContext) (s : PyQuilListener)
    : res PyQuilListener :=
  frame ← _frame (FrameExpression_frame ctx);
  freq ← _expression (FrameExpression_expression ctx);
  append (SetFrequency frame freq) s.

Definition exitShiftFrequency (ctx : FrameExpressionContext) (s : PyQuilListener)
    : res PyQuilListener :=
  frame ← _frame (FrameExpression_frame ctx);
  freq ← _expression (FrameExpression_expression ctx);
  append (ShiftFrequency frame freq) s.

Definition exitSetPhase (ctx : FrameExpressionContext) (s : PyQuilListener)
    : res PyQuilListener :=
  frame ← _frame (FrameExpression_frame ctx);
  phase ← _expression (FrameExpression_expression ctx);
  append (SetPhase frame phase) s.

Definition exitShiftPhase (ctx : FrameExpressionContext) (s : PyQuilListener)
    : res PyQuilListener :=
  frame ← _frame (FrameExpression_frame ctx);
  phase ← _expression (FrameExpression_expression ctx);
  append (ShiftPhase frame phase) s.

Definition exitSetScale (ctx : FrameExpressionContext) (s : PyQuilListener)
    : res PyQuilListener :=
  frame ← _frame (FrameExpression_frame ctx);
  scale ← _expression (FrameExpression_expression ctx);
  append (SetScale frame scale) s.

(** [exitSwapPhase] *)
Definition exitSwapPhase (ctx : SwapPhaseContext) (s : PyQuilListener)
    : res PyQuilListener :=
  frameA ← _frame_at (SwapPhase_frame ctx) 0;
  frameB ← _frame_at (SwapPhase_frame ctx) 1;
  append (SwapPhase frameA frameB) s.

(** [exitCapture], [exitRawCapture] *)
Definition exitCapture (ctx : CaptureContext) (s : PyQuilListener) : res PyQuilListener :=
  frame ← _frame (Capture_frame ctx);
  kernel ← _waveform (Capture_waveform ctx);
  memory_region ← _addr (Capture_addr ctx);
  append (Capture frame kernel memory_region (Capture_NONBLOCKING ctx)) s.

Definition exitRawCapture (ctx : RawCaptureContext) (s : PyQuilListener)
    : res PyQuilListener :=
  frame ← _frame (RawCapture_frame ctx);
  duration ← _expression (RawCapture_expression ctx);
  memory_region ← _addr (RawCapture_addr ctx);
  append (RawCapture frame duration memory_region (RawCapture_NONBLOCKING ctx)) s.

End Instructions.

(** ** The tree walk

    The parse tree, as far as the handlers of the listener see it.  An
    instruction node is a node of the rule [instr] that has a handler, or
    a gate on circuit qubits; a circuit body also has the measure and
    reset forms on circuit qubits; a top-level node is an instruction node
    or a definition, and the circuit and calibration definitions bracket a
    body with an enter and an exit event.  No other rule of the grammar
    has a handler, so these are all the events that reach the listener.
    The walker calls the enter handler of a node, walks the children in
    order, then calls the exit handler. *)

Section Walk.
Context `{Host} `{!HostFunctions}.

Inductive InstrNode :=
| NGate (ctx : GateContext)
| NCircuitGate (ctx : CircuitGateContext)
| NHalt
| NNop
| NWait
| NFenceAll
| NFence (ctx : FenceContext)
| NLogicalBinaryOp (ctx : LogicalBinaryOpContext)
| NMemoryDescriptor (ctx : MemoryDescriptorContext)
| NDelay (ctx : DelayContext)
| NMeasure (ctx : MeasureContext)
| NDefLabel (ctx : DefLabelContext)
| NJump (ctx : JumpContext)
| NJumpWhen (ctx : JumpWhenContext)
| NJumpUnless (ctx : JumpUnlessContext)
| NResetState (ctx : ResetStateContext)
| NClassicalUnary (ctx : ClassicalUnaryContext)
| NArithmeticBinaryOp (ctx : ArithmeticBinaryOpContext)
| NMove (ctx : MoveContext)
| NExchange (ctx : ExchangeContext)
| NConvert (ctx : ConvertContext)
| NLoad (ctx : LoadContext)
| NStore (ctx : StoreContext)
| NClassicalComparison (ctx : ClassicalComparisonContext)
| NInclude (ctx : IncludeContext)
| NPragma (ctx : PragmaContext)
| NPulse (ctx : PulseContext)
| NSetFrequency (ctx : FrameExpressionContext)
| NShiftFrequency (ctx : FrameExpressionContext)
| NSetPhase (ctx : FrameExpressionContext)
| NShiftPhase (ctx : FrameExpressionContext)
| NSwapPhase (ctx : SwapPhaseContext)
| NSetScale (ctx : FrameExpressionContext)
| NCapture (ctx : CaptureContext)
| NRawCapture (ctx : RawCaptureContext).

(** The body of a circuit definition: the instruction nodes, and the
    measure and reset forms on circuit qubits. *)
Inductive CircuitInstrNode :=
| CNInstr (n : InstrNode)
| CNCircuitMeasure (ctx : CircuitMeasureContext)
| CNCircuitResetState (ctx : CircuitResetStateContext).

Inductive AllInstrNode :=
| NInstr (i : InstrNode)
| NDefGate (ctx : DefGateContext)
| NDefGateAsPauli (ctx : DefGateAsPauliContext)
| NDefCircuit (ctx : DefCircuitContext) (body : list CircuitInstrNode)
| NDefFrame (ctx : DefFrameContext)
| NDefWaveform (ctx : DefWaveformContext)
| NDefCalibration (ctx : DefCalibrationContext) (body : list InstrNode)
| NDefMeasCalibration (ctx : DefMeasCalibrationContext) (body : list InstrNode).

Definition walk_instr (n : InstrNode) (s : PyQuilListener) : res PyQuilListener :=
  match n with
  | NGate ctx => exitGate ctx s
  | NCircuitGate ctx => exitCircuitGate ctx s
  | NHalt => exitHalt s
  | NNop => exitNop s
  | NWait => exitWait s
  | NFenceAll => exitFenceAll s
  | NFence ctx => exitFence ctx s
  | NLogicalBinaryOp ctx => exitLogicalBinaryOp ctx s
  | NMemoryDescriptor ctx => exitMemoryDescriptor ctx s
  | NDelay ctx => exitDelay ctx s
  | NMeasure ctx => exitMeasure ctx s
  | NDefLabel ctx => exitDefLabel ctx s
  | NJump ctx => exitJump ctx s
  | NJumpWhen ctx => exitJumpWhen ctx s
  | NJumpUnless ctx => exitJumpUnless ctx s
  | NResetState ctx => exitResetState ctx s
  | NClassicalUnary ctx => exitClassicalUnary ctx s
  | NArithmeticBinaryOp ctx => exitArithmeticBinaryOp ctx s
  | NMove ctx => exitMove ctx s
  | NExchange ctx => exitExchange ctx s
  | NConvert ctx => exitConvert ctx s
  | NLoad ctx => exitLoad ctx s
  | NStore ctx => exitStore ctx s
  | NClassicalComparison ctx => exitClassicalComparison ctx s
  | NInclude ctx => exitInclude ctx s
  | NPragma ctx => exitPragma ctx s
  | NPulse ctx => exitPulse ctx s
  | NSetFrequency ctx => exitSetFrequency ctx s
  | NShiftFrequency ctx => exitShiftFrequency ctx s
  | NSetPhase ctx => exitSetPhase ctx s
  | NShiftPhase ctx => exitShiftPhase ctx s
  | NSwapPhase ctx => exitSwapPhase ctx s
  | NSetScale ctx => exitSetScale ctx s
  | NCapture ctx => exitCapture ctx s
  | NRawCapture ctx => exitRawCapture ctx s
  end.

Fixpoint walk_body (body : list InstrNode) (s : PyQuilListener) : res PyQuilListener :=
  match body with
  | [] => Ok s
  | n :: rest => s' ← walk_instr n s; walk_body rest s'
  end.

Definition walk_circuit_instr (n : CircuitInstrNode) (s : PyQuilListener)
    : res PyQuilListener :=
  match n with
  | CNInstr i => walk_instr i s
  | CNCircuitMeasure ctx => exitCircuitMeasure ctx s
  | CNCircuitResetState ctx => exitCircuitResetState ctx s
  end.

Fixpoint walk_circuit_body (body : list CircuitInstrNode) (s : PyQuilListener)
    : res PyQuilListener :=
  match body with
  | [] => Ok s
  | n :: rest => s' ← walk_circuit_instr n s; walk_circuit_body rest s'
  end.

Definition walk_defcircuit (ctx : DefCircuitContext) (body : list CircuitInstrNode)
    (s : PyQuilListener) : res PyQuilListener :=
  s1 ← enterDefCircuit s;
  s2 ← walk_circuit_body body s1;
  exitDefCircuit ctx s2.

Definition walk_node (n : AllInstrNode) (s : PyQuilListener) : res PyQuilListener :=
  match n with
  | NInstr i => walk_instr i s
  | NDefGate ctx => exitDefGate ctx s
  | NDefGateAsPauli ctx => exitDefGateAsPauli ctx s
  | NDefCircuit ctx body => walk_defcircuit ctx body s
  | NDefFrame ctx => exitDefFrame ctx s
  | NDefWaveform ctx => exitDefWaveform ctx s
  | NDefCalibration ctx body =>
      s1 ← enterDefCalibration s; s2 ← walk_body body s1; exitDefCalibration ctx s2
  | NDefMeasCalibration ctx body =>
      s1 ← enterDefMeasCalibration s; s2 ← walk_body body s1;
      exitDefMeasCalibration ctx s2
  end.

Fixpoint walk (tree : list AllInstrNode) (s : PyQuilListener) : res PyQuilListener :=
  match tree with
  | [] => Ok s
  | n :: rest => s' ← walk_node n s; walk rest s'
  end.

(** The definitions that bracket a body, and the number of nodes of the
    body. *)
Definition is_scoped_definition (n : AllInstrNode) : bool :=
  match n with
  | NDefCircuit _ _ | NDefCalibration _ _ | NDefMeasCalibration _ _ => true
  | _ => false
  end.

Definition body_size (n : AllInstrNode) : nat :=
  match n with
  | NDefCircuit _ body => length body
  | NDefCalibration _ body | NDefMeasCalibration _ body => length body
  | _ => 0
  end.

(** *** [run_parser]

    What the lexer and the parser do on a program text is outside this
    file: each reports the mismatches it meets to its error listeners,
    and goes on (recovers) when they return; at the end the parser
    returns the tree.  [run_parser] replaces the error listeners of the
    parser by a [CustomErrorListener]; it leaves the lexer with the
    listener every recognizer of the runtime starts with, the console
    listener, which prints the mismatch and returns. *)
Inductive ErrorListener := ConsoleErrorListener | CustomErrorListener.

Definition listener_syntaxError (listener : ErrorListener) (recognizer : Recognizer)
    (offendingSymbol_text : string) (line column : Z) (msg : string) (e : option (list Z))
    : res unit :=
  match listener with
  | ConsoleErrorListener => Ok ()
  | CustomErrorListener => syntaxError recognizer offendingSymbol_text line column msg e
  end.

Definition lexer_listeners : list ErrorListener := [ConsoleErrorListener].

Definition parser_listeners : list ErrorListener := [] ++ [CustomErrorListener].

Fixpoint notify (listeners : list ErrorListener) (recognizer : Recognizer)
    (offendingSymbol_text : string) (line column : Z) (msg : string) (e : option (list Z))
    : res unit :=
  match listeners with
  | [] => Ok ()
  | listener :: rest =>
      _ ← listener_syntaxError listener recognizer offendingSymbol_text line column msg e;
      notify rest recognizer offendingSymbol_text line column msg e
  end.

Inductive ParserRun :=
| ParserTree (tree : list AllInstrNode)
| ParserMismatch (recognizer : Recognizer) (offendingSymbol_text : string)
    (line column : Z) (msg : string) (e : option (list Z)) (continue : ParserRun)
| LexerMismatch (recognizer : Recognizer) (line column : Z) (msg : string)
    (continue : ParserRun).

(** [parser.quil()]; a lexer mismatch has no offending token and no
    expected tokens. *)
Fixpoint parser_quil (run : ParserRun) : res (list AllInstrNode) :=
  match run with
  | ParserTree tree => Ok tree
  | ParserMismatch recognizer text line column msg e continue =>
      _ ← notify parser_listeners recognizer text line column msg e;
      parser_quil continue
  | LexerMismatch recognizer line column msg continue =>
      _ ← notify lexer_listeners recognizer "" line column msg None;
      parser_quil continue
  end.

Definition run_parser (run : ParserRun) : res (list (Instr number)) :=
  tree ← parser_quil run;
  pyquil_listener ← walk tree init;
  Ok (buffer (result pyquil_listener) pyquil_listener).

End Walk.

(** ** Vocabulary of the properties *)

(** A concrete integer literal (token INT): a non-empty run of decimal
    digits; and the integer it denotes. *)
Definition is_integer_literal (text : string) : bool :=
  bool_decide (text ≠ "")
  && forallb (fun c => bool_decide (is_Some (Ascii.is_nat c))) (list_ascii_of_string text).

Definition decimal_step (acc : N) (c : ascii) : N :=
  (10 * acc + N.of_nat (default 0%nat (Ascii.is_nat c)))%N.

Definition decimal_of (text : string) : N :=
  foldl decimal_step 0%N (list_ascii_of_string text).

(** A non-numeric identifier starts with a letter or an underscore. *)
Definition is_identifier_start (c : ascii) : bool :=
  let n := nat_of_ascii c in
  ((65 <=? n) && (n <=? 90) || (97 <=? n) && (n <=? 122) || (n =? 95))%nat.

Definition is_identifier (text : string) : bool :=
  match text with
  | String c _ => is_identifier_start c
  | EmptyString => false
  end.

(** The modifier keywords of the grammar. *)
Definition supported_modifier (m : string) : bool :=
  bool_decide (m ∈ ["CONTROLLED"; "DAGGER"; "FORKED"]).

(** The gate as the design document describes it.  [window params fo j]
    is the parameter window of the fork applied after [j] other forks;
    [modifier_chain] is the chain of a gate application in written order:
    the modifier qubits are assigned from the front in written order, and
    a fork's window is numbered by the forks written to its right;
    [wrap_chain] wraps a gate with a chain, rightmost entry first. *)
Definition window {number} (params : list (PyVal number)) (forked_offset j : nat)
    : list (PyVal number) :=
  Py.slice params (forked_offset * 2 ^ j) (2 * (forked_offset * 2 ^ j)).

Fixpoint modifier_chain {number} (params : list (PyVal number)) (forked_offset : nat)
    (modifiers : list string) (modifier_qubits : list QubitRef) : list (Modifier number) :=
  match modifiers with
  | [] => []
  | m :: rest =>
      if bool_decide (m = "DAGGER") then
        MDagger :: modifier_chain params forked_offset rest modifier_qubits
      else
        match modifier_qubits with
        | [] => []
        | q :: qs =>
            (if bool_decide (m = "FORKED")
             then MForked q (window params forked_offset (Py.count "FORKED" rest))
             else MControlled q)
            :: modifier_chain params forked_offset rest qs
        end
  end.

Definition wrap_entry {number} (m : Modifier number) (g : Gate number) : Gate number :=
  match m with
  | MControlled q => controlled q g
  | MDagger => dagger g
  | MForked q alt_params => forked q alt_params g
  end.

Definition wrap_chain {number} (chain : list (Modifier number)) (g : Gate number)
    : Gate number :=
  foldr wrap_entry g chain.

(** ** An instance of the collaborators

    Numbers are rationals and an expression node is the outcome of its
    evaluation; the catalog knows the gates RX (one angle, one qubit), X
    and H (one qubit); the waveform templates are those of
    [pyquil.quiltwaveforms]. *)
Definition example_gate (name : string) (parametric : bool)
    (args : list (PyVal Q + QubitRef)) : res (Gate Q) :=
  match parametric, args with
  | true, [inl angle; inr q] => Ok (new_Gate name [angle] [q])
  | false, [inr q] => Ok (new_Gate name [] [q])
  | _, _ => Raise (Exn "TypeError" (name +:+ "() got unexpected arguments"))
  end.

Definition example_gates : gmap string (list (PyVal Q + QubitRef) -> res (Gate Q)) :=
  <[ "RX" := example_gate "RX" true ]>
  (<[ "X" := example_gate "X" false ]> {[ "H" := example_gate "H" false ]}).

Definition example_str_mref (m : MemoryReference) : string :=
  match m with
  | MemRef name offset => name +:+ "[" +:+ Py.str_int offset +:+ "]"
  | Addr value => "ro[" +:+ Py.str_int value +:+ "]"
  end.

Definition example_host : Host := {|
  number := Q;
  ExpressionContext := res (PyVal Q);
  _expression := fun e => e;
  QUANTUM_GATES := example_gates;
  _waveform_classes :=
    list_to_set ["flat"; "gaussian"; "drag_gaussian"; "hrm_gaussian";
                 "erf_square"; "boxcar_kernel"];
  str_mrefs := fun mrefs =>
    "{" +:+ Py.join ", " (example_str_mref <$> elements mrefs) +:+ "}";
  out := fun i => match i with RawInstr text => text | _ => "..." end
|}.

(** A number node is the outcome of its evaluation; a template waveform is
    known when its name is in the catalog; a frame is written as its
    name. *)
Definition example_functions : @HostFunctions example_host :=
  @Build_HostFunctions example_host
    (res Q)
    (fun n => n)
    (fun name params =>
       if bool_decide (name ∈ @_waveform_classes example_host)
       then Ok (TemplateWaveform name params)
       else ValueError ("Unknown template waveform " +:+ name +:+ "."))
    (fun ops coeff => Ok (mkPauliTerm ops coeff))
    frame_name.

(** The number of modifier qubits a modifier list asks for. *)
Definition modifier_arity (modifiers : list string) : nat :=
  length (filter (fun m => m ∈ ["CONTROLLED"; "FORKED"]) modifiers).

(** The display name of a token type: its literal name if it has one,
    else its symbolic name. *)
Definition display_name (parser : Recognizer) (tok : Z) : string :=
  match literalNames parser !! Z.to_nat tok with
  | Some literal_name =>
      if bool_decide (literal_name ≠ "<INVALID>") then literal_name
      else default "" (symbolicNames parser !! Z.to_nat tok)
  | None => ""
  end.

(** Programs for the instance above. *)
Definition ex_init : @PyQuilListener example_host := init.

Definition ex_number (q : Q) : @ExpressionContext example_host := Ok (VNumber q).

Definition ex_param (text : string) (q : Q) : @ParamContext example_host :=
  @Build_ParamContext example_host (Some (ex_number q)) text.

Definition ex_text (text : string) : TextContext := {| getText := text |}.

(** [FORKED RX(0.5, 1.5) 0 1] *)
Definition ex_forked_rx : @GateContext example_host :=
  @Build_GateContext example_host (ex_text "RX") [ex_text "FORKED"]
    [ex_param "0.5" (1 # 2)%Q; ex_param "1.5" (3 # 2)%Q] [ex_text "0"; ex_text "1"].

(** [DELAY 0 "rf" "ro" 1] *)
Definition ex_delay_frames : @DelayContext example_host :=
  @Build_DelayContext example_host [ex_text "0"]
    [String Py.quote_char ("rf" +:+ String Py.quote_char "");
     String Py.quote_char ("ro" +:+ String Py.quote_char "")]
    (ex_number 1%Q).

(** [DEFWAVEFORM gaussian: 1] and [DEFWAVEFORM my_wf(%a): 1, 2] *)
Definition ex_defwaveform_gaussian : @DefWaveformContext example_host :=
  @Build_DefWaveformContext example_host [ex_text "gaussian"] [] [[ex_number 1%Q]].

Definition ex_defwaveform_custom : @DefWaveformContext example_host :=
  @Build_DefWaveformContext example_host [ex_text "my_wf"]
    [@Build_ParamContext example_host None "%a"] [[ex_number 1%Q; ex_number 2%Q]].

(** [DEFCAL RX(theta[0] + 1) 0:] and [DEFCAL RX(%theta) q:] *)
Definition ex_defcal_mref : @DefCalibrationContext example_host :=
  @Build_DefCalibrationContext example_host (ex_text "RX")
    [@Build_ParamContext example_host
       (Some (Ok (VBinaryExp "+" (VMemoryReference (MemRef "theta" 0)) (VNumber 1%Q))))
       "theta[0]+1"]
    [ex_text "0"].

Definition ex_defcal : @DefCalibrationContext example_host :=
  @Build_DefCalibrationContext example_host (ex_text "RX")
    [@Build_ParamContext example_host (Some (Ok (VParameter "theta"))) "%theta"]
    [ex_text "q"].

(** [AND ro[0] 1], [OR ro[0] 1] *)
Definition ex_logical (keyword : LogicalKeyword) : LogicalBinaryOpContext :=
  {| Logical_keyword := keyword;
     Logical_addr := [ {| Addr_IDENTIFIER := Some "ro"; Addr_INT := Some "0" |} ];
     Logical_INT := Some "1" |}.

(** The vocabulary of a small parser: token 1 has a literal name, token 2
    has only a symbolic one. *)
Definition ex_recognizer : Recognizer :=
  {| literalNames := ["<INVALID>"; "'DEFGATE'"; "<INVALID>"];
     symbolicNames := ["<INVALID>"; "DEFGATE"; "INT"] |}.

(** ** The statements of the design document that the listener does not
    meet as written *)

(** "One delay instruction per named frame": the buffer grows by as many
    delay instructions as there are frame names. *)
Definition one_delay_per_named_frame `{Host} (ctx : DelayContext)
    (s s' : PyQuilListener) : Prop :=
  exists delays,
    length delays = length (Delay_STRING ctx)
    ∧ Forall (fun i => is_delay i = true) delays
    ∧ buffer (result s') s' = buffer (result s) s ++ delays.

(** "Fails with the UnknownWaveform error". *)
Definition fails_with_UnknownWaveform {A} (r : res A) : Prop :=
  exists msg, r = Raise (Exn "UnknownWaveform" msg).





(** ** Vocabulary of the further properties *)

(** The position that Python's [l[i]] reads: a negative index counts from
    the end; no position when the index is out of range. *)
Definition py_position {A} (l : list A) (i : Z) : option nat :=
  let n := Z.of_nat (length l) in
  let j := if i <? 0 then i + n else i in
  if (0 <=? j) && (j <? n) then Some (Z.to_nat j) else None.

(** The display of a token type under Python's indexing of the two
    vocabulary tables. *)
Definition py_display_name (parser : Recognizer) (tok : Z) : string :=
  let literal_name :=
    default "" (py_position (literalNames parser) tok ≫= (literalNames parser !!.)) in
  if bool_decide (literal_name ≠ "<INVALID>") then literal_name
  else default "" (py_position (symbolicNames parser) tok ≫= (symbolicNames parser !!.)).

(** Lines of text, each after a line break and four spaces. *)
Definition indented_lines (lines : list string) : string :=
  foldr (fun line rest => String "010" "    " +:+ line +:+ rest) "" lines.

(** A text that neither starts nor ends with the quote character. *)
Definition quote_free_ends (text : string) : Prop :=
  head (list_ascii_of_string text) ≠ Some Py.quote_char
  ∧ last (list_ascii_of_string text) ≠ Some Py.quote_char.

(** The nodes of a circuit body that are kept as text. *)
Definition is_raw_circuit_node `{Host} `{!HostFunctions} (n : CircuitInstrNode) : Prop :=
  match n with
  | CNInstr (NCircuitGate _) | CNCircuitMeasure _ | CNCircuitResetState _ => True
  | _ => False
  end.

(** ** An instance of the numbers

    Python's ints, exactly, and a float only as a value: the operators on
    two ints that give an int, the products of a float with the ints 1 and
    -1, and [np.pi] (the rational that the double denotes).  Where Python
    would round or leave the ints, this instance raises
    NotImplementedError. *)
Inductive ExampleNumber :=
| ExInt (z : Z)
| ExFloat (value : Q).

Definition not_in_example {A} (what : string) : res A :=
  Raise (Exn "NotImplementedError" what).

Definition example_operator (op : BinaryOperator) (x y : ExampleNumber)
    : res ExampleNumber :=
  match op, x, y with
  | OpAdd, ExInt a, ExInt b => Ok (ExInt (a + b))
  | OpSub, ExInt a, ExInt b => Ok (ExInt (a - b))
  | OpMul, ExInt a, ExInt b => Ok (ExInt (a * b))
  | OpMul, ExInt 1, ExFloat v => Ok (ExFloat v)
  | OpMul, ExInt (-1), ExFloat v => Ok (ExFloat (Qopp v))
  | OpPow, ExInt a, ExInt b =>
      if 0 <=? b then Ok (ExInt (a ^ b)) else not_in_example "float power"
  | OpTrueDiv, ExInt a, ExInt b =>
      if b =? 0 then Raise (Exn "ZeroDivisionError" "division by zero")
      else not_in_example "float division"
  | _, _, _ => not_in_example "float arithmetic"
  end.

#[global] Instance example_numbers : HostNumbers ExampleNumber := {|
  float_of_text := fun _ => not_in_example "float literal";
  num_of_int := ExInt;
  num_complex := fun _ => not_in_example "complex number";
  num_pi := ExFloat (884279719003555 # 281474976710656)%Q;
  num_operator := example_operator;
  num_function := fun _ _ => not_in_example "numpy function"
|}.

(** The listener with the evaluator, on these numbers. *)
Definition example_evaluator_host : Host :=
  evaluator_host (num := ExampleNumber) ∅ ∅ (fun _ => "{...}")
    (fun i => match i with RawInstr text => text | _ => "..." end).

(** [2 + 3 * 4], [-pi] and [SIN(theta[0]) * %x] *)
Definition ex_int (text : string) : ExpressionNode :=
  NumberExp {| Number_MINUS := false; Number_body := NumRealN (RealINT text);
               Number_getText := text |}.

Definition ex_two_plus_three_times_four : ExpressionNode :=
  AddSubExp PLUS (ex_int "2") (MulDivExp TIMES (ex_int "3") (ex_int "4")).

Definition ex_theta0 : AddrContext :=
  {| Addr_IDENTIFIER := Some "theta"; Addr_INT := Some "0" |}.

Definition ex_sin_theta_times_x : ExpressionNode :=
  MulDivExp TIMES (FunctionExp SIN (AddrExp ex_theta0)) (VariableExp "x").

(** [DEFCAL RX(SIN(theta[0]) * %x) 0:] for the listener with the
    evaluator. *)
Definition ex_defcal_evaluator : @DefCalibrationContext example_evaluator_host :=
  @Build_DefCalibrationContext example_evaluator_host (ex_text "RX")
    [@Build_ParamContext example_evaluator_host (Some ex_sin_theta_times_x)
       "SIN(theta[0])*%x"]
    [ex_text "0"].

(** More programs for the instances. *)

(** [DAGGER FOO CONTROLLED Y 0 1] and [CONTROLLED CONTROLLED Y 0] *)
Definition ex_gate_unsupported : @GateContext example_host :=
  @Build_GateContext example_host (ex_text "Y")
    [ex_text "DAGGER"; ex_text "FOO"; ex_text "CONTROLLED"] []
    [ex_text "0"; ex_text "1"].

Definition ex_gate_too_few_qubits : @GateContext example_host :=
  @Build_GateContext example_host (ex_text "Y")
    [ex_text "CONTROLLED"; ex_text "CONTROLLED"] [] [ex_text "0"].

(** ["rf"] on qubit 0. *)
Definition ex_frame : FrameContext :=
  {| Frame_formalQubit := [ex_text "0"];
     Frame_STRING := String Py.quote_char ("rf" +:+ String Py.quote_char "") |}.

(** [DEFCIRCUIT BELL a b:] with the body [H a], [MEASURE a ro], [RESET b]. *)
Definition ex_defcircuit : DefCircuitContext :=
  {| DefCircuit_name := ex_text "BELL"; DefCircuit_variable := [];
     DefCircuit_qubitVariable := [ex_text "a"; ex_text "b"] |}.

Definition ex_circuit_body : list (@CircuitInstrNode example_host example_functions) :=
  [@CNInstr example_host example_functions
     (@NCircuitGate example_host example_functions
        (@Build_CircuitGateContext example_host (ex_text "H") [] [ex_text "a"]));
   @CNCircuitMeasure example_host example_functions
     {| CircuitMeasure_circuitQubit := ex_text "a";
        CircuitMeasure_addr := Some (ex_text "ro") |};
   @CNCircuitResetState example_host example_functions
     {| CircuitResetState_circuitQubit := ex_text "b" |}].

(** The named parameters [t: 1, t: 2]. *)
Definition ex_named_params : list (@NamedParamContext example_host) :=
  [@Build_NamedParamContext example_host "t" (ex_number 1%Q);
   @Build_NamedParamContext example_host "t" (ex_number 2%Q)].

(** A matrix of two rows, [1, 0] and [0, 1]. *)
Definition ex_two_rows : list (list (@ExpressionContext example_host)) :=
  [[ex_number 1%Q; ex_number 0%Q]; [ex_number 0%Q; ex_number 1%Q]].

(** The listener after [HALT]: the current buffer holds one
    instruction. *)
Definition ex_after_halt : @PyQuilListener example_host :=
  @mkListener example_host {[ 0%nat := [Halt] ]} (Some 0%nat) None.

(** A gate FOO, which the catalog does not have, on the qubits 0 and 1,
    with the modifiers and the parameters given. *)
Definition ex_foo (modifiers : list string) (params : list (@ParamContext example_host))
    : @GateContext example_host :=
  @Build_GateContext example_host (ex_text "FOO") (ex_text <$> modifiers) params
    [ex_text "0"; ex_text "1"].

(** [PULSE 0 "rf" my_wf] and [MOVE ro[0] 1], and the two as the body of
    a calibration. *)
Definition ex_pulse : @PulseContext example_host :=
  @Build_PulseContext example_host ex_frame
    (@Build_WaveformContext example_host [ex_text "my_wf"] []) false.

Definition ex_move : @MoveContext example_host example_functions :=
  @Build_MoveContext example_host example_functions
    [ {| Addr_IDENTIFIER := Some "ro"; Addr_INT := Some "0" |} ] (Some (Ok 1%Q)).

Definition ex_cal_body : list (@InstrNode example_host example_functions) :=
  [@NPulse example_host example_functions ex_pulse;
   @NMove example_host example_functions ex_move].

(** [HALT], the calibration with that body, the circuit definition above
    and [MEASURE 0 ro[1]]. *)
Definition ex_program : list (@AllInstrNode example_host example_functions) :=
  [@NInstr example_host example_functions (@NHalt example_host example_functions);
   @NDefCalibration example_host example_functions ex_defcal ex_cal_body;
   @NDefCircuit example_host example_functions ex_defcircuit ex_circuit_body;
   @NInstr example_host example_functions
     (@NMeasure example_host example_functions
        {| Measure_qubit := ex_text "0";
           Measure_addr := Some {| Addr_IDENTIFIER := Some "ro"; Addr_INT := Some "1" |} |})].

(** The listener inside a circuit definition entered after [HALT], when
    the body [H a], [MEASURE a ro] has been walked. *)
Definition ex_in_circuit : @PyQuilListener example_host :=
  @mkListener example_host
    (<[ 1%nat := [RawInstr "H a"; RawInstr "MEASURE a ro"] ]> {[ 0%nat := [Halt] ]})
    (Some 1%nat) (Some 0%nat).

(** The other collaborators for the listener with the evaluator, on the
    example numbers; [MOVE ro[0] 3] and [MEASURE 0 ro[0]] there, and the
    listener after [NOP]. *)
Definition example_evaluator_functions : @HostFunctions example_evaluator_host :=
  evaluator_functions (num := ExampleNumber) ∅ ∅ (fun _ => "{...}")
    (fun i => match i with RawInstr text => text | _ => "..." end)
    (fun name params => Ok (TemplateWaveform name params))
    (fun ops coeff => Ok (mkPauliTerm ops coeff))
    frame_name.

Definition ex_move_3 : @MoveContext example_evaluator_host example_evaluator_functions :=
  @Build_MoveContext example_evaluator_host example_evaluator_functions
    [ex_theta0]
    (Some {| Number_MINUS := false; Number_body := NumRealN (RealINT "3");
             Number_getText := "3" |}).

Definition ex_evaluator_body
    : list (@InstrNode example_evaluator_host example_evaluator_functions) :=
  [@NMove example_evaluator_host example_evaluator_functions ex_move_3;
   @NMeasure example_evaluator_host example_evaluator_functions
     {| Measure_qubit := ex_text "0"; Measure_addr := Some ex_theta0 |}].

Definition ex_after_nop : @PyQuilListener example_evaluator_host :=
  @mkListener example_evaluator_host {[ 0%nat := [Nop] ]} (Some 0%nat) None.
(** * Properties *)

(** ** Integer literals and [int()] *)

Lemma lstrip_chars_head p c l : p c = false -> Py.lstrip_chars p (c :: l) = c :: l.
Proof. intros Hc. simpl. by rewrite Hc. Qed.

Lemma lstrip_chars_snoc p c l :
  p c = false -> exists l', Py.lstrip_chars p (l ++ [c]) = l' ++ [c].
Proof.
  intros Hc. induction l as [|a l IH]; simpl.
  - rewrite Hc. by exists [].
  - destruct (p a); [done|]. by exists (a :: l).
Qed.

(** Stripping keeps a first character that is not stripped. *)
Lemma strip_chars_head p c l :
  p c = false -> exists l', Py.strip_chars p (c :: l) = c :: l'.
Proof.
  intros Hc. unfold Py.strip_chars. rewrite lstrip_chars_head by done.
  rewrite reverse_cons.
  destruct (lstrip_chars_snoc p c (reverse l) Hc) as [l' ->].
  exists (reverse l'). by rewrite reverse_app.
Qed.

(** Stripping leaves a text alone when neither end is stripped. *)
Lemma strip_chars_id p l :
  Forall (fun c => p c = false) l -> Py.strip_chars p l = l.
Proof.
  intros Hl. unfold Py.strip_chars.
  assert (Hs : forall k, Forall (fun c => p c = false) k -> Py.lstrip_chars p k = k).
  { intros [|a k] Hk; [done|]. apply lstrip_chars_head. by inversion Hk. }
  rewrite (Hs l Hl), Hs, reverse_involutive; [done|].
  by apply Forall_reverse.
Qed.

Lemma digit_not_space c : is_Some (Ascii.is_nat c) -> Py.isspace c = false.
Proof. destruct c as [[] [] [] [] [] [] [] []]; intros [? ?]; by simplify_eq/=. Qed.

Lemma digits_forall (l : list ascii) :
  forallb (fun c => bool_decide (is_Some (Ascii.is_nat c))) l = true ->
  Forall (fun c => is_Some (Ascii.is_nat c)) l.
Proof.
  rewrite forallb_forall, Forall_forall. intros Hl c Hc.
  apply list_elem_of_In, Hl in Hc. by apply bool_decide_eq_true in Hc.
Qed.

Lemma int_digits_all_digits (l : list ascii) acc b :
  Forall (fun c => is_Some (Ascii.is_nat c)) l ->
  (l ≠ [] ∨ b = true) ->
  Py.int_digits acc b l = Some (foldl decimal_step acc l).
Proof.
  intros Hl. revert acc b. induction Hl as [|c l [d Hd] _ IH]; intros acc b Hne.
  - destruct Hne as [?| ->]; done.
  - cbn [Py.int_digits foldl]. rewrite Hd, IH by auto.
    do 2 f_equal. unfold decimal_step. by rewrite Hd.
Qed.

Lemma int_chars_all_digits (l : list ascii) :
  l ≠ [] -> Forall (fun c => is_Some (Ascii.is_nat c)) l ->
  Py.int_chars l = Some (Z.of_N (foldl decimal_step 0%N l)).
Proof.
  intros Hne Hl. unfold Py.int_chars.
  rewrite strip_chars_id
    by (eapply Forall_impl; [exact Hl|]; intros c Hc; by apply digit_not_space).
  assert (Hd : Py.int_digits 0 false l = Some (foldl decimal_step 0%N l))
    by (apply int_digits_all_digits; auto).
  destruct l as [|c r]; [done|].
  inversion Hl as [|? ? [d Hc] _]; subst.
  transitivity (n ← Py.int_digits 0 false (c :: r); Some (Z.of_N n)).
  { clear -Hc.
    destruct c as [[] [] [] [] [] [] [] []]; simpl in Hc; try discriminate;
      reflexivity. }
  by rewrite Hd.
Qed.

Lemma int_integer_literal (text : string) :
  is_integer_literal text = true -> Py.int text = Ok (Z.of_N (decimal_of text)).
Proof.
  unfold is_integer_literal, Py.int, decimal_of.
  intros [Hne Hl]%andb_true_iff. apply bool_decide_eq_true in Hne.
  rewrite int_chars_all_digits; [done| |by apply digits_forall].
  destruct text; [done|]. done.
Qed.

Lemma int_identifier (text : string) :
  is_identifier text = true -> exists msg, Py.int text = ValueError msg.
Proof.
  destruct text as [|c r]; [done|]. simpl. intros Hc.
  unfold Py.int. simpl list_ascii_of_string.
  assert (Hsp : Py.isspace c = false)
    by (destruct c as [[] [] [] [] [] [] [] []]; by simplify_eq/=).
  unfold Py.int_chars.
  destruct (strip_chars_head Py.isspace c (list_ascii_of_string r) Hsp) as [l' ->].
  assert (Py.int_digits 0 false (c :: l') = None) as Hd
    by (destruct c as [[] [] [] [] [] [] [] []]; by simplify_eq/=).
  assert (c ≠ "-"%char ∧ c ≠ "+"%char) as [H1 H2]
    by (destruct c as [[] [] [] [] [] [] [] []]; by simplify_eq/=).
  eexists.
  destruct c as [[] [] [] [] [] [] [] []]; try done; by rewrite Hd.
Qed.

(** [int()] raises nothing but ValueError. *)
Lemma int_raises_ValueError (text : string) e :
  Py.int text = Raise e -> exn_class e = "ValueError".
Proof.
  unfold Py.int, ValueError. destruct (Py.int_chars _); intros Heq; [done|].
  by inversion Heq.
Qed.

(** The canonical decimal text of a natural number is an integer literal
    that denotes it. *)
Lemma pretty_N_char_digit (m : N) :
  (m < 10)%N -> exists d, Ascii.is_nat (pretty_N_char m) = Some d ∧ N.of_nat d = m.
Proof.
  intros Hlt.
  assert (m = 0 ∨ m = 1 ∨ m = 2 ∨ m = 3 ∨ m = 4 ∨ m = 5
          ∨ m = 6 ∨ m = 7 ∨ m = 8 ∨ m = 9)%N as Hm by lia.
  repeat destruct Hm as [->|Hm]; try subst m; eexists; split; simpl; eauto.
Qed.

Lemma pretty_N_go_digits x s :
  forallb (fun c => bool_decide (is_Some (Ascii.is_nat c))) (list_ascii_of_string s) = true ->
  forallb (fun c => bool_decide (is_Some (Ascii.is_nat c)))
          (list_ascii_of_string (pretty_N_go x s)) = true
  ∧ (s ≠ "" -> pretty_N_go x s ≠ "")
  ∧ foldl decimal_step 0%N (list_ascii_of_string (pretty_N_go x s))
    = foldl decimal_step x (list_ascii_of_string s).
Proof.
  revert s. induction (N.lt_wf_0 x) as [x _ IH]; intros s Hs.
  destruct (decide (x = 0%N)) as [->|Hx].
  { by rewrite pretty_N_go_0. }
  rewrite pretty_N_go_step by lia.
  destruct (pretty_N_char_digit (x `mod` 10)%N) as (d & Hd & Hdm);
    [apply N.mod_lt; lia|].
  destruct (IH (x `div` 10)%N) with (s := String (pretty_N_char (x `mod` 10)) s)
    as (H1 & H2 & H3).
  { apply N.div_lt; lia. }
  { cbn [list_ascii_of_string forallb]. rewrite Hd.
    by rewrite bool_decide_eq_true_2 by eauto. }
  split_and!; [done|auto|].
  rewrite H3. cbn [list_ascii_of_string foldl]. f_equal.
  unfold decimal_step. rewrite Hd. change (default 0%nat (Some d)) with d.
  rewrite Hdm. pose proof (N.div_mod x 10). lia.
Qed.

Lemma pretty_N_literal (n : N) :
  is_integer_literal (pretty n) = true ∧ decimal_of (pretty n) = n.
Proof.
  unfold pretty, pretty_N, is_integer_literal, decimal_of.
  destruct (decide (n = 0%N)) as [->|Hn]; [done|].
  rewrite (pretty_N_go_step n "") by lia.
  destruct (pretty_N_char_digit (n `mod` 10)%N) as (d & Hd & Hdm);
    [apply N.mod_lt; lia|].
  destruct (pretty_N_go_digits (n `div` 10)%N (String (pretty_N_char (n `mod` 10)) ""))
    as (H1 & H2 & H3).
  { cbn [list_ascii_of_string forallb]. rewrite Hd.
    by rewrite bool_decide_eq_true_2 by eauto. }
  rewrite H1, H3, andb_true_r. split.
  - apply bool_decide_eq_true_2. by apply H2.
  - cbn [list_ascii_of_string foldl]. unfold decimal_step. rewrite Hd. change (default 0%nat (Some d)) with d.
    rewrite Hdm. pose proof (N.div_mod n 10). lia.
Qed.

(** ** Qubit resolution *)

(** Formal-qubit resolution of a list of nodes returns. *)
Lemma formalQubit_total (fq : TextContext) : exists q, _formalQubit fq = Ok q.
Proof.
  unfold _formalQubit, _qubit.
  destruct (Py.int (getText fq)) as [z|e] eqn:Hint; simpl; [by eauto|].
  rewrite (int_raises_ValueError _ _ Hint). simpl. by eauto.
Qed.

Lemma mapM_formalQubit_total (l : list TextContext) :
  exists qs, mapM _formalQubit l = Ok qs ∧ length qs = length l.
Proof.
  induction l as [|fq l (qs & Hqs & Hlen)]; [by exists []|].
  destruct (formalQubit_total fq) as [q Hq].
  exists (q :: qs). cbn [mapM]. rewrite Hq, Hqs. simpl. by rewrite Hlen.
Qed.

(** C4. A qubit node whose text is an integer literal resolves to the
    concrete qubit with the integer the literal denotes (in particular
    the canonical decimal text of [n] resolves to qubit [n]); a node whose
    text is an identifier resolves to the formal argument with that very
    text; and formal-qubit resolution returns a qubit reference on every
    text, it never raises. *)
Theorem C4_formal_qubit_resolution :
  (forall fq : TextContext, is_integer_literal (getText fq) = true ->
     _qubit fq = Ok (Qubit (Z.of_N (decimal_of (getText fq))))
     ∧ _formalQubit fq = Ok (Qubit (Z.of_N (decimal_of (getText fq)))))
  ∧ (forall n : N, _formalQubit {| getText := pretty n |} = Ok (Qubit (Z.of_N n)))
  ∧ (forall fq : TextContext, is_identifier (getText fq) = true ->
       _formalQubit fq = Ok (FormalArgument (getText fq)))
  ∧ (forall fq : TextContext, exists q, _formalQubit fq = Ok q).
Proof.
  assert (Hlit : forall fq : TextContext, is_integer_literal (getText fq) = true ->
     _qubit fq = Ok (Qubit (Z.of_N (decimal_of (getText fq))))
     ∧ _formalQubit fq = Ok (Qubit (Z.of_N (decimal_of (getText fq))))).
  { intros fq Hfq. unfold _formalQubit, _qubit.
    by rewrite (int_integer_literal _ Hfq). }
  split_and!.
  - exact Hlit.
  - intros n. destruct (pretty_N_literal n) as [Hl Hv].
    destruct (Hlit {| getText := pretty n |} Hl) as [_ ->]. simpl. by rewrite Hv.
  - intros fq Hfq. unfold _formalQubit, _qubit.
    by destruct (int_identifier _ Hfq) as [msg ->].
  - exact formalQubit_total.
Qed.

Lemma C4_formal_qubit_resolution_witness :
  _formalQubit {| getText := "12" |} = Ok (Qubit 12)
  ∧ _formalQubit {| getText := "q" |} = Ok (FormalArgument "q").
Proof.
  destruct C4_formal_qubit_resolution as (Hlit & _ & Hid & _). split.
  - refine (proj2 (Hlit {| getText := "12" |} _)). reflexivity.
  - refine (Hid {| getText := "q" |} _). reflexivity.
Defined.

(** ** Gate application *)

Lemma index_nat {A} (l : list A) (i : nat) x :
  l !! i = Some x -> Py.index l (Z.of_nat i) = Ok x.
Proof.
  intros Hx. pose proof (lookup_lt_Some _ _ _ Hx) as Hlt. unfold Py.index.
  destruct (Z.ltb_spec (Z.of_nat i) 0); [lia|].
  rewrite (proj2 (Z.leb_le _ _)), (proj2 (Z.ltb_lt _ _)) by lia.
  simpl. by rewrite Nat2Z.id, Hx.
Qed.

Lemma pop_snoc {A} (l : list A) x : Py.pop (l ++ [x]) = Ok (x, l).
Proof. unfold Py.pop. by rewrite reverse_snoc, reverse_involutive. Qed.

Lemma count_snoc x l y :
  Py.count x (l ++ [y]) = (Py.count x l + if bool_decide (y = x) then 1 else 0)%nat.
Proof.
  unfold Py.count. rewrite filter_app, length_app. f_equal.
  rewrite filter_cons, filter_nil. by case_decide; [rewrite bool_decide_eq_true_2|rewrite bool_decide_eq_false_2].
Qed.

Lemma modifier_arity_cons m l :
  modifier_arity (m :: l)
  = ((if bool_decide (m ∈ ["CONTROLLED"; "FORKED"]) then 1 else 0) + modifier_arity l)%nat.
Proof.
  unfold modifier_arity. rewrite filter_cons.
  by case_decide; [rewrite bool_decide_eq_true_2|rewrite bool_decide_eq_false_2].
Qed.

Lemma modifier_arity_snoc l m :
  modifier_arity (l ++ [m])
  = (modifier_arity l + if bool_decide (m ∈ ["CONTROLLED"; "FORKED"]) then 1 else 0)%nat.
Proof.
  unfold modifier_arity. rewrite filter_app, length_app. f_equal.
  rewrite filter_cons, filter_nil.
  by case_decide; [rewrite bool_decide_eq_true_2|rewrite bool_decide_eq_false_2].
Qed.

Lemma supported_cases m :
  supported_modifier m = true -> m = "CONTROLLED" ∨ m = "DAGGER" ∨ m = "FORKED".
Proof.
  unfold supported_modifier. intros Hm%bool_decide_eq_true.
  repeat (apply elem_of_cons in Hm as [?|Hm]; [by auto|]).
  by apply elem_of_nil in Hm.
Qed.

(** The first loop reads the modifier qubits off the front of the qubit
    list, and fails exactly when the list is too short. *)
Lemma collect_modifier_qubits_take modifiers qubits acc :
  acc = take (length acc) qubits ->
  (length acc + modifier_arity modifiers <= length qubits)%nat ->
  collect_modifier_qubits modifiers qubits acc
  = Ok (take (length acc + modifier_arity modifiers) qubits).
Proof.
  revert acc. induction modifiers as [|m rest IH]; intros acc Hacc Hlen.
  - simpl. unfold modifier_arity. simpl. by rewrite Nat.add_0_r, <- Hacc.
  - rewrite modifier_arity_cons in *. cbn [collect_modifier_qubits].
    case_bool_decide as Hm.
    + destruct (lookup_lt_is_Some_2 qubits (length acc)) as [q Hq]; [lia|].
      rewrite (index_nat _ _ _ Hq). simpl.
      rewrite IH.
      * rewrite length_app. simpl. f_equal. f_equal. lia.
      * rewrite length_app. simpl.
        rewrite Nat.add_1_r, (take_S_r _ _ _ Hq). by rewrite <- Hacc.
      * rewrite length_app. simpl. lia.
    + rewrite IH by (auto; lia). done.
Qed.

Lemma consumes_CONTROLLED : "CONTROLLED" ∈ ["CONTROLLED"; "FORKED"].
Proof. apply elem_of_cons; by left. Qed.

Lemma consumes_FORKED : "FORKED" ∈ ["CONTROLLED"; "FORKED"].
Proof. apply elem_of_cons; right; apply elem_of_cons; by left. Qed.

Lemma consumes_DAGGER : "DAGGER" ∉ ["CONTROLLED"; "FORKED"].
Proof.
  intros Hm. repeat (apply elem_of_cons in Hm as [?|Hm]; [done|]).
  by apply elem_of_nil in Hm.
Qed.

Lemma window_double {number} (params : list (PyVal number)) fo j :
  window params fo (S j) = window params (fo * 2) j.
Proof. unfold window. rewrite Nat.pow_succ_r'. f_equal; lia. Qed.

Lemma window_0 {number} (params : list (PyVal number)) fo :
  window params fo 0 = Py.slice params fo (2 * fo).
Proof. unfold window. rewrite Nat.pow_0_r. f_equal; lia. Qed.

(** How the written-order chain grows when a modifier is written at the
    right end: that modifier takes the last modifier qubit, and a fork
    there takes the first window and moves every other fork one window
    up. *)
Lemma modifier_chain_snoc {number} (params : list (PyVal number)) fo pre m mq :
  Forall (fun m => supported_modifier m = true) pre ->
  length mq = modifier_arity pre ->
  (m = "DAGGER" ->
   modifier_chain params fo (pre ++ [m]) mq = modifier_chain params fo pre mq ++ [MDagger])
  ∧ forall q,
      m ≠ "DAGGER" ->
      modifier_chain params fo (pre ++ [m]) (mq ++ [q])
      = if bool_decide (m = "FORKED")
        then modifier_chain params (fo * 2) pre mq ++ [MForked q (window params fo 0)]
        else modifier_chain params fo pre mq ++ [MControlled q].
Proof.
  intros Hpre. revert mq. induction Hpre as [|a pre Ha _ IH]; intros mq Hlen.
  - destruct mq; [|done]. split.
    + by intros ->.
    + intros q Hm. simpl. rewrite (bool_decide_eq_false_2 _ Hm).
      by case_bool_decide.
  - rewrite modifier_arity_cons in Hlen. cbn [app modifier_chain].
    destruct (supported_cases _ Ha) as [-> | [-> | ->]].
    + rewrite bool_decide_eq_true_2 in Hlen by exact consumes_CONTROLLED.
      destruct mq as [|q0 mq]; [done|]. simpl in Hlen.
      destruct (IH mq) as [IH1 IH2]; [lia|].
      rewrite (bool_decide_eq_false_2 ("CONTROLLED" = "DAGGER")) by done.
      rewrite (bool_decide_eq_false_2 ("CONTROLLED" = "FORKED")) by done.
      split.
      * intros Hm. by rewrite (IH1 Hm).
      * intros q Hm. cbn [app]. rewrite (IH2 q Hm). by case_bool_decide.
    + rewrite bool_decide_eq_false_2 in Hlen by exact consumes_DAGGER.
      simpl in Hlen. destruct (IH mq Hlen) as [IH1 IH2].
      rewrite (bool_decide_eq_true_2 ("DAGGER" = "DAGGER")) by done.
      split.
      * intros Hm. by rewrite (IH1 Hm).
      * intros q Hm. rewrite (IH2 q Hm). by case_bool_decide.
    + rewrite bool_decide_eq_true_2 in Hlen by exact consumes_FORKED.
      destruct mq as [|q0 mq]; [done|]. simpl in Hlen.
      destruct (IH mq) as [IH1 IH2]; [lia|].
      rewrite (bool_decide_eq_false_2 ("FORKED" = "DAGGER")) by done.
      rewrite (bool_decide_eq_true_2 ("FORKED" = "FORKED")) by done.
      rewrite count_snoc.
      split.
      * intros ->. rewrite IH1 by done.
        rewrite bool_decide_eq_false_2 by done. by rewrite Nat.add_0_r.
      * intros q Hm. cbn [app]. rewrite (IH2 q Hm).
        case_bool_decide as Hf.
        -- by rewrite Nat.add_1_r, window_double.
        -- by rewrite Nat.add_0_r.
Qed.

Section GateProperties.
Context `{Host}.

(** The second loop of [exitGate], run over the reversed modifier list,
    wraps the gate with the written-order chain, uses up the modifier
    qubits and doubles [forked_offset] once per fork. *)
Lemma apply_modifiers_chain (params : list (PyVal number)) modifiers :
  Forall (fun m => supported_modifier m = true) modifiers ->
  forall gate modifier_qubits forked_offset,
  length modifier_qubits = modifier_arity modifiers ->
  apply_modifiers params (reverse modifiers) (gate, modifier_qubits, forked_offset)
  = Ok (wrap_chain (modifier_chain params forked_offset modifiers modifier_qubits) gate,
        [], (forked_offset * 2 ^ Py.count "FORKED" modifiers)%nat).
Proof.
  induction modifiers as [|m pre IH] using rev_ind; intros Hsup gate mq fo Hlen.
  - destruct mq; [|done]. simpl. do 3 f_equal. unfold Py.count. simpl. lia.
  - apply Forall_app in Hsup as [Hpre Hm]. apply Forall_inv in Hm.
    rewrite reverse_snoc. cbn [apply_modifiers].
    rewrite modifier_arity_snoc in Hlen. rewrite count_snoc.
    destruct (supported_cases _ Hm) as [-> | [-> | ->]].
    + rewrite bool_decide_eq_true_2 in Hlen by exact consumes_CONTROLLED.
      destruct mq as [|q mq _] using rev_ind; [simpl in Hlen; lia|].
      rewrite length_app in Hlen. simpl in Hlen.
      unfold apply_modifier. rewrite (bool_decide_eq_true_2 ("CONTROLLED" = "CONTROLLED")) by done.
      rewrite pop_snoc. cbn [mbind res_bind].
      rewrite IH by (auto; lia).
      destruct (modifier_chain_snoc params fo pre "CONTROLLED" mq Hpre) as [_ Hs]; [lia|].
      rewrite (Hs q) by done.
      rewrite !(bool_decide_eq_false_2 ("CONTROLLED" = "FORKED")) by done.
      unfold wrap_chain. rewrite foldr_app. cbn [foldr wrap_entry]. by rewrite Nat.add_0_r.
    + rewrite bool_decide_eq_false_2 in Hlen by exact consumes_DAGGER.
      rewrite Nat.add_0_r in Hlen.
      unfold apply_modifier. rewrite (bool_decide_eq_false_2 ("DAGGER" = "CONTROLLED")) by done.
      rewrite (bool_decide_eq_true_2 ("DAGGER" = "DAGGER")) by done.
      cbn [mbind res_bind].
      rewrite IH by auto.
      destruct (modifier_chain_snoc params fo pre "DAGGER" mq Hpre Hlen) as [Hs _].
      rewrite Hs by done.
      rewrite !(bool_decide_eq_false_2 ("DAGGER" = "FORKED")) by done.
      unfold wrap_chain. rewrite foldr_app. cbn [foldr wrap_entry]. by rewrite Nat.add_0_r.
    + rewrite bool_decide_eq_true_2 in Hlen by exact consumes_FORKED.
      destruct mq as [|q mq _] using rev_ind; [simpl in Hlen; lia|].
      rewrite length_app in Hlen. simpl in Hlen.
      unfold apply_modifier. rewrite (bool_decide_eq_false_2 ("FORKED" = "CONTROLLED")) by done.
      rewrite (bool_decide_eq_false_2 ("FORKED" = "DAGGER")) by done.
      rewrite !(bool_decide_eq_true_2 ("FORKED" = "FORKED")) by done.
      rewrite pop_snoc. cbn [mbind res_bind].
      rewrite IH by (auto; lia).
      destruct (modifier_chain_snoc params fo pre "FORKED" mq Hpre) as [_ Hs]; [lia|].
      rewrite (Hs q) by done.
      rewrite !(bool_decide_eq_true_2 ("FORKED" = "FORKED")) by done.
      unfold wrap_chain. rewrite foldr_app. cbn [foldr wrap_entry]. rewrite window_0.
      rewrite Nat.add_1_r, Nat.pow_succ_r'. do 2 f_equal. lia.
Qed.

(** [build_gate] in closed form. *)
Lemma build_gate_chain name modifiers (params : list (PyVal number)) qubits base :
  Forall (fun m => supported_modifier m = true) modifiers ->
  (modifier_arity modifiers <= length qubits)%nat ->
  base_gate name
    (take (Nat.shiftr (length params) (Py.count "FORKED" modifiers)) params)
    (drop (modifier_arity modifiers) qubits) = Ok base ->
  build_gate name modifiers params qubits
  = Ok (wrap_chain
          (modifier_chain params (Nat.shiftr (length params) (Py.count "FORKED" modifiers))
             modifiers (take (modifier_arity modifiers) qubits))
          base).
Proof.
  intros Hsup Hlen Hbase. unfold build_gate.
  rewrite (collect_modifier_qubits_take modifiers qubits []) by (simpl; done || lia).
  cbn [mbind res_bind length Nat.add].
  rewrite length_take, Nat.min_l by lia. rewrite Hbase. cbn [mbind res_bind].
  rewrite apply_modifiers_chain; [done|done|].
  rewrite length_take. lia.
Qed.

End GateProperties.

(** The written-order chain spells the modifier list, holds the modifier
    qubits in the order they were assigned, and its forks hold the windows
    in order of application. *)
Lemma modifier_chain_keywords {number} (params : list (PyVal number)) fo modifiers mq :
  Forall (fun m => supported_modifier m = true) modifiers ->
  length mq = modifier_arity modifiers ->
  modifier_keyword <$> modifier_chain params fo modifiers mq = modifiers
  ∧ omap modifier_qubit (modifier_chain params fo modifiers mq) = mq
  ∧ fork_groups (modifier_chain params fo modifiers mq)
    = window params fo <$> seq 0 (Py.count "FORKED" modifiers).
Proof.
  intros Hsup. revert mq. induction Hsup as [|m rest Hm _ IH]; intros mq Hlen.
  - by destruct mq.
  - rewrite modifier_arity_cons in Hlen. cbn [modifier_chain].
    destruct (supported_cases _ Hm) as [-> | [-> | ->]].
    + rewrite bool_decide_eq_true_2 in Hlen by exact consumes_CONTROLLED.
      destruct mq as [|q mq]; [done|]. simpl in Hlen.
      destruct (IH mq) as (IH1 & IH2 & IH3); [lia|].
      rewrite (bool_decide_eq_false_2 ("CONTROLLED" = "DAGGER")) by done.
      rewrite (bool_decide_eq_false_2 ("CONTROLLED" = "FORKED")) by done.
      split_and!.
      * by rewrite fmap_cons, IH1.
      * cbn [omap list_omap modifier_qubit]. by rewrite IH2.
      * unfold fork_groups in *. cbn [omap list_omap]. rewrite IH3.
        unfold Py.count. rewrite filter_cons. by case_decide.
    + rewrite bool_decide_eq_false_2 in Hlen by exact consumes_DAGGER.
      simpl in Hlen. destruct (IH mq Hlen) as (IH1 & IH2 & IH3).
      rewrite (bool_decide_eq_true_2 ("DAGGER" = "DAGGER")) by done.
      split_and!.
      * by rewrite fmap_cons, IH1.
      * cbn [omap list_omap modifier_qubit]. by rewrite IH2.
      * unfold fork_groups in *. cbn [omap list_omap]. rewrite IH3.
        unfold Py.count. rewrite filter_cons. by case_decide.
    + rewrite bool_decide_eq_true_2 in Hlen by exact consumes_FORKED.
      destruct mq as [|q mq]; [done|]. simpl in Hlen.
      destruct (IH mq) as (IH1 & IH2 & IH3); [lia|].
      rewrite (bool_decide_eq_false_2 ("FORKED" = "DAGGER")) by done.
      rewrite (bool_decide_eq_true_2 ("FORKED" = "FORKED")) by done.
      split_and!.
      * by rewrite fmap_cons, IH1.
      * cbn [omap list_omap modifier_qubit]. by rewrite IH2.
      * unfold fork_groups in *. cbn [omap list_omap]. rewrite reverse_cons, IH3.
        replace (Py.count "FORKED" ("FORKED" :: rest)) with (S (Py.count "FORKED" rest)).
        -- by rewrite seq_S, fmap_app.
        -- unfold Py.count. rewrite filter_cons. by case_decide.
Qed.

(** What wrapping with a chain does to the fields of a gate. *)
Lemma wrap_chain_fields {number} (chain : list (Modifier number)) g :
  gate_name (wrap_chain chain g) = gate_name g
  ∧ gate_modifiers (wrap_chain chain g) = chain ++ gate_modifiers g
  ∧ gate_qubits (wrap_chain chain g) = omap modifier_qubit chain ++ gate_qubits g
  ∧ gate_params (wrap_chain chain g) = gate_params g ++ concat (fork_groups chain).
Proof.
  induction chain as [|m chain (IH1 & IH2 & IH3 & IH4)].
  - split_and!; try done. unfold fork_groups. simpl. by rewrite app_nil_r.
  - unfold wrap_chain in *. cbn [foldr].
    destruct m; cbn [wrap_entry controlled dagger forked gate_name gate_modifiers
                     gate_qubits gate_params omap list_omap modifier_qubit];
      rewrite ?IH1, ?IH2, ?IH3, ?IH4; split_and!; try done.
    unfold fork_groups. cbn [omap list_omap]. rewrite reverse_cons, concat_app.
    simpl. by rewrite app_nil_r, app_assoc.
Qed.

Section GateClaims.
Context `{Host}.

(** C1. In a gate application whose modifiers are supported and which has
    a qubit for each CONTROLLED or FORKED, the base gate is built from the
    first [forked_offset] parameters, where [forked_offset] is the number
    of parameters shifted right by the number of FORKED modifiers (a
    generic gate then has exactly these parameters); the forks of the gate
    built carry, in order of application, the windows
    [params[forked_offset * 2^j : 2 * forked_offset * 2^j]], each window
    starting where the previous one ended.  In particular
    [FORKED RX(a, b) 0 1], with RX a one-parameter catalog gate, is RX on
    [a] forked on qubit 0 with [b]: its parameter groups are [[a]] and
    [[b]], and [forked_offset] is [2 >> 1 = 1]. *)
Theorem C1_forked_parameter_windows :
  (forall (ctx : GateContext) (s : PyQuilListener) params qubits base,
     let modifiers := getText <$> Gate_modifier ctx in
     let forked_offset := Nat.shiftr (length params) (Py.count "FORKED" modifiers) in
     mapM _param (Gate_param ctx) = Ok params ->
     mapM _qubit (Gate_qubit ctx) = Ok qubits ->
     Forall (fun m => supported_modifier m = true) modifiers ->
     (modifier_arity modifiers <= length qubits)%nat ->
     base_gate (getText (Gate_name ctx)) (take forked_offset params)
       (drop (modifier_arity modifiers) qubits) = Ok base ->
     exists gate,
       exitGate ctx s = append (IGate gate) s
       ∧ (QUANTUM_GATES !! getText (Gate_name ctx) = None ->
          gate_params base = take forked_offset params)
       ∧ fork_groups (gate_modifiers gate)
         = fork_groups (gate_modifiers base)
           ++ (window params forked_offset <$> seq 0 (Py.count "FORKED" modifiers))
       ∧ gate_params gate
         = gate_params base
           ++ concat (window params forked_offset <$> seq 0 (Py.count "FORKED" modifiers)))
  ∧ (forall (params : list (PyVal number)) forked_offset j,
       window params forked_offset j
       = Py.slice params (forked_offset * 2 ^ j) (2 * (forked_offset * 2 ^ j))
       ∧ (forked_offset * 2 ^ S j = 2 * (forked_offset * 2 ^ j))%nat)
  ∧ (forall (e1 e2 : ExpressionContext) (t1 t2 : string) a b constructor
            (s : PyQuilListener),
       _expression e1 = Ok a ->
       _expression e2 = Ok b ->
       QUANTUM_GATES !! "RX" = Some constructor ->
       constructor [inl a; inr (Qubit 1)] = Ok (new_Gate "RX" [a] [Qubit 1]) ->
       Nat.shiftr 2 1 = 1%nat
       ∧ exitGate
           {| Gate_name := {| getText := "RX" |};
              Gate_modifier := [ {| getText := "FORKED" |} ];
              Gate_param := [ {| param_expression := Some e1; param_getText := t1 |};
                              {| param_expression := Some e2; param_getText := t2 |} ];
              Gate_qubit := [ {| getText := "0" |}; {| getText := "1" |} ] |} s
         = append (IGate (forked (Qubit 0) [b] (new_Gate "RX" [a] [Qubit 1]))) s
       ∧ fork_groups (gate_modifiers (forked (Qubit 0) [b] (new_Gate "RX" [a] [Qubit 1])))
         = [[b]]).
Proof.
  split_and!.
  - intros ctx s params qubits base modifiers fo Hp Hq Hsup Hlen Hbase.
    exists (wrap_chain (modifier_chain params fo modifiers
                          (take (modifier_arity modifiers) qubits)) base).
    split_and!.
    + unfold exitGate. rewrite Hp, Hq. cbn [mbind res_bind].
      fold modifiers. rewrite (build_gate_chain _ _ _ _ base) by done. done.
    + intros Hnone. unfold base_gate in Hbase. rewrite Hnone in Hbase.
      by simplify_eq.
    + destruct (wrap_chain_fields
                  (modifier_chain params fo modifiers
                     (take (modifier_arity modifiers) qubits)) base)
        as (_ & -> & _ & _).
      destruct (modifier_chain_keywords params fo modifiers
                  (take (modifier_arity modifiers) qubits)) as (_ & _ & Hw);
        [done|rewrite length_take; lia|].
      unfold fork_groups in *. by rewrite omap_app, reverse_app, Hw.
    + destruct (wrap_chain_fields
                  (modifier_chain params fo modifiers
                     (take (modifier_arity modifiers) qubits)) base)
        as (_ & _ & _ & ->).
      destruct (modifier_chain_keywords params fo modifiers
                  (take (modifier_arity modifiers) qubits)) as (_ & _ & ->);
        [done|rewrite length_take; lia|]. done.
  - intros params fo j. split; [done|]. rewrite Nat.pow_succ_r'. lia.
  - intros e1 e2 t1 t2 a b constructor s He1 He2 Hrx Hc. split_and!; [done| |done].
    unfold exitGate, _param. simpl. rewrite He1, He2. simpl.
    unfold build_gate, base_gate. simpl. rewrite Hrx. simpl. rewrite Hc. done.
Qed.

(** C2. A gate node whose modifiers are supported, which has a qubit for
    each CONTROLLED or FORKED and whose base gate is built, appends the
    base gate wrapped with the chain of its modifiers as written, from the
    right: the rightmost-written modifier wraps the base gate first, and
    the modifier at the left end is applied last, to the gate wrapped with
    all the others.  The chain spells the modifiers of the node in written
    order, and its CONTROLLED and FORKED entries hold the leading qubits
    in written order, so the modifier applied first holds the modifier
    qubit assigned last: each CONTROLLED or FORKED pops the last modifier
    qubit not yet used.  Hence the nodes written DAGGER CONTROLLED and
    CONTROLLED DAGGER, alike otherwise, append different gates to the
    buffer: the chains are read in opposite order. *)
Theorem C2_modifiers_apply_right_to_left :
  (forall (ctx : GateContext) (s : PyQuilListener) params qubits base,
     let modifiers := getText <$> Gate_modifier ctx in
     let forked_offset := Nat.shiftr (length params) (Py.count "FORKED" modifiers) in
     let modifier_qubits := take (modifier_arity modifiers) qubits in
     mapM _param (Gate_param ctx) = Ok params ->
     mapM _qubit (Gate_qubit ctx) = Ok qubits ->
     Forall (fun m => supported_modifier m = true) modifiers ->
     (modifier_arity modifiers <= length qubits)%nat ->
     base_gate (getText (Gate_name ctx)) (take forked_offset params)
       (drop (modifier_arity modifiers) qubits) = Ok base ->
     exists chain,
       exitGate ctx s = append (IGate (foldr wrap_entry base chain)) s
       ∧ apply_modifiers params (reverse modifiers) (base, modifier_qubits, forked_offset)
         = Ok (foldr wrap_entry base chain, [],
               (forked_offset * 2 ^ Py.count "FORKED" modifiers)%nat)
       ∧ modifier_keyword <$> chain = modifiers
       ∧ omap modifier_qubit chain = modifier_qubits
       ∧ gate_modifiers (foldr wrap_entry base chain) = chain ++ gate_modifiers base)
  ∧ (forall first rest (params : list (PyVal number)) gate modifier_qubits forked_offset,
       apply_modifiers params (reverse (first :: rest)) (gate, modifier_qubits, forked_offset)
       = st ← apply_modifiers params (reverse rest) (gate, modifier_qubits, forked_offset);
         apply_modifier params first st)
  ∧ (forall (params : list (PyVal number)) gate modifier_qubits q forked_offset,
       apply_modifier params "CONTROLLED" (gate, modifier_qubits ++ [q], forked_offset)
       = Ok (controlled q gate, modifier_qubits, forked_offset)
       ∧ apply_modifier params "FORKED" (gate, modifier_qubits ++ [q], forked_offset)
         = Ok (forked q (Py.slice params forked_offset (2 * forked_offset)) gate,
               modifier_qubits, (forked_offset * 2)%nat)
       ∧ apply_modifier params "DAGGER" (gate, modifier_qubits, forked_offset)
         = Ok (dagger gate, modifier_qubits, forked_offset))
  ∧ (forall (name : TextContext) (ps : list ParamContext) (qs : list TextContext)
            (s : PyQuilListener) params q qubits base r pre,
       let written (modifiers : list string) :=
         {| Gate_name := name;
            Gate_modifier := (fun m => {| getText := m |}) <$> modifiers;
            Gate_param := ps;
            Gate_qubit := qs |} in
       mapM _param ps = Ok params ->
       mapM _qubit qs = Ok (q :: qubits) ->
       base_gate (getText name) params qubits = Ok base ->
       result s = Some r ->
       heap s !! r = Some pre ->
       exists s1 s2,
         exitGate (written ["DAGGER"; "CONTROLLED"]) s = Ok s1
         ∧ exitGate (written ["CONTROLLED"; "DAGGER"]) s = Ok s2
         ∧ buffer (result s1) s1 = pre ++ [IGate (dagger (controlled q base))]
         ∧ buffer (result s2) s2 = pre ++ [IGate (controlled q (dagger base))]
         ∧ modifier_keyword <$> take 2 (gate_modifiers (dagger (controlled q base)))
           = ["DAGGER"; "CONTROLLED"]
         ∧ modifier_keyword <$> take 2 (gate_modifiers (controlled q (dagger base)))
           = ["CONTROLLED"; "DAGGER"]
         ∧ buffer (result s1) s1 ≠ buffer (result s2) s2).
Proof.
  split_and!.
  - intros ctx s params qubits base modifiers fo mq Hp Hq Hsup Hlen Hbase.
    exists (modifier_chain params fo modifiers mq).
    destruct (modifier_chain_keywords params fo modifiers mq) as (Hk & Hmq & _);
      [done|unfold mq; rewrite length_take; lia|].
    split_and!.
    + unfold exitGate. rewrite Hp, Hq. cbn [mbind res_bind]. fold modifiers.
      by rewrite (build_gate_chain _ _ _ _ base).
    + rewrite apply_modifiers_chain; [done|done|].
      unfold mq. rewrite length_take. lia.
    + done.
    + done.
    + by destruct (wrap_chain_fields (modifier_chain params fo modifiers mq) base)
        as (_ & Hm & _ & _).
  - intros first rest params gate mq fo. rewrite reverse_cons.
    generalize (reverse rest) (gate, mq, fo). clear.
    intros l. induction l as [|m l IH]; intros st; cbn [apply_modifiers app].
    + cbn [mbind res_bind]. by destruct (apply_modifier params first st).
    + destruct (apply_modifier params m st) as [st'|e]; cbn [mbind res_bind]; [|done].
      apply IH.
  - intros params gate mq q fo. unfold apply_modifier.
    rewrite !pop_snoc. by split_and!.
  - intros name ps qs s params q qubits base r pre written Hp Hq Hbase Hr Hpre.
    assert (Hbuild : forall g,
      append (IGate g) s
      = Ok (mkListener (alter (fun b => b ++ [IGate g]) r (heap s)) (Some r)
                       (previous_result s))).
    { intros g. unfold append. by rewrite Hr. }
    assert (Hbuf : forall g,
      buffer (Some r) (mkListener (alter (fun b => b ++ [IGate g]) r (heap s)) (Some r)
                                  (previous_result s)) = pre ++ [IGate g]).
    { intros g. unfold buffer. cbn [heap]. by rewrite lookup_alter_eq, Hpre. }
    assert (H1 : build_gate (getText name) ["DAGGER"; "CONTROLLED"] params (q :: qubits)
                 = Ok (dagger (controlled q base))).
    { unfold build_gate. simpl. rewrite take_ge by done.
      unfold drop. rewrite Hbase. done. }
    assert (H2 : build_gate (getText name) ["CONTROLLED"; "DAGGER"] params (q :: qubits)
                 = Ok (controlled q (dagger base))).
    { unfold build_gate. simpl. rewrite take_ge by done.
      unfold drop. rewrite Hbase. done. }
    eexists _, _. split_and!.
    + unfold exitGate, written. cbn [Gate_name Gate_modifier Gate_param Gate_qubit].
      rewrite Hp, Hq. cbn [mbind res_bind]. rewrite <- list_fmap_compose.
      cbn [fmap list_fmap compose getText]. rewrite H1. cbn [mbind res_bind].
      apply Hbuild.
    + unfold exitGate, written. cbn [Gate_name Gate_modifier Gate_param Gate_qubit].
      rewrite Hp, Hq. cbn [mbind res_bind]. rewrite <- list_fmap_compose.
      cbn [fmap list_fmap compose getText]. rewrite H2. cbn [mbind res_bind].
      apply Hbuild.
    + apply Hbuf.
    + apply Hbuf.
    + done.
    + done.
    + cbn [result]. rewrite !Hbuf. intros Heq. apply app_inv_head in Heq.
      unfold dagger, controlled in Heq. simplify_eq.
Qed.

End GateClaims.
(** ** Scoped definitions *)

Section ScopeProperties.
Context `{Host} `{!HostFunctions}.

Lemma alter_lookup_insert {A} (m : gmap loc A) r x f :
  m !! r = Some x -> alter f r m = <[ r := f x ]> m.
Proof. intros Hr. by rewrite <- (insert_id m r x Hr) at 1; rewrite alter_insert_eq. Qed.

Lemma append_inv (i : Instr number) (s s' : PyQuilListener) :
  append i s = Ok s' ->
  exists r, result s = Some r
    ∧ s' = mkListener (alter (fun b => b ++ [i]) r (heap s)) (Some r) (previous_result s).
Proof.
  unfold append. destruct (result s) as [r|] eqn:Hr; [|done].
  intros [= <-]. by exists r.
Qed.

(** Peels the binds of a handler that returned normally. *)
Ltac peel H :=
  repeat match type of H with
  | (?x ≫= _) = Ok _ =>
      let E := fresh "E" in
      destruct x as [?|?] eqn:E; cbn [mbind res_bind] in H; [|discriminate H]
  | (let '(_, _) := ?p in _) = Ok _ => destruct p
  | (match ?x with _ => _ end) = Ok _ => destruct x eqn:?; try discriminate H
  | (if ?b then _ else _) = Ok _ => destruct b eqn:?; try discriminate H
  end.

(** Replays on another state the steps that [peel] recorded. *)
Ltac replay :=
  cbn [mbind res_bind];
  repeat (match goal with
          | E : ?x = _ |- context [?x] => rewrite E
          end; cbn [mbind res_bind]);
  try done;
  unfold append;
  match goal with
  | |- context [result ?s2] => destruct (result s2)
  end; done.

(** A handler of an instruction node, when it returns, has built one
    instruction from the node alone and appended it to the current
    buffer. *)
Lemma walk_instr_factor (n : InstrNode) (s s' : PyQuilListener) :
  walk_instr n s = Ok s' ->
  exists i, append i s = Ok s' ∧ forall s2, walk_instr n s2 = append i s2.
Proof.
  destruct n; cbn [walk_instr];
    unfold exitGate, exitCircuitGate, exitHalt, exitNop, exitWait, exitFenceAll,
      exitFence, exitLogicalBinaryOp, exitMemoryDescriptor, exitDelay,
      exitMeasure, exitDefLabel, exitJump, exitJumpWhen, exitJumpUnless,
      exitResetState, exitClassicalUnary, exitArithmeticBinaryOp, exitMove,
      exitExchange, exitConvert, exitLoad, exitStore, exitClassicalComparison,
      exitInclude, exitPragma, exitPulse, exitSetFrequency, exitShiftFrequency,
      exitSetPhase, exitShiftPhase, exitSwapPhase, exitSetScale, exitCapture,
      exitRawCapture, append_arg;
    intros Hw; peel Hw;
    (eexists; split; [exact Hw|]; intros s2; replay).
Qed.

Lemma walk_instr_appends (n : InstrNode) (s s' : PyQuilListener) :
  walk_instr n s = Ok s' -> exists i, append i s = Ok s'.
Proof. intros Hw. apply walk_instr_factor in Hw as (i & Hi & _). eauto. Qed.

Lemma walk_circuit_instr_factor (n : CircuitInstrNode) (s s' : PyQuilListener) :
  walk_circuit_instr n s = Ok s' ->
  exists i, append i s = Ok s' ∧ forall s2, walk_circuit_instr n s2 = append i s2.
Proof.
  destruct n as [n|ctx|ctx]; cbn [walk_circuit_instr].
  - apply walk_instr_factor.
  - unfold exitCircuitMeasure. eauto.
  - unfold exitCircuitResetState. eauto.
Qed.

(** A run of handlers that each append one instruction appends them in
    order to the buffer that is current, and changes nothing else. *)
Lemma appends_in_order {N} (step : N -> PyQuilListener -> res PyQuilListener)
    (steps : list N -> PyQuilListener -> res PyQuilListener) :
  (forall s, steps [] s = Ok s) ->
  (forall n rest s, steps (n :: rest) s = s' ← step n s; steps rest s') ->
  (forall n s s', step n s = Ok s' -> exists i, append i s = Ok s') ->
  forall (body : list N) (s s' : PyQuilListener) r,
    result s = Some r ->
    steps body s = Ok s' ->
    exists instrs,
      length instrs = length body
      ∧ s' = mkListener (alter (fun b => b ++ instrs) r (heap s)) (Some r)
                        (previous_result s).
Proof.
  intros Hnil Hcons Hstep body.
  induction body as [|n body IH]; intros s s' r Hr Hw.
  - exists []. split; [done|]. rewrite Hnil in Hw. injection Hw as <-.
    rewrite alter_id by (intros; apply app_nil_r). destruct s; simpl in *; by subst.
  - rewrite Hcons in Hw.
    destruct (step n s) as [s1|] eqn:Hn; cbn [mbind res_bind] in Hw; [|done].
    apply Hstep in Hn as [i Hi].
    apply append_inv in Hi as (r' & Hr' & ->).
    assert (r' = r) as -> by congruence.
    apply IH with (r := r) in Hw as (instrs & Hlen & ->); [|done].
    exists (i :: instrs). split; [simpl; by rewrite Hlen|].
    cbn [heap previous_result]. rewrite alter_alter_eq. f_equal.
    apply alter_ext. intros b _. cbn. by rewrite <- app_assoc.
Qed.

Lemma walk_body_appends (body : list InstrNode) (s s' : PyQuilListener) r :
  result s = Some r ->
  walk_body body s = Ok s' ->
  exists instrs,
    length instrs = length body
    ∧ s' = mkListener (alter (fun b => b ++ instrs) r (heap s)) (Some r)
                      (previous_result s).
Proof.
  apply (appends_in_order walk_instr walk_body); [done|done|].
  apply walk_instr_appends.
Qed.

Lemma walk_circuit_body_appends (body : list CircuitInstrNode) (s s' : PyQuilListener) r :
  result s = Some r ->
  walk_circuit_body body s = Ok s' ->
  exists instrs,
    length instrs = length body
    ∧ s' = mkListener (alter (fun b => b ++ instrs) r (heap s)) (Some r)
                      (previous_result s).
Proof.
  apply (appends_in_order walk_circuit_instr walk_circuit_body); [done|done|].
  intros n s1 s2 Hn. apply walk_circuit_instr_factor in Hn as (i & Hi & _). eauto.
Qed.

(** The state at the exit event of a definition that was entered in [s]
    and whose body walk returned. *)
Lemma entered_body_state (s s2 : PyQuilListener) (size : nat) :
  (exists instrs,
     length instrs = size
     ∧ s2 = mkListener (alter (fun b => b ++ instrs) (fresh (dom (heap s)))
                          (heap (enter_definition s)))
                       (Some (fresh (dom (heap s)))) (previous_result (enter_definition s))) ->
  exists instrs,
    length instrs = size
    ∧ s2 = mkListener (<[ fresh (dom (heap s)) := instrs ]> (heap s))
                      (Some (fresh (dom (heap s)))) (result s).
Proof.
  intros (instrs & Hlen & ->). exists instrs. split; [done|].
  unfold enter_definition. cbn [heap previous_result].
  by rewrite alter_insert_eq.
Qed.

Lemma definition_body_state (body : list InstrNode) (s s2 : PyQuilListener) :
  walk_body body (enter_definition s) = Ok s2 ->
  exists instrs,
    length instrs = length body
    ∧ s2 = mkListener (<[ fresh (dom (heap s)) := instrs ]> (heap s))
                      (Some (fresh (dom (heap s)))) (result s).
Proof.
  intros Hw. apply entered_body_state.
  by apply (walk_body_appends _ _ _ (fresh (dom (heap s)))) in Hw.
Qed.

Lemma circuit_body_state (body : list CircuitInstrNode) (s s2 : PyQuilListener) :
  walk_circuit_body body (enter_definition s) = Ok s2 ->
  exists instrs,
    length instrs = length body
    ∧ s2 = mkListener (<[ fresh (dom (heap s)) := instrs ]> (heap s))
                      (Some (fresh (dom (heap s)))) (result s).
Proof.
  intros Hw. apply entered_body_state.
  by apply (walk_circuit_body_appends _ _ _ (fresh (dom (heap s)))) in Hw.
Qed.

Lemma fresh_loc_ne (s : PyQuilListener) r x :
  heap s !! r = Some x -> fresh (dom (heap s)) ≠ r.
Proof.
  intros Hr Heq. apply (is_fresh (dom (heap s))). rewrite Heq.
  apply elem_of_dom. by eexists.
Qed.

(** Restoring the saved buffer and appending the definition to it. *)
Lemma restore_and_append_state (d : Instr number) (s : PyQuilListener) r pre instrs :
  heap s !! r = Some pre ->
  restore_and_append d
    (mkListener (<[ fresh (dom (heap s)) := instrs ]> (heap s))
                (Some (fresh (dom (heap s)))) (Some r))
  = Ok (mkListener (<[ r := pre ++ [d] ]> (<[ fresh (dom (heap s)) := instrs ]> (heap s)))
                   (Some r) None).
Proof.
  intros Hr. unfold restore_and_append, append. cbn [result heap previous_result].
  do 2 f_equal. apply (alter_lookup_insert _ r pre (fun b => b ++ [d])).
  by rewrite lookup_insert_ne by (by apply fresh_loc_ne with pre).
Qed.

(** [_contained_mrefs] computes the memory references that occur as
    sub-expressions. *)
Lemma contained_mrefs_subexpression (e : PyVal number) m :
  m ∈ _contained_mrefs e <-> subexpression (VMemoryReference m) e.
Proof.
  split.
  - induction e as [| | |op a IHa b IHb|f a IHa]; cbn [_contained_mrefs].
    + by intros ?%not_elem_of_empty.
    + by intros ?%not_elem_of_empty.
    + intros ->%elem_of_singleton. constructor.
    + intros [?|?]%elem_of_union; [apply sub_op1|apply sub_op2]; auto.
    + intros ?. apply sub_fun. auto.
  - remember (VMemoryReference m) as x eqn:Hx.
    induction 1 as [e|e op a b _ IH|e op a b _ IH|e f a _ IH]; subst;
      cbn [_contained_mrefs].
    + by apply elem_of_singleton.
    + apply elem_of_union. left. by apply IH.
    + apply elem_of_union. right. by apply IH.
    + by apply IH.
Qed.

Lemma contained_mrefs_nonempty (e : PyVal number) :
  _contained_mrefs e ≠ ∅ <-> exists m, subexpression (VMemoryReference m) e.
Proof.
  split.
  - intros [m Hm]%set_choose_L. exists m. by apply contained_mrefs_subexpression.
  - intros [m Hm] Hempty. apply contained_mrefs_subexpression in Hm.
    rewrite Hempty in Hm. by apply not_elem_of_empty in Hm.
Qed.

Lemma check_parameters_ok name (parameters : list (PyVal number)) :
  Forall (fun p => _contained_mrefs p = ∅) parameters ->
  check_parameters name parameters = Ok ().
Proof.
  induction 1 as [|p ps Hp _ IH]; [done|].
  cbn [check_parameters]. by rewrite bool_decide_eq_false_2 by (by intros ?).
Qed.

Lemma check_parameters_raises name (before : list (PyVal number)) p after :
  Forall (fun p => _contained_mrefs p = ∅) before ->
  _contained_mrefs p ≠ ∅ ->
  check_parameters name (before ++ p :: after)
  = ValueError ("Unexpected memory references " +:+ str_mrefs (_contained_mrefs p)
                  +:+ " in DEFCAL " +:+ name +:+ ". Did you forget a '%'?").
Proof.
  intros Hb Hp. induction Hb as [|q qs Hq _ IH]; cbn [app check_parameters].
  - by rewrite bool_decide_eq_true_2.
  - by rewrite bool_decide_eq_false_2 by (by intros ?).
Qed.

(** The first parameter that holds a memory reference, if there is one. *)
Lemma first_offending (parameters : list (PyVal number)) :
  Exists (fun p => _contained_mrefs p ≠ ∅) parameters ->
  exists before p after,
    parameters = before ++ p :: after
    ∧ Forall (fun p => _contained_mrefs p = ∅) before
    ∧ _contained_mrefs p ≠ ∅.
Proof.
  induction parameters as [|q qs IH]; intros Hex; [by inversion Hex|].
  destruct (decide (_contained_mrefs q = ∅)) as [Hq|Hq].
  - destruct IH as (before & p & after & -> & Hb & Hp).
    { inversion Hex; subst; [done|auto]. }
    exists (q :: before), p, after. split_and!; [done|by constructor|done].
  - by exists [], q, qs.
Qed.

End ScopeProperties.
Section ScopeClaims.
Context `{Host} `{!HostFunctions}.

(** C3. Entering a calibration, circuit or measure-calibration definition
    saves the current buffer and makes a fresh empty list the current
    one.  When the walk of such a definition returns, whatever
    instructions its body has, the current buffer is again the list object
    that was current before entry, nothing is saved any more, and that
    list holds exactly what it held before entry followed by one new
    instruction, the definition; the instructions built by the body, one
    per body node, are in the fresh list, which the definition refers to
    (for a circuit, holds as text), and no other list has changed.  The
    walk of a circuit or measure-calibration definition returns whenever
    the walk of its body does. *)
Theorem C3_definition_scope :
  (forall s : PyQuilListener,
     enterDefCalibration s = Ok (enter_definition s)
     ∧ enterDefCircuit s = Ok (enter_definition s)
     ∧ enterDefMeasCalibration s = Ok (enter_definition s)
     ∧ previous_result (enter_definition s) = result s
     ∧ heap s !! fresh (dom (heap s)) = None
     ∧ result (enter_definition s) = Some (fresh (dom (heap s)))
     ∧ buffer (result (enter_definition s)) (enter_definition s) = []
     ∧ (forall l, l ≠ fresh (dom (heap s)) ->
          heap (enter_definition s) !! l = heap s !! l))
  ∧ (forall (n : AllInstrNode) (s s' : PyQuilListener) r pre,
       is_scoped_definition n = true ->
       result s = Some r ->
       heap s !! r = Some pre ->
       walk_node n s = Ok s' ->
       exists d instrs,
         let inner := fresh (dom (heap s)) in
         result s' = Some r
         ∧ previous_result s' = None
         ∧ buffer (result s') s' = pre ++ [d]
         ∧ is_definition d = true
         ∧ inner ≠ r
         ∧ length instrs = body_size n
         ∧ heap s' = <[ r := pre ++ [d] ]> (<[ inner := instrs ]> (heap s))
         ∧ match n with
           | NDefCalibration ctx _ =>
               exists parameters qubits,
                 d = DefCalibration (getText (DefCalibration_name ctx)) parameters qubits
                       (Some inner)
           | NDefMeasCalibration ctx _ =>
               exists qubit memory_reference,
                 d = DefMeasureCalibration qubit memory_reference (Some inner)
           | NDefCircuit ctx _ =>
               exists header,
                 d = RawInstr (header +:+ Py.join (String "010" "    ")
                                             ("" :: (out <$> instrs)))
           | _ => True
           end)
  ∧ (forall ctx_circuit (body : list CircuitInstrNode) (s s2 : PyQuilListener) r,
       result s = Some r ->
       walk_circuit_body body (enter_definition s) = Ok s2 ->
       is_ok (walk_node (NDefCircuit ctx_circuit body) s) = true)
  ∧ (forall ctx_measure (body : list InstrNode) (s s2 : PyQuilListener) r,
       result s = Some r ->
       walk_body body (enter_definition s) = Ok s2 ->
       is_ok (walk_node (NDefMeasCalibration ctx_measure body) s) = true).
Proof.
  split_and!.
  - intros s. split_and!; try done.
    + apply not_elem_of_dom, is_fresh.
    + unfold buffer, enter_definition. cbn [result heap]. by rewrite lookup_insert_eq.
    + intros l Hl. unfold enter_definition. cbn [heap]. by rewrite lookup_insert_ne.
  - intros n s s' r pre Hn Hr Hpre Hw.
    assert (Hfinal : forall d instrs,
      s' = mkListener (<[ r := pre ++ [d] ]> (<[ fresh (dom (heap s)) := instrs ]> (heap s)))
             (Some r) None ->
      result s' = Some r ∧ previous_result s' = None ∧ buffer (result s') s' = pre ++ [d]
      ∧ heap s' = <[ r := pre ++ [d] ]> (<[ fresh (dom (heap s)) := instrs ]> (heap s))).
    { intros d instrs ->. split_and!; try done.
      unfold buffer. cbn [result heap]. by rewrite lookup_insert_eq. }
    pose proof (fresh_loc_ne s r pre Hpre) as Hne.
    destruct n as [i|ctx|ctx|ctx body|ctx|ctx|ctx body|ctx body]; try discriminate Hn;
      cbn [walk_node body_size] in Hw |- *;
      unfold walk_defcircuit, enterDefCalibration, enterDefCircuit,
        enterDefMeasCalibration in Hw;
      cbn [mbind res_bind] in Hw.
    + destruct (walk_circuit_body body (enter_definition s)) as [s2|] eqn:Hbody;
        cbn [mbind res_bind] in Hw; [|done].
      apply circuit_body_state in Hbody as (instrs & Hlen & ->). rewrite Hr in Hw.
      unfold exitDefCircuit in Hw. cbn [result previous_result heap buffer] in Hw.
      rewrite lookup_insert_eq in Hw. cbn [default from_option id] in Hw.
      rewrite (alter_lookup_insert _ r pre) in Hw
        by (by rewrite lookup_insert_ne).
      injection Hw as <-. eexists _, instrs.
      destruct (Hfinal _ instrs eq_refl) as (? & ? & ? & ?).
      split_and!; eauto.
    + destruct (walk_body body (enter_definition s)) as [s2|] eqn:Hbody;
        cbn [mbind res_bind] in Hw; [|done].
      apply definition_body_state in Hbody as (instrs & Hlen & ->). rewrite Hr in Hw.
      unfold exitDefCalibration in Hw.
      destruct (mapM _param _) as [parameters|]; cbn [mbind res_bind] in Hw; [|done].
      destruct (check_parameters _ _); cbn [mbind res_bind] in Hw; [|done].
      destruct (mapM _formalQubit _) as [qubits|]; cbn [mbind res_bind] in Hw; [|done].
      cbn [result] in Hw. rewrite (restore_and_append_state _ s r pre instrs Hpre) in Hw.
      injection Hw as <-. eexists _, instrs.
      destruct (Hfinal _ instrs eq_refl) as (? & ? & ? & ?).
      split_and!; eauto.
    + destruct (walk_body body (enter_definition s)) as [s2|] eqn:Hbody;
        cbn [mbind res_bind] in Hw; [|done].
      apply definition_body_state in Hbody as (instrs & Hlen & ->). rewrite Hr in Hw.
      unfold exitDefMeasCalibration in Hw.
      destruct (_formalQubit _) as [qubit|]; cbn [mbind res_bind] in Hw; [|done].
      cbn [result] in Hw. rewrite (restore_and_append_state _ s r pre instrs Hpre) in Hw.
      injection Hw as <-. eexists _, instrs.
      destruct (Hfinal _ instrs eq_refl) as (? & ? & ? & ?).
      split_and!; eauto.
  - intros ctx_circuit body s s2 r Hr Hbody.
    cbn [walk_node]. unfold walk_defcircuit, enterDefCircuit.
    cbn [mbind res_bind]. rewrite Hbody. cbn [mbind res_bind].
    apply circuit_body_state in Hbody as (instrs & _ & ->).
    unfold exitDefCircuit. cbn [result previous_result]. by rewrite Hr.
  - intros ctx_measure body s s2 r Hr Hbody.
    cbn [walk_node]. unfold enterDefMeasCalibration.
    cbn [mbind res_bind]. rewrite Hbody. cbn [mbind res_bind].
    apply definition_body_state in Hbody as (instrs & _ & ->).
    unfold exitDefMeasCalibration.
    destruct (formalQubit_total (DefMeasCalibration_formalQubit ctx_measure)) as [q ->].
    cbn [mbind res_bind]. unfold restore_and_append, append.
    cbn [result previous_result]. by rewrite Hr.
Qed.

End ScopeClaims.

Section DefinitionClaims.
Context `{Host}.

(** C5. Take a calibration definition whose parameters evaluate.  If some
    parameter has a memory reference among its sub-expressions, the exit
    handler raises a ValueError; its message is built from the memory
    references of the first such parameter (a non-empty set, each member a
    sub-expression of that parameter) and the name of the definition.  If
    no parameter has one, the validation passes and the handler raises no
    error: it appends the definition to the restored buffer. *)
Theorem C5_calibration_rejects_memory_references :
  (forall (ctx : DefCalibrationContext) (s : PyQuilListener) parameters,
     mapM _param (DefCalibration_param ctx) = Ok parameters ->
     (exists p m, p ∈ parameters ∧ subexpression (VMemoryReference m) p) ->
     exists before p after,
       parameters = before ++ p :: after
       ∧ Forall (fun q => ~ exists m, subexpression (VMemoryReference m) q) before
       ∧ _contained_mrefs p ≠ ∅
       ∧ (forall m, m ∈ _contained_mrefs p <-> subexpression (VMemoryReference m) p)
       ∧ exitDefCalibration ctx s
         = Raise (Exn "ValueError"
                    ("Unexpected memory references " +:+ str_mrefs (_contained_mrefs p)
                       +:+ " in DEFCAL " +:+ getText (DefCalibration_name ctx)
                       +:+ ". Did you forget a '%'?")))
  ∧ (forall (ctx : DefCalibrationContext) (s : PyQuilListener) parameters r,
       mapM _param (DefCalibration_param ctx) = Ok parameters ->
       Forall (fun p => ~ exists m, subexpression (VMemoryReference m) p) parameters ->
       previous_result s = Some r ->
       check_parameters (getText (DefCalibration_name ctx)) parameters = Ok ()
       ∧ exists qubits s',
           exitDefCalibration ctx s = Ok s'
           ∧ restore_and_append
               (DefCalibration (getText (DefCalibration_name ctx)) parameters qubits
                  (result s)) s = Ok s').
Proof.
  split.
  - intros ctx s parameters Hp (p & m & Hin & Hsub).
    destruct (first_offending parameters) as (before & p' & after & -> & Hb & Hp').
    { apply Exists_exists. exists p. split; [done|].
      apply contained_mrefs_nonempty. by exists m. }
    exists before, p', after. split_and!; try done.
    + eapply Forall_impl; [exact Hb|]. intros q Hq Hex.
      by apply contained_mrefs_nonempty in Hex.
    + intros m'. apply contained_mrefs_subexpression.
    + unfold exitDefCalibration. rewrite Hp. cbn [mbind res_bind].
      by rewrite check_parameters_raises.
  - intros ctx s parameters r Hp Hno Hprev.
    assert (Hok : check_parameters (getText (DefCalibration_name ctx)) parameters = Ok ()).
    { apply check_parameters_ok. eapply Forall_impl; [exact Hno|].
      intros p Hp'. destruct (decide (_contained_mrefs p = ∅)) as [|Hne]; [done|].
      by apply contained_mrefs_nonempty in Hne. }
    split; [done|].
    destruct (mapM_formalQubit_total (DefCalibration_formalQubit ctx)) as (qubits & Hq & _).
    unfold exitDefCalibration. rewrite Hp. cbn [mbind res_bind]. rewrite Hok, Hq.
    cbn [mbind res_bind]. exists qubits.
    unfold restore_and_append, append. cbn [result]. rewrite Hprev. eauto.
Qed.

End DefinitionClaims.

Section InstructionClaims.
Context `{Host}.

(** C6, as amended.  A DELAY node whose duration evaluates appends exactly
    one instruction.  With frame names it is one [DelayFrames] holding one
    frame per name, in order, each frame on the given qubits and named by
    the literal without its quotes; without frame names it is one
    [DelayQubits] on the given qubits.  Both carry the duration. *)
Theorem C6_delay_single_instruction :
  forall (ctx : DelayContext) (s : PyQuilListener) duration,
    _expression (Delay_expression ctx) = Ok duration ->
    exists qubits,
      mapM _formalQubit (Delay_formalQubit ctx) = Ok qubits
      ∧ length qubits = length (Delay_formalQubit ctx)
      ∧ (Delay_STRING ctx ≠ [] ->
         exitDelay ctx s
         = append (DelayFrames
                     ((fun text => mkFrame qubits (Py.strip Py.quote_char text))
                        <$> Delay_STRING ctx) duration) s)
      ∧ (Delay_STRING ctx = [] ->
         exitDelay ctx s = append (DelayQubits qubits duration) s).
Proof.
  intros ctx s duration Hd.
  destruct (mapM_formalQubit_total (Delay_formalQubit ctx)) as (qubits & Hq & Hlen).
  exists qubits. split_and!; [done|done| |];
    intros Hs; unfold exitDelay; rewrite Hq, Hd; cbn [mbind res_bind].
  - rewrite bool_decide_eq_true_2; [by rewrite <- list_fmap_compose|].
    by destruct (Delay_STRING ctx).
  - rewrite Hs. done.
Qed.

(** C7, as amended.  A waveform definition whose name is a template name
    raises a ValueError that says so, and nothing is appended; one whose
    name is not a template name and whose matrix evaluates appends the
    definition with the parameter texts and the entries of the matrix, row
    after row. *)
Theorem C7_waveform_redefinition :
  forall (ctx : DefWaveformContext) (s : PyQuilListener),
    let name := Py.join "/" (getText <$> DefWaveform_waveformName ctx) in
    (name ∈ _waveform_classes ->
     exitDefWaveform ctx s
     = Raise (Exn "ValueError"
                ("Attempted to redefine built-in template waveform " +:+ name +:+ ".")))
    ∧ (name ∉ _waveform_classes ->
       forall rows,
         mapM (fun row => mapM _expression row) (DefWaveform_matrix ctx) = Ok rows ->
         exitDefWaveform ctx s
         = append (DefWaveform name (param_getText <$> DefWaveform_param ctx)
                     (concat rows)) s).
Proof.
  intros ctx s name. unfold exitDefWaveform, _waveform_name. fold name. split.
  - intros Hin. by rewrite bool_decide_eq_true_2.
  - intros Hnot rows Hrows. rewrite bool_decide_eq_false_2 by done.
    unfold _matrix. by rewrite Hrows.
Qed.

(** C9. A memory declaration without a size has element count 1.  With a
    SHARING clause it carries the name of the shared region and the pairs
    (offset, type) of its offset descriptors in source order; without one
    the shared region is absent and the offset list is empty.
    [DECLARE x BIT SHARING foo OFFSET 2 INTEGER] declares one element,
    shared with region foo at the single offset pair (2, INTEGER). *)
Theorem C9_memory_declaration :
  (forall (ctx : MemoryDescriptorContext) (s : PyQuilListener) name memory_type,
     Memory_IDENTIFIER ctx !! 0%nat = Some name ->
     Memory_IDENTIFIER ctx !! 1%nat = Some memory_type ->
     match Memory_INT ctx with
     | Some text => is_integer_literal text = true
     | None => True
     end ->
     let memory_size :=
       match Memory_INT ctx with
       | Some text => Z.of_N (decimal_of text)
       | None => 1
       end in
     (Memory_SHARING ctx = false ->
      exitMemoryDescriptor ctx s
      = append (Declare_ name memory_type memory_size None []) s)
     ∧ (Memory_SHARING ctx = true ->
        forall shared_region,
          Memory_IDENTIFIER ctx !! 2%nat = Some shared_region ->
          Forall (fun o => is_integer_literal (Offset_INT o) = true)
                 (Memory_offsetDescriptor ctx) ->
          exitMemoryDescriptor ctx s
          = append (Declare_ name memory_type memory_size (Some shared_region)
                      ((fun o => (Z.of_N (decimal_of (Offset_INT o)), Offset_IDENTIFIER o))
                         <$> Memory_offsetDescriptor ctx)) s))
  ∧ (forall s : PyQuilListener,
       exitMemoryDescriptor
         {| Memory_IDENTIFIER := ["x"; "BIT"; "foo"];
            Memory_INT := None;
            Memory_SHARING := true;
            Memory_offsetDescriptor :=
              [ {| Offset_INT := "2"; Offset_IDENTIFIER := "INTEGER" |} ] |} s
       = append (Declare_ "x" "BIT" 1 (Some "foo") [(2, "INTEGER")]) s).
Proof.
  split; [|done].
  intros ctx s name memory_type H0 H1 Hint memory_size.
  assert (Hsize : match Memory_INT ctx with
                  | Some int_text => Py.int int_text
                  | None => Ok 1
                  end = Ok memory_size).
  { unfold memory_size. destruct (Memory_INT ctx) as [text|]; [|done].
    by apply int_integer_literal. }
  unfold exitMemoryDescriptor, IDENTIFIER_text. rewrite H0, H1. cbn [mbind res_bind].
  rewrite Hsize. cbn [mbind res_bind]. split.
  - by intros ->.
  - intros -> shared_region H2 Hoff. rewrite H2. cbn [mbind res_bind].
    assert (Hm : mapM (fun offset_ctx =>
                         n ← Py.int (Offset_INT offset_ctx);
                         Ok (n, Offset_IDENTIFIER offset_ctx))
                      (Memory_offsetDescriptor ctx)
                 = Ok ((fun o => (Z.of_N (decimal_of (Offset_INT o)), Offset_IDENTIFIER o))
                         <$> Memory_offsetDescriptor ctx)).
    { induction Hoff as [|o os Ho _ IH]; [done|].
      cbn [mapM]. rewrite (int_integer_literal _ Ho). cbn [mbind res_bind].
      by rewrite IH. }
    by rewrite Hm.
Qed.

(** C10. With a left operand that resolves, AND, IOR and XOR append their
    instruction whether the right operand is an integer literal or a
    memory address, while OR appends [ClassicalOr] for a memory address and
    raises a RuntimeError, appending nothing, for an integer literal. *)
Theorem C10_logical_binary_op :
  forall (ctx : LogicalBinaryOpContext) (s : PyQuilListener) left,
    _addr_at (Logical_addr ctx) 0 = Ok left ->
    (forall text,
       Logical_INT ctx = Some text ->
       is_integer_literal text = true ->
       let n := Z.of_N (decimal_of text) in
       exitLogicalBinaryOp ctx s
       = match Logical_keyword ctx with
         | AND => append (ClassicalAnd left (inl n)) s
         | IOR => append (ClassicalInclusiveOr left (inl n)) s
         | XOR => append (ClassicalExclusiveOr left (inl n)) s
         | OR =>
             Raise (Exn "RuntimeError"
                      ("Right operand of deprecated OR instruction must be a"
                         +:+ " MemoryReference, but found '" +:+ Py.str_int n +:+ "'"))
         end)
    ∧ (forall right,
         Logical_INT ctx = None ->
         _addr_at (Logical_addr ctx) 1 = Ok right ->
         exitLogicalBinaryOp ctx s
         = match Logical_keyword ctx with
           | AND => append (ClassicalAnd left (inr right)) s
           | IOR => append (ClassicalInclusiveOr left (inr right)) s
           | XOR => append (ClassicalExclusiveOr left (inr right)) s
           | OR => append (ClassicalOr left (inr right)) s
           end).
Proof.
  intros ctx s left Hl. unfold exitLogicalBinaryOp. rewrite Hl. cbn [mbind res_bind].
  split.
  - intros text Ht Hlit. rewrite Ht, (int_integer_literal _ Hlit). cbn [mbind res_bind].
    by destruct (Logical_keyword ctx).
  - intros right Hi Hr. rewrite Hi, Hr. cbn [mbind res_bind].
    by destruct (Logical_keyword ctx).
Qed.

End InstructionClaims.

(** ** Syntax errors *)


Lemma index_position {A} (l : list A) (i : Z) :
  Py.index l i
  = match py_position l i ≫= (l !!.) with
    | Some x => Ok x
    | None => IndexError "list index out of range"
    end.
Proof.
  unfold Py.index, py_position.
  destruct ((0 <=? _) && (_ <? _)); [|done]. cbn [mbind option_bind].
  by destruct (l !! _).
Qed.

Lemma position_lookup {A} (l : list A) (i : Z) j :
  py_position l i = Some j -> is_Some (l !! j).
Proof.
  unfold py_position. intros Hj. apply lookup_lt_is_Some.
  destruct (i <? 0) eqn:Hi;
    destruct ((0 <=? _) && (_ <? _)) eqn:Hr; simplify_eq;
    apply andb_true_iff in Hr as [?%Z.leb_le ?%Z.ltb_lt]; lia.
Qed.

Lemma get_expected_tokens_py (parser : Recognizer) (interval_set : list Z) :
  Forall (fun tok => is_Some (py_position (literalNames parser) tok)
                     ∧ is_Some (py_position (symbolicNames parser) tok)) interval_set ->
  get_expected_tokens parser interval_set = Ok (py_display_name parser <$> interval_set).
Proof.
  induction 1 as [|tok rest [[jl Hl] [js Hs]] _ IH]; [done|].
  cbn [get_expected_tokens fmap list_fmap]. rewrite !index_position.
  unfold py_display_name. rewrite Hl, Hs. cbn [mbind option_bind].
  destruct (position_lookup _ _ _ Hl) as [x ->].
  destruct (position_lookup _ _ _ Hs) as [y ->].
  cbn [mbind res_bind]. by rewrite IH.
Qed.


Section SyntaxClaims.
Context `{Host} `{!HostFunctions}.


End SyntaxClaims.

(** ** The properties at work on the example programs *)

Lemma C1_forked_parameter_windows_witness :
  exitGate (H := example_host) ex_forked_rx ex_init
  = append (H := example_host) (IGate (forked (Qubit 0) [VNumber (3 # 2)%Q]
                     (new_Gate "RX" [VNumber (1 # 2)%Q] [Qubit 1]))) ex_init.
Proof.
  destruct (@C1_forked_parameter_windows example_host) as (_ & _ & Hex).
  refine (proj1 (proj2 (Hex (ex_number (1 # 2)%Q) (ex_number (3 # 2)%Q) "0.5" "1.5"
                          (VNumber (1 # 2)%Q) (VNumber (3 # 2)%Q)
                          (example_gate "RX" true) ex_init _ _ _ _)));
    reflexivity.
Defined.

Lemma C2_modifiers_apply_right_to_left_witness :
  exists s1 s2,
    exitGate (H := example_host) (ex_foo ["DAGGER"; "CONTROLLED"] []) ex_after_halt = Ok s1
    ∧ exitGate (H := example_host) (ex_foo ["CONTROLLED"; "DAGGER"] []) ex_after_halt = Ok s2
    ∧ buffer (result s1) s1
      = [Halt] ++ [IGate (dagger (controlled (Qubit 0) (new_Gate "FOO" [] [Qubit 1])))]
    ∧ buffer (result s2) s2
      = [Halt] ++ [IGate (controlled (Qubit 0) (dagger (new_Gate "FOO" [] [Qubit 1])))]
    ∧ buffer (result s1) s1 ≠ buffer (result s2) s2.
Proof.
  destruct (@C2_modifiers_apply_right_to_left example_host) as (_ & _ & _ & Hex).
  destruct (Hex (ex_text "FOO") [] [ex_text "0"; ex_text "1"] ex_after_halt []
              (Qubit 0) [Qubit 1] (new_Gate "FOO" [] [Qubit 1]) 0%nat [Halt])
    as (s1 & s2 & H1 & H2 & Hb1 & Hb2 & _ & _ & Hne); try reflexivity.
  by exists s1, s2.
Defined.

Lemma C3_definition_scope_witness :
  exists s' d instrs,
    walk_node (NDefCalibration ex_defcal ex_cal_body) ex_after_halt = Ok s'
    ∧ result s' = Some 0%nat
    ∧ previous_result s' = None
    ∧ buffer (result s') s' = [Halt] ++ [d]
    ∧ length instrs = 2%nat
    ∧ heap s'
      = <[ 0%nat := [Halt] ++ [d] ]>
          (<[ fresh (dom (heap ex_after_halt)) := instrs ]> (heap ex_after_halt)).
Proof.
  destruct (walk_node (NDefCalibration ex_defcal ex_cal_body) ex_after_halt)
    as [s'|] eqn:Hw; [|by vm_compute in Hw].
  destruct (@C3_definition_scope example_host example_functions) as (_ & Hdef & _).
  destruct (Hdef (NDefCalibration ex_defcal ex_cal_body) ex_after_halt s' 0%nat [Halt])
    as (d & instrs & Hr & Hp & Hb & _ & _ & Hlen & Hh & _).
  - reflexivity.
  - reflexivity.
  - reflexivity.
  - exact Hw.
  - exists s', d, instrs. by split_and!.
Defined.

Lemma C5_calibration_rejects_memory_references_witness :
  exists msg,
    exitDefCalibration (H := example_host) ex_defcal_mref (enter_definition ex_init)
    = Raise (Exn "ValueError" msg).
Proof.
  destruct (@C5_calibration_rejects_memory_references example_host) as (Hbad & _).
  destruct (Hbad ex_defcal_mref (enter_definition ex_init)
              [VBinaryExp "+" (VMemoryReference (MemRef "theta" 0)) (VNumber 1%Q)])
    as (before & p & after & _ & _ & _ & _ & Hraise).
  - reflexivity.
  - eexists _, (MemRef "theta" 0). split; [by apply list_elem_of_singleton|].
    apply sub_op1, sub_refl.
  - eexists. exact Hraise.
Defined.

Lemma C6_delay_single_instruction_witness :
  exists qubits,
    exitDelay (H := example_host) ex_delay_frames ex_init
    = append (H := example_host) (DelayFrames [mkFrame qubits "rf"; mkFrame qubits "ro"] (VNumber 1%Q)) ex_init.
Proof.
  destruct (@C6_delay_single_instruction example_host ex_delay_frames ex_init (VNumber 1%Q))
    as (qubits & _ & _ & Hframes & _); [reflexivity|].
  exists qubits. apply Hframes. discriminate.
Defined.

(** With two frame names the listener appends one instruction, not two. *)
Lemma C6_one_delay_per_named_frame_fails :
  exists s',
    exitDelay (H := example_host) ex_delay_frames ex_init = Ok s'
    ∧ ~ one_delay_per_named_frame ex_delay_frames ex_init s'.
Proof.
  eexists. split; [reflexivity|].
  intros (delays & Hlen & _ & Hbuf). vm_compute in Hbuf.
  destruct delays as [|? [|? [|? ?]]]; simpl in Hlen; try discriminate.
Qed.

Lemma C7_waveform_redefinition_witness :
  exitDefWaveform (H := example_host) ex_defwaveform_custom ex_init
  = append (H := example_host) (DefWaveform "my_wf" ["%a"] [VNumber 1%Q; VNumber 2%Q]) ex_init.
Proof.
  refine (proj2 (@C7_waveform_redefinition example_host ex_defwaveform_custom ex_init) _
            [[VNumber 1%Q; VNumber 2%Q]] _).
  - intros Hin. vm_compute in Hin. discriminate.
  - reflexivity.
Defined.

(** Redefining the template [gaussian] raises a ValueError, not an
    UnknownWaveform error. *)
Lemma C7_UnknownWaveform_fails :
  ~ fails_with_UnknownWaveform
      (exitDefWaveform (H := example_host) ex_defwaveform_gaussian ex_init).
Proof. intros [msg Hmsg]. vm_compute in Hmsg. discriminate. Qed.



Lemma C9_memory_declaration_witness :
  exitMemoryDescriptor (H := example_host)
    {| Memory_IDENTIFIER := ["ro"; "BIT"]; Memory_INT := Some "2";
       Memory_SHARING := false; Memory_offsetDescriptor := [] |} ex_init
  = append (H := example_host) (Declare_ "ro" "BIT" 2 None []) ex_init.
Proof.
  refine (proj1 (proj1 (@C9_memory_declaration example_host)
                   {| Memory_IDENTIFIER := ["ro"; "BIT"]; Memory_INT := Some "2";
                      Memory_SHARING := false; Memory_offsetDescriptor := [] |}
                   ex_init "ro" "BIT" _ _ _) _); reflexivity.
Defined.

Lemma C10_logical_binary_op_witness :
  exitLogicalBinaryOp (H := example_host) (ex_logical AND) ex_init
  = append (H := example_host) (ClassicalAnd (MemRef "ro" 0) (inl 1)) ex_init
  ∧ is_ok (exitLogicalBinaryOp (H := example_host) (ex_logical OR) ex_init) = false.
Proof.
  split.
  - refine (proj1 (@C10_logical_binary_op example_host (ex_logical AND) ex_init
                     (MemRef "ro" 0) _) "1" _ _); reflexivity.
  - rewrite (proj1 (@C10_logical_binary_op example_host (ex_logical OR) ex_init
                      (MemRef "ro" 0) eq_refl) "1" eq_refl eq_refl).
    reflexivity.
Defined.

(** * Further properties *)

(** ** Gate application: what happens to the qubits and the parameters *)

Lemma slice_from (A : Type) (l : list A) a b :
  (a <= b)%nat -> take a l ++ Py.slice l a b = take b l.
Proof.
  intros Hab. unfold Py.slice. rewrite take_take_drop. f_equal. lia.
Qed.

(** The windows of the first [n] forks, put end to end, are the
    parameters from [forked_offset] up to [forked_offset * 2 ^ n]. *)
Lemma take_windows {number} (params : list (PyVal number)) fo n :
  take fo params ++ concat (window params fo <$> seq 0 n) = take (fo * 2 ^ n) params.
Proof.
  induction n as [|n IH].
  - simpl. rewrite app_nil_r. f_equal. lia.
  - rewrite seq_S, fmap_app, concat_app, app_assoc, IH.
    cbn [fmap list_fmap concat Nat.add]. rewrite app_nil_r.
    unfold window. rewrite slice_from by lia.
    f_equal. rewrite Nat.pow_succ_r'. lia.
Qed.

Lemma shiftr_mul_pow2 a n : (Nat.shiftr a n * 2 ^ n = a - a mod 2 ^ n)%nat.
Proof.
  rewrite Nat.shiftr_div_pow2.
  pose proof (Nat.div_mod a (2 ^ n)) as Hd.
  assert (2 ^ n ≠ 0)%nat by (apply Nat.pow_nonzero; lia).
  specialize (Hd ltac:(done)). lia.
Qed.

Lemma apply_modifiers_app `{Host} (params : list (PyVal number)) l1 l2 st :
  apply_modifiers params (l1 ++ l2) st
  = st' ← apply_modifiers params l1 st; apply_modifiers params l2 st'.
Proof.
  revert st. induction l1 as [|m l1 IH]; intros st; cbn [app apply_modifiers].
  - done.
  - destruct (apply_modifier params m st) as [st'|e]; cbn [mbind res_bind]; [|done].
    apply IH.
Qed.

(** The loop over a reversed run of supported modifiers leaves the
    modifier qubits it does not need. *)
Lemma apply_modifiers_chain_left `{Host} (params : list (PyVal number)) modifiers :
  Forall (fun m => supported_modifier m = true) modifiers ->
  forall gate left modifier_qubits forked_offset,
  length modifier_qubits = modifier_arity modifiers ->
  apply_modifiers params (reverse modifiers) (gate, left ++ modifier_qubits, forked_offset)
  = Ok (wrap_chain (modifier_chain params forked_offset modifiers modifier_qubits) gate,
        left, (forked_offset * 2 ^ Py.count "FORKED" modifiers)%nat).
Proof.
  induction modifiers as [|m pre IH] using rev_ind; intros Hsup gate left mq fo Hlen.
  - destruct mq; [|done]. rewrite app_nil_r. simpl. do 2 f_equal.
    unfold Py.count. simpl. lia.
  - apply Forall_app in Hsup as [Hpre Hm]. apply Forall_inv in Hm.
    rewrite reverse_snoc. cbn [apply_modifiers].
    rewrite modifier_arity_snoc in Hlen. rewrite count_snoc.
    destruct (supported_cases _ Hm) as [-> | [-> | ->]].
    + rewrite bool_decide_eq_true_2 in Hlen by exact consumes_CONTROLLED.
      destruct mq as [|q mq _] using rev_ind; [simpl in Hlen; lia|].
      rewrite length_app in Hlen. simpl in Hlen.
      unfold apply_modifier.
      rewrite (bool_decide_eq_true_2 ("CONTROLLED" = "CONTROLLED")) by done.
      rewrite app_assoc, pop_snoc. cbn [mbind res_bind].
      rewrite IH by (auto; lia).
      destruct (modifier_chain_snoc params fo pre "CONTROLLED" mq Hpre) as [_ Hs]; [lia|].
      rewrite (Hs q) by done.
      rewrite !(bool_decide_eq_false_2 ("CONTROLLED" = "FORKED")) by done.
      unfold wrap_chain. rewrite foldr_app. cbn [foldr wrap_entry].
      by rewrite Nat.add_0_r.
    + rewrite bool_decide_eq_false_2 in Hlen by exact consumes_DAGGER.
      rewrite Nat.add_0_r in Hlen.
      unfold apply_modifier.
      rewrite (bool_decide_eq_false_2 ("DAGGER" = "CONTROLLED")) by done.
      rewrite (bool_decide_eq_true_2 ("DAGGER" = "DAGGER")) by done.
      cbn [mbind res_bind].
      rewrite IH by auto.
      destruct (modifier_chain_snoc params fo pre "DAGGER" mq Hpre Hlen) as [Hs _].
      rewrite Hs by done.
      rewrite !(bool_decide_eq_false_2 ("DAGGER" = "FORKED")) by done.
      unfold wrap_chain. rewrite foldr_app. cbn [foldr wrap_entry].
      by rewrite Nat.add_0_r.
    + rewrite bool_decide_eq_true_2 in Hlen by exact consumes_FORKED.
      destruct mq as [|q mq _] using rev_ind; [simpl in Hlen; lia|].
      rewrite length_app in Hlen. simpl in Hlen.
      unfold apply_modifier.
      rewrite (bool_decide_eq_false_2 ("FORKED" = "CONTROLLED")) by done.
      rewrite (bool_decide_eq_false_2 ("FORKED" = "DAGGER")) by done.
      rewrite !(bool_decide_eq_true_2 ("FORKED" = "FORKED")) by done.
      rewrite app_assoc, pop_snoc. cbn [mbind res_bind].
      rewrite IH by (auto; lia).
      destruct (modifier_chain_snoc params fo pre "FORKED" mq Hpre) as [_ Hs]; [lia|].
      rewrite (Hs q) by done.
      rewrite !(bool_decide_eq_true_2 ("FORKED" = "FORKED")) by done.
      unfold wrap_chain. rewrite foldr_app. cbn [foldr wrap_entry]. rewrite window_0.
      rewrite Nat.add_1_r, Nat.pow_succ_r'. do 2 f_equal. lia.
Qed.

Lemma collect_modifier_qubits_short modifiers qubits acc :
  (length acc <= length qubits)%nat ->
  (length qubits < length acc + modifier_arity modifiers)%nat ->
  collect_modifier_qubits modifiers qubits acc = IndexError "list index out of range".
Proof.
  revert acc. induction modifiers as [|m rest IH]; intros acc Hle Hlt.
  - unfold modifier_arity in Hlt. simpl in Hlt. lia.
  - rewrite modifier_arity_cons in Hlt. cbn [collect_modifier_qubits].
    case_bool_decide as Hm.
    + destruct (decide (length acc < length qubits)%nat) as [Hin|Hout].
      * destruct (lookup_lt_is_Some_2 qubits (length acc)) as [q Hq]; [lia|].
        rewrite (index_nat _ _ _ Hq). cbn [mbind res_bind].
        apply IH; rewrite length_app; simpl; lia.
      * unfold Py.index.
        destruct (Z.ltb_spec (Z.of_nat (length acc)) 0); [lia|].
        destruct (Z.ltb_spec (Z.of_nat (length acc)) (Z.of_nat (length qubits))); [lia|].
        by rewrite andb_false_r.
    + apply IH; [done|]. simpl in Hlt. lia.
Qed.

Section GateExtras.
Context `{Host}.

(** X1. A gate node whose name is not in the catalog, whose modifiers are
    supported and which has a qubit left for the base gate after one for
    each CONTROLLED or FORKED, appends a gate that keeps the qubits and
    the modifiers as written: its qubit list is the whole qubit list of
    the node, in order, its name is the name of the node, and the keywords
    of its modifier chain are the modifiers of the node. *)
Theorem X1_generic_gate_keeps_qubits :
  forall (ctx : GateContext) (s : PyQuilListener) params qubits,
    let modifiers := getText <$> Gate_modifier ctx in
    mapM _param (Gate_param ctx) = Ok params ->
    mapM _qubit (Gate_qubit ctx) = Ok qubits ->
    QUANTUM_GATES !! getText (Gate_name ctx) = None ->
    Forall (fun m => supported_modifier m = true) modifiers ->
    (modifier_arity modifiers < length qubits)%nat ->
    exists gate,
      exitGate ctx s = append (IGate gate) s
      ∧ gate_name gate = getText (Gate_name ctx)
      ∧ gate_qubits gate = qubits
      ∧ modifier_keyword <$> gate_modifiers gate = modifiers.
Proof.
  intros ctx s params qubits modifiers Hp Hq Hnone Hsup Hlen.
  set (name := getText (Gate_name ctx)) in *.
  set (fo := Nat.shiftr (length params) (Py.count "FORKED" modifiers)).
  set (k := modifier_arity modifiers) in *.
  assert (Hbase : base_gate name (take fo params) (drop k qubits)
                  = Ok (new_Gate name (take fo params) (drop k qubits)))
    by (unfold base_gate; by rewrite Hnone).
  exists (wrap_chain (modifier_chain params fo modifiers (take k qubits))
            (new_Gate name (take fo params) (drop k qubits))).
  split.
  { unfold exitGate. rewrite Hp, Hq. cbn [mbind res_bind]. fold modifiers name.
    rewrite (build_gate_chain _ _ _ _ _ Hsup (Nat.lt_le_incl _ _ Hlen) Hbase). done. }
  destruct (wrap_chain_fields (modifier_chain params fo modifiers (take k qubits))
              (new_Gate name (take fo params) (drop k qubits)))
    as (-> & -> & -> & _).
  destruct (modifier_chain_keywords params fo modifiers (take k qubits))
    as (Hk & -> & _); [done|rewrite length_take; lia|].
  cbn [new_Gate gate_name gate_qubits gate_modifiers].
  split_and!; [done|by rewrite take_drop|].
  by rewrite app_nil_r.
Qed.

(** X2. Under the same conditions the parameters of the gate appended are
    a prefix of the written parameters: with [k] FORKED modifiers it holds
    the first [len - len mod 2^k] of them, in order.  When [2^k] divides
    the number of parameters none is lost; otherwise the last
    [len mod 2^k] are left out and the gate is appended all the same. *)
Theorem X2_generic_gate_parameters :
  forall (ctx : GateContext) (s : PyQuilListener) params qubits,
    let modifiers := getText <$> Gate_modifier ctx in
    let k := Py.count "FORKED" modifiers in
    mapM _param (Gate_param ctx) = Ok params ->
    mapM _qubit (Gate_qubit ctx) = Ok qubits ->
    QUANTUM_GATES !! getText (Gate_name ctx) = None ->
    Forall (fun m => supported_modifier m = true) modifiers ->
    (modifier_arity modifiers < length qubits)%nat ->
    exists gate,
      exitGate ctx s = append (IGate gate) s
      ∧ gate_params gate = take (length params - length params mod 2 ^ k)%nat params
      ∧ ((length params mod 2 ^ k = 0)%nat -> gate_params gate = params)
      ∧ (length (gate_params gate) + length params mod 2 ^ k = length params)%nat.
Proof.
  intros ctx s params qubits modifiers k Hp Hq Hnone Hsup Hlen.
  set (name := getText (Gate_name ctx)) in *.
  set (fo := Nat.shiftr (length params) k).
  set (n := modifier_arity modifiers) in *.
  assert (Hbase : base_gate name (take fo params) (drop n qubits)
                  = Ok (new_Gate name (take fo params) (drop n qubits)))
    by (unfold base_gate; by rewrite Hnone).
  assert (Hmod : (length params mod 2 ^ k <= length params)%nat)
    by (apply Nat.Div0.mod_le).
  assert (Hg : gate_params (wrap_chain (modifier_chain params fo modifiers (take n qubits))
                              (new_Gate name (take fo params) (drop n qubits)))
               = take (length params - length params mod 2 ^ k)%nat params).
  { destruct (wrap_chain_fields (modifier_chain params fo modifiers (take n qubits))
                (new_Gate name (take fo params) (drop n qubits)))
      as (_ & _ & _ & ->).
    destruct (modifier_chain_keywords params fo modifiers (take n qubits))
      as (_ & _ & ->); [done|rewrite length_take; lia|].
    cbn [new_Gate gate_params]. fold k. rewrite take_windows.
    unfold fo. by rewrite shiftr_mul_pow2. }
  exists (wrap_chain (modifier_chain params fo modifiers (take n qubits))
            (new_Gate name (take fo params) (drop n qubits))).
  split.
  { unfold exitGate. rewrite Hp, Hq. cbn [mbind res_bind]. fold modifiers name.
    rewrite (build_gate_chain _ _ _ _ _ Hsup (Nat.lt_le_incl _ _ Hlen) Hbase). done. }
  rewrite Hg. split_and!.
  - done.
  - intros ->. rewrite Nat.sub_0_r. by apply take_ge.
  - rewrite length_take. lia.
Qed.

(** X3. A modifier keyword that is none of CONTROLLED, DAGGER and FORKED
    makes the gate builder raise a ValueError that names it, once the base
    gate has been built; of several such keywords the rightmost one is
    named.  Nothing is appended. *)
Theorem X3_unsupported_modifier :
  forall (ctx : GateContext) (s : PyQuilListener) params qubits base left m right,
    let modifiers := getText <$> Gate_modifier ctx in
    mapM _param (Gate_param ctx) = Ok params ->
    mapM _qubit (Gate_qubit ctx) = Ok qubits ->
    modifiers = left ++ m :: right ->
    supported_modifier m = false ->
    Forall (fun m => supported_modifier m = true) right ->
    (modifier_arity modifiers <= length qubits)%nat ->
    base_gate (getText (Gate_name ctx))
      (take (Nat.shiftr (length params) (Py.count "FORKED" modifiers)) params)
      (drop (modifier_arity modifiers) qubits) = Ok base ->
    exitGate ctx s
    = Raise (Exn "ValueError" ("Unsupported gate modifier " +:+ m +:+ ".")).
Proof.
  intros ctx s params qubits base left m right modifiers Hp Hq Hmods Hm Hright Hlen Hbase.
  unfold exitGate. rewrite Hp, Hq. cbn [mbind res_bind]. fold modifiers.
  unfold build_gate.
  rewrite (collect_modifier_qubits_take modifiers qubits []) by (simpl; done || lia).
  cbn [mbind res_bind length Nat.add].
  rewrite length_take, Nat.min_l by lia. rewrite Hbase. cbn [mbind res_bind].
  set (fo := Nat.shiftr (length params) (Py.count "FORKED" modifiers)).
  set (mq := take (modifier_arity modifiers) qubits).
  assert (Hmq : length mq = modifier_arity modifiers)
    by (unfold mq; rewrite length_take; lia).
  assert (Harity : (modifier_arity right <= modifier_arity modifiers)%nat).
  { rewrite Hmods. unfold modifier_arity. rewrite filter_app, length_app, filter_cons.
    case_decide; simpl; lia. }
  set (k := (modifier_arity modifiers - modifier_arity right)%nat).
  assert (Hk : (length mq - k = modifier_arity right)%nat) by (unfold k; lia).
  rewrite <- (take_drop k mq). clearbody k mq fo.
  rewrite Hmods, reverse_app, reverse_cons, <- app_assoc, apply_modifiers_app.
  rewrite apply_modifiers_chain_left; [|done|].
  2:{ by rewrite length_drop. }
  cbn [mbind res_bind app apply_modifiers]. unfold apply_modifier.
  unfold supported_modifier in Hm. apply bool_decide_eq_false in Hm.
  rewrite !bool_decide_eq_false_2; [done| | |];
    intros ->; apply Hm; repeat (first [by left | right]).
Qed.
(** X4. With more CONTROLLED and FORKED modifiers than qubits the first
    loop of the gate builder reads [qubits[len(modifier_qubits)]] past the
    end of the qubit list and raises IndexError, whatever the gate name:
    the catalog is not consulted and nothing is appended. *)
Theorem X4_too_few_qubits :
  forall (ctx : GateContext) (s : PyQuilListener) params qubits,
    mapM _param (Gate_param ctx) = Ok params ->
    mapM _qubit (Gate_qubit ctx) = Ok qubits ->
    (length qubits < modifier_arity (getText <$> Gate_modifier ctx))%nat ->
    exitGate ctx s = Raise (Exn "IndexError" "list index out of range").
Proof.
  intros ctx s params qubits Hp Hq Hlt.
  unfold exitGate. rewrite Hp, Hq. cbn [mbind res_bind]. unfold build_gate.
  by rewrite (collect_modifier_qubits_short (getText <$> Gate_modifier ctx) qubits [])
    by (simpl; lia).
Qed.

End GateExtras.

(** ** The walk: buffers and the saved slot *)

Section WalkExtras.
Context `{Host} `{!HostFunctions}.

Ltac peel H :=
  repeat match type of H with
  | (?x ≫= _) = Ok _ =>
      let E := fresh "E" in
      destruct x as [?|?] eqn:E; cbn [mbind res_bind] in H; [|discriminate H]
  | (let '(_, _) := ?p in _) = Ok _ => destruct p
  | (match ?x with _ => _ end) = Ok _ => destruct x eqn:?; try discriminate H
  | (if ?b then _ else _) = Ok _ => destruct b eqn:?; try discriminate H
  end.

(** The state after a top-level node, seen from the enclosing buffer. *)
Lemma walk_node_top (n : AllInstrNode) (s s' : PyQuilListener) r pre :
  result s = Some r ->
  heap s !! r = Some pre ->
  walk_node n s = Ok s' ->
  exists i,
    result s' = Some r
    ∧ heap s' !! r = Some (pre ++ [i])
    ∧ (previous_result s = None -> previous_result s' = None).
Proof.
  intros Hr Hpre Hw.
  assert (Hdef : forall d instrs,
    s' = mkListener (<[ r := pre ++ [d] ]> (<[ fresh (dom (heap s)) := instrs ]> (heap s)))
           (Some r) None ->
    exists i, result s' = Some r ∧ heap s' !! r = Some (pre ++ [i])
              ∧ (previous_result s = None -> previous_result s' = None)).
  { intros d instrs ->. exists d. cbn [result heap previous_result].
    by rewrite lookup_insert_eq. }
  assert (Happ : forall i, append i s = Ok s' ->
    exists i, result s' = Some r ∧ heap s' !! r = Some (pre ++ [i])
              ∧ (previous_result s = None -> previous_result s' = None)).
  { intros i Hi. apply append_inv in Hi as (r' & Hr' & ->).
    assert (r' = r) as -> by congruence. exists i. cbn [result heap previous_result].
    by rewrite lookup_alter_eq, Hpre. }
  destruct n as [i|ctx|ctx|ctx body|ctx|ctx|ctx body|ctx body]; cbn [walk_node] in Hw.
  - apply walk_instr_appends in Hw as [i' Hi]. eauto.
  - unfold exitDefGate in Hw. peel Hw; eauto.
  - unfold exitDefGateAsPauli in Hw. peel Hw. eauto.
  - unfold walk_defcircuit, enterDefCircuit in Hw. cbn [mbind res_bind] in Hw.
    destruct (walk_circuit_body body (enter_definition s)) as [s2|] eqn:Hbody;
      cbn [mbind res_bind] in Hw; [|done].
    apply circuit_body_state in Hbody as (instrs & _ & ->). rewrite Hr in Hw.
    unfold exitDefCircuit in Hw. cbn [result previous_result heap buffer] in Hw.
    rewrite lookup_insert_eq in Hw. cbn [default from_option id] in Hw.
    rewrite (alter_lookup_insert _ r pre) in Hw
      by (rewrite lookup_insert_ne; [done|by apply fresh_loc_ne with pre]).
    injection Hw as <-. eauto.
  - unfold exitDefFrame in Hw. peel Hw. eauto.
  - unfold exitDefWaveform in Hw. peel Hw. eauto.
  - unfold enterDefCalibration in Hw. cbn [mbind res_bind] in Hw.
    destruct (walk_body body (enter_definition s)) as [s2|] eqn:Hbody;
      cbn [mbind res_bind] in Hw; [|done].
    apply definition_body_state in Hbody as (instrs & _ & ->). rewrite Hr in Hw.
    unfold exitDefCalibration in Hw.
    destruct (mapM _param _) as [parameters|]; cbn [mbind res_bind] in Hw; [|done].
    destruct (check_parameters _ _); cbn [mbind res_bind] in Hw; [|done].
    destruct (mapM _formalQubit _) as [qubits|]; cbn [mbind res_bind] in Hw; [|done].
    cbn [result] in Hw. rewrite (restore_and_append_state _ s r pre instrs Hpre) in Hw.
    injection Hw as <-. eauto.
  - unfold enterDefMeasCalibration in Hw. cbn [mbind res_bind] in Hw.
    destruct (walk_body body (enter_definition s)) as [s2|] eqn:Hbody;
      cbn [mbind res_bind] in Hw; [|done].
    apply definition_body_state in Hbody as (instrs & _ & ->). rewrite Hr in Hw.
    unfold exitDefMeasCalibration in Hw.
    destruct (_formalQubit _) as [qubit|]; cbn [mbind res_bind] in Hw; [|done].
    cbn [result] in Hw. rewrite (restore_and_append_state _ s r pre instrs Hpre) in Hw.
    injection Hw as <-. eauto.
Qed.

(** X5. A walk of top-level nodes of any kind that starts with nothing
    saved and returns has appended exactly one instruction per top-level
    node to the buffer it started with: that list object is still the
    current one, its old contents are untouched, nothing is saved; and
    when [run_parser] returns, the parser has returned a tree, and the
    instructions returned are as many as the tree has top-level nodes. *)
Theorem X5_one_instruction_per_top_level_node :
  (forall (tree : list AllInstrNode) (s s' : PyQuilListener) r pre,
     result s = Some r ->
     previous_result s = None ->
     heap s !! r = Some pre ->
     walk tree s = Ok s' ->
     exists instrs,
       length instrs = length tree
       ∧ result s' = Some r
       ∧ previous_result s' = None
       ∧ buffer (result s') s' = pre ++ instrs)
  ∧ (forall (run : ParserRun) instrs,
       run_parser run = Ok instrs ->
       exists tree, parser_quil run = Ok tree ∧ length instrs = length tree).
Proof.
  assert (Hwalk : forall (tree : list AllInstrNode) (s s' : PyQuilListener) r pre,
     result s = Some r ->
     previous_result s = None ->
     heap s !! r = Some pre ->
     walk tree s = Ok s' ->
     exists instrs,
       length instrs = length tree
       ∧ result s' = Some r
       ∧ previous_result s' = None
       ∧ buffer (result s') s' = pre ++ instrs).
  { induction tree as [|n tree IH]; intros s s' r pre Hr Hprev Hpre Hw.
    - injection Hw as <-. exists []. rewrite app_nil_r. split_and!; try done.
      unfold buffer. by rewrite Hr, Hpre.
    - cbn [walk] in Hw.
      destruct (walk_node n s) as [s1|] eqn:Hn; cbn [mbind res_bind] in Hw; [|done].
      destruct (walk_node_top n s s1 r pre Hr Hpre Hn) as (i & Hr1 & Hh1 & Hp1).
      destruct (IH s1 s' r (pre ++ [i]) Hr1 (Hp1 Hprev) Hh1 Hw)
        as (instrs & Hlen & Hr' & Hp' & Hb).
      exists (i :: instrs). split_and!; try done.
      + simpl. by rewrite Hlen.
      + by rewrite Hb, <- app_assoc. }
  split; [exact Hwalk|].
  intros run instrs Hrun. unfold run_parser in Hrun.
  destruct (parser_quil run) as [tree|]; cbn [mbind res_bind] in Hrun; [|done].
  destruct (walk tree init) as [s'|] eqn:Hw; cbn [mbind res_bind] in Hrun; [|done].
  injection Hrun as <-. exists tree. split; [done|].
  destruct (Hwalk tree init s' 0%nat []) as (instrs & Hlen & _ & _ & ->); try done.
Qed.

(** A run of handlers that each build an instruction from their node
    alone and append it gives the same instructions from any state whose
    current buffer is a list. *)
Lemma same_instructions {N} (step : N -> PyQuilListener -> res PyQuilListener)
    (steps : list N -> PyQuilListener -> res PyQuilListener) :
  (forall s, steps [] s = Ok s) ->
  (forall n rest s, steps (n :: rest) s = s' ← step n s; steps rest s') ->
  (forall n s s', step n s = Ok s' ->
     exists i, append i s = Ok s' ∧ forall s2, step n s2 = append i s2) ->
  forall (body : list N) (s1 s1' s2 : PyQuilListener) r1 r2,
    result s1 = Some r1 ->
    result s2 = Some r2 ->
    steps body s1 = Ok s1' ->
    exists instrs,
      length instrs = length body
      ∧ s1' = mkListener (alter (fun b => b ++ instrs) r1 (heap s1)) (Some r1)
                         (previous_result s1)
      ∧ steps body s2
        = Ok (mkListener (alter (fun b => b ++ instrs) r2 (heap s2)) (Some r2)
                         (previous_result s2)).
Proof.
  intros Hnil Hcons Hstep body.
  induction body as [|n body IH]; intros s1 s1' s2 r1 r2 Hr1 Hr2 Hw.
  - exists []. rewrite Hnil in Hw |- *. injection Hw as <-. split; [done|].
    rewrite !alter_id by (intros; apply app_nil_r).
    destruct s1, s2; simpl in *; by subst.
  - rewrite Hcons in Hw |- *.
    destruct (step n s1) as [t1|] eqn:Hn; cbn [mbind res_bind] in Hw; [|done].
    apply Hstep in Hn as (i & Hi & Hany). rewrite (Hany s2).
    apply append_inv in Hi as (r' & Hr' & ->).
    assert (r' = r1) as -> by congruence.
    unfold append at 1. rewrite Hr2. cbn [mbind res_bind].
    destruct (IH (mkListener (alter (fun b => b ++ [i]) r1 (heap s1)) (Some r1)
                    (previous_result s1))
                 s1'
                 (mkListener (alter (fun b => b ++ [i]) r2 (heap s2)) (Some r2)
                    (previous_result s2)) r1 r2)
      as (instrs & Hlen & -> & ->); [done|done|exact Hw|].
    exists (i :: instrs). split; [simpl; by rewrite Hlen|].
    cbn [heap previous_result]. rewrite !alter_alter_eq.
    split; [f_equal|do 2 f_equal]; apply alter_ext; intros b _; cbn;
      by rewrite <- app_assoc.
Qed.

(** X7. The instructions that a run of instruction nodes of any kind
    yields do not depend on the buffer they are appended to: walked from
    another state whose current buffer is a list, the same nodes append the
    same instructions, in the same order.  A body gives inside a
    definition what it would give at top level; the same holds of the body
    of a circuit definition. *)
Theorem X7_body_instructions_independent_of_buffer :
  (forall (body : list InstrNode) (s1 s1' s2 : PyQuilListener) r1 r2,
     result s1 = Some r1 ->
     result s2 = Some r2 ->
     walk_body body s1 = Ok s1' ->
     exists instrs,
       length instrs = length body
       ∧ s1' = mkListener (alter (fun b => b ++ instrs) r1 (heap s1)) (Some r1)
                          (previous_result s1)
       ∧ walk_body body s2
         = Ok (mkListener (alter (fun b => b ++ instrs) r2 (heap s2)) (Some r2)
                          (previous_result s2)))
  ∧ (forall (body : list CircuitInstrNode) (s1 s1' s2 : PyQuilListener) r1 r2,
       result s1 = Some r1 ->
       result s2 = Some r2 ->
       walk_circuit_body body s1 = Ok s1' ->
       exists instrs,
         length instrs = length body
         ∧ s1' = mkListener (alter (fun b => b ++ instrs) r1 (heap s1)) (Some r1)
                            (previous_result s1)
         ∧ walk_circuit_body body s2
           = Ok (mkListener (alter (fun b => b ++ instrs) r2 (heap s2)) (Some r2)
                            (previous_result s2))).
Proof.
  split.
  - apply (same_instructions walk_instr walk_body); [done|done|].
    apply walk_instr_factor.
  - apply (same_instructions walk_circuit_instr walk_circuit_body); [done|done|].
    apply walk_circuit_instr_factor.
Qed.

End WalkExtras.

Section SavedBufferExtras.
Context `{Host}.

(** X6. The listener saves at most one buffer.  An exit handler of a
    definition that finds nothing saved raises AttributeError (the
    calibration one after its parameters have passed validation); and
    after a definition entered inside another one has been exited, nothing
    is saved, so that the exit of the outer definition raises
    AttributeError. *)
Theorem X6_single_saved_buffer :
  (forall ctx (s : PyQuilListener),
     previous_result s = None ->
     exists msg, exitDefMeasCalibration ctx s = Raise (Exn "AttributeError" msg))
  ∧ (forall ctx (s : PyQuilListener) parameters,
       previous_result s = None ->
       mapM _param (DefCalibration_param ctx) = Ok parameters ->
       Forall (fun p => _contained_mrefs p = ∅) parameters ->
       exists msg, exitDefCalibration ctx s = Raise (Exn "AttributeError" msg))
  ∧ (forall ctx (s : PyQuilListener) r,
       previous_result s = None ->
       result s = Some r ->
       exists msg, exitDefCircuit ctx s = Raise (Exn "AttributeError" msg))
  ∧ (forall inner outer (s : PyQuilListener),
       exists s3,
         (s1 ← enterDefMeasCalibration s;
          s2 ← enterDefMeasCalibration s1;
          exitDefMeasCalibration inner s2) = Ok s3
         ∧ previous_result s3 = None
         ∧ exists msg, exitDefMeasCalibration outer s3 = Raise (Exn "AttributeError" msg)).
Proof.
  assert (Hmeas : forall ctx (s : PyQuilListener),
     previous_result s = None ->
     exists msg, exitDefMeasCalibration ctx s = Raise (Exn "AttributeError" msg)).
  { intros ctx s Hprev. unfold exitDefMeasCalibration.
    destruct (formalQubit_total (DefMeasCalibration_formalQubit ctx)) as [q ->].
    cbn [mbind res_bind]. unfold restore_and_append, append. cbn [result].
    rewrite Hprev. by eexists. }
  split_and!.
  - exact Hmeas.
  - intros ctx s parameters Hprev Hp Hno. unfold exitDefCalibration.
    rewrite Hp. cbn [mbind res_bind]. rewrite check_parameters_ok by done.
    destruct (mapM_formalQubit_total (DefCalibration_formalQubit ctx)) as (qs & -> & _).
    cbn [mbind res_bind]. unfold restore_and_append, append. cbn [result].
    rewrite Hprev. by eexists.
  - intros ctx s r Hprev Hr. unfold exitDefCircuit. rewrite Hr, Hprev. by eexists.
  - intros inner outer s. unfold enterDefMeasCalibration. cbn [mbind res_bind].
    unfold exitDefMeasCalibration at 1.
    destruct (formalQubit_total (DefMeasCalibration_formalQubit inner)) as [q ->].
    cbn [mbind res_bind]. unfold restore_and_append, append.
    cbn [result previous_result enter_definition heap].
    eexists. split; [done|]. split; [done|]. by apply Hmeas.
Qed.

End SavedBufferExtras.

(** ** Syntax errors under Python's list indexing *)

(** X8. If the type of an expected token is no index of one of the
    vocabulary tables (at or beyond the length, or below minus the
    length), and the tokens before it are, the error listener raises an
    IndexError: the report of line, column and expected tokens is not
    produced. *)
Theorem X8_expected_token_outside_vocabulary :
  forall (recognizer : Recognizer) text line column msg before tok after,
    Forall (fun t => is_Some (py_position (literalNames recognizer) t)
                     ∧ is_Some (py_position (symbolicNames recognizer) t)) before ->
    py_position (literalNames recognizer) tok = None
    ∨ py_position (symbolicNames recognizer) tok = None ->
    exists m,
      syntaxError recognizer text line column msg (Some (before ++ tok :: after))
      = Raise (Exn "IndexError" m).
Proof.
  intros recognizer text line column msg before tok after Hbefore Htok.
  unfold syntaxError.
  assert (Hget : exists m, get_expected_tokens recognizer (before ++ tok :: after)
                           = Raise (Exn "IndexError" m)).
  { induction Hbefore as [|t rest [[jl Hl] [js Hs]] _ IH]; cbn [app get_expected_tokens].
    - rewrite !index_position.
      destruct (py_position (literalNames recognizer) tok) as [jl|] eqn:Hl.
      + destruct Htok as [?|Hs]; [done|].
        destruct (position_lookup _ _ _ Hl) as [x Hx].
        cbn [mbind option_bind]. rewrite Hx, Hs. by eexists.
      + by eexists.
    - rewrite !index_position, Hl, Hs. cbn [mbind option_bind].
      destruct (position_lookup _ _ _ Hl) as [x ->].
      destruct (position_lookup _ _ _ Hs) as [y ->].
      cbn [mbind res_bind]. destruct IH as [m ->]. by eexists. }
  destruct Hget as [m ->]. by exists m.
Qed.

(** X9. A negative token type is read from the end of the vocabulary
    tables, as Python indexes lists: when every expected token type is an
    index of both tables in that sense, the report displays each token by
    the entries at its position counted from the end when it is negative;
    with tables of equal length [n], a token type [t] with [-n <= t < 0] is
    displayed as the token of type [n + t] (so -1 as the last one). *)
Theorem X9_negative_token_type_counts_from_the_end :
  (forall recognizer text line column msg (interval_set : list Z),
     Forall (fun t => is_Some (py_position (literalNames recognizer) t)
                      ∧ is_Some (py_position (symbolicNames recognizer) t)) interval_set ->
     syntaxError recognizer text line column msg (Some interval_set)
     = Raise (Exn "RuntimeError"
         ("Error encountered while parsing the quil program at line "
            +:+ Py.str_int line +:+ " and column " +:+ Py.str_int (column + 1)
            +:+ String "010" ""
            +:+ "Received an '" +:+ text +:+ "' but was expecting one of [ "
            +:+ Py.join ", " (py_display_name recognizer <$> interval_set) +:+ " ]")))
  ∧ (forall (recognizer : Recognizer) (t : Z),
       length (literalNames recognizer) = length (symbolicNames recognizer) ->
       - Z.of_nat (length (literalNames recognizer)) <= t < 0 ->
       is_Some (py_position (literalNames recognizer) t)
       ∧ is_Some (py_position (symbolicNames recognizer) t)
       ∧ py_display_name recognizer t
         = display_name recognizer (Z.of_nat (length (literalNames recognizer)) + t)).
Proof.
  split.
  - intros recognizer text line column msg interval_set Hall. unfold syntaxError.
    by rewrite get_expected_tokens_py.
  - intros recognizer t Hlen Ht.
    assert (Hpos : forall (l : list string),
              length l = length (literalNames recognizer) ->
              py_position l t
              = Some (Z.to_nat (Z.of_nat (length (literalNames recognizer)) + t))).
    { intros l Hl. unfold py_position. rewrite Hl.
      rewrite (proj2 (Z.ltb_lt _ _)) by lia.
      rewrite (proj2 (Z.leb_le _ _)), (proj2 (Z.ltb_lt _ _)) by lia.
      by rewrite Z.add_comm. }
    unfold py_display_name, display_name.
    rewrite (Hpos (literalNames recognizer) eq_refl).
    rewrite (Hpos (symbolicNames recognizer)) by done.
    split_and!; [by eexists|by eexists|].
    cbn [mbind option_bind].
    destruct (lookup_lt_is_Some_2 (literalNames recognizer)
                (Z.to_nat (Z.of_nat (length (literalNames recognizer)) + t)))
      as [x ->]; [lia|].
    done.
Qed.

(** ** Texts: quoted literals and circuit definitions *)

Lemma list_ascii_of_string_app (s1 s2 : string) :
  list_ascii_of_string (s1 +:+ s2) = list_ascii_of_string s1 ++ list_ascii_of_string s2.
Proof. induction s1 as [|c s1 IH]; [done|]. cbn. by rewrite <- IH. Qed.

Lemma lstrip_chars_no_head p (l : list ascii) :
  (forall c, head l = Some c -> p c = false) -> Py.lstrip_chars p l = l.
Proof. destruct l as [|c l]; [done|]. intros Hc. simpl. by rewrite Hc. Qed.

(** Stripping the character [c] from [c ... c] gives what is between,
    when that neither starts nor ends with [c]. *)
Lemma strip_chars_delimited (c : ascii) (l : list ascii) :
  head l ≠ Some c -> last l ≠ Some c ->
  Py.strip_chars (fun a => bool_decide (a = c)) (c :: l ++ [c]) = l.
Proof.
  intros Hh Hl. unfold Py.strip_chars.
  cbn [Py.lstrip_chars]. rewrite bool_decide_eq_true_2 by done.
  assert (Hnot : forall k : list ascii, head k ≠ Some c ->
            forall a, head k = Some a -> bool_decide (a = c) = false).
  { intros k Hk a Ha. apply bool_decide_eq_false_2. intros ->. by apply Hk. }
  destruct l as [|a l].
  - simpl. rewrite bool_decide_eq_true_2 by done. done.
  - rewrite (lstrip_chars_no_head _ ((a :: l) ++ [c])) by (by apply Hnot).
    rewrite reverse_app. cbn [reverse app]. change (reverse [c]) with [c].
    cbn [app Py.lstrip_chars]. rewrite bool_decide_eq_true_2 by done.
    rewrite lstrip_chars_no_head; [by rewrite reverse_involutive|].
    apply Hnot. by rewrite head_reverse.
Qed.

Lemma strip_chars_ends p (l : list ascii) :
  (forall c, head (Py.strip_chars p l) = Some c -> p c = false)
  ∧ (forall c, last (Py.strip_chars p l) = Some c -> p c = false).
Proof.
  assert (Hl : forall k c, head (Py.lstrip_chars p k) = Some c -> p c = false).
  { induction k as [|a k IH]; intros c; [done|]. simpl.
    destruct (p a) eqn:Ha; [apply IH|]. simpl. by intros [= <-]. }
  assert (Hlast : forall k c, last (Py.lstrip_chars p k) = Some c -> last k = Some c).
  { induction k as [|a k IH]; intros c; [done|]. simpl.
    destruct (p a) eqn:Ha; [|done]. intros Hc. specialize (IH c Hc).
    destruct k; [done|]. done. }
  unfold Py.strip_chars. split; intros c.
  - rewrite head_reverse. intros Hc%Hlast. rewrite last_reverse in Hc. by apply Hl in Hc.
  - rewrite last_reverse. apply Hl.
Qed.

(** X10. [_frame] never raises.  The frame it builds has one qubit
    reference per qubit node, and its name is the string literal without
    the quote characters at its ends: for a literal ["name"] whose contents
    neither start nor end with a quote it is exactly [name], and in every
    case the name neither starts nor ends with a quote. *)
Theorem X10_frame_name_is_the_literal_contents :
  (forall frame : FrameContext,
     exists qubits,
       _frame frame = Ok (mkFrame qubits (_str_contents (Frame_STRING frame)))
       ∧ length qubits = length (Frame_formalQubit frame))
  ∧ (forall name : string,
       quote_free_ends name ->
       _str_contents (String Py.quote_char (name +:+ String Py.quote_char "")) = name)
  ∧ (forall text : string, quote_free_ends (_str_contents text)).
Proof.
  split_and!.
  - intros frame. unfold _frame.
    destruct (mapM_formalQubit_total (Frame_formalQubit frame)) as (qs & -> & Hlen).
    by exists qs.
  - intros name [Hh Hl]. unfold _str_contents, Py.strip.
    cbn [list_ascii_of_string]. rewrite list_ascii_of_string_app.
    cbn [list_ascii_of_string].
    rewrite strip_chars_delimited by done.
    apply string_of_list_ascii_of_string.
  - intros text. unfold quote_free_ends, _str_contents, Py.strip.
    rewrite list_ascii_of_string_of_list_ascii.
    destruct (strip_chars_ends (fun a => bool_decide (a = Py.quote_char))
                (list_ascii_of_string text)) as [Hh Hl].
    split; intros Hc; [apply Hh in Hc|apply Hl in Hc];
      by rewrite bool_decide_eq_true_2 in Hc.
Qed.

Lemma string_app_nil_r (s : string) : s +:+ "" = s.
Proof.
  induction s as [|c s IH]; [done|].
  change (String c (s +:+ "") = String c s). by rewrite IH.
Qed.

Lemma join_cons sep x (l : list string) :
  Py.join sep (x :: l) = x +:+ foldr (fun y rest => sep +:+ y +:+ rest) "" l.
Proof.
  revert x. induction l as [|y l IH]; intros x.
  - simpl. by rewrite string_app_nil_r.
  - change (Py.join sep (x :: y :: l)) with (x +:+ sep +:+ Py.join sep (y :: l)).
    by rewrite IH.
Qed.

Section CircuitExtras.
Context `{Host} `{!HostFunctions}.

(** What [exitDefCircuit] does when the current buffer is a list and a
    buffer is saved. *)
Lemma exitDefCircuit_text (ctx : DefCircuitContext) (s : PyQuilListener) r p body pre :
  result s = Some r ->
  previous_result s = Some p ->
  heap s !! r = Some body ->
  heap s !! p = Some pre ->
  exists s',
    exitDefCircuit ctx s = Ok s'
    ∧ result s' = Some p
    ∧ previous_result s' = None
    ∧ buffer (result s') s'
      = pre ++ [RawInstr (defcircuit_header ctx +:+ indented_lines (out <$> body))]
    ∧ heap s'
      = alter (fun b => b ++ [RawInstr (defcircuit_header ctx
                                          +:+ indented_lines (out <$> body))]) p (heap s).
Proof.
  intros Hr Hp Hbody Hpre.
  assert (Htext : forall header : string,
            header +:+ Py.join (String "010" "    ") ("" :: (out <$> body))
            = header +:+ indented_lines (out <$> body)).
  { intros header. by rewrite join_cons. }
  assert (Hraw :
    (let circuit_name := getText (DefCircuit_name ctx) in
     let variables := getText <$> DefCircuit_variable ctx in
     let qubitVariables := getText <$> DefCircuit_qubitVariable ctx in
     let space := if bool_decide (qubitVariables ≠ []) then " " else "" in
     let raw_defcircuit :=
       if bool_decide (variables ≠ []) then
         "DEFCIRCUIT " +:+ circuit_name +:+ "(" +:+ Py.join ", " variables +:+ ")"
           +:+ space +:+ Py.join " " qubitVariables +:+ ":"
       else
         "DEFCIRCUIT " +:+ circuit_name +:+ space +:+ Py.join " " qubitVariables +:+ ":" in
     raw_defcircuit +:+ Py.join (String "010" "    ") ("" :: (out <$> body)))
    = defcircuit_header ctx +:+ indented_lines (out <$> body)).
  { cbv zeta. by rewrite Htext. }
  unfold exitDefCircuit. rewrite Hr, Hp. cbn [buffer]. rewrite Hbody.
  cbn [default from_option id]. cbv zeta in Hraw |- *. rewrite Hraw.
  eexists. split; [done|].
  cbn [result previous_result buffer heap]. rewrite lookup_alter_eq, Hpre.
  by cbn [fmap option_fmap option_map default from_option id].
Qed.

(** X11. The text of a circuit definition is its header line followed by
    the [out()] text of each captured instruction, in order, each on a
    line of its own after four spaces; an empty body gives the header
    alone.  The exit handler appends this one raw instruction to the saved
    buffer and makes it current again, provided the current buffer is a
    list and a buffer is saved. *)
Theorem X11_circuit_definition_text :
  forall (ctx : DefCircuitContext) (s : PyQuilListener) r p body pre,
    result s = Some r ->
    previous_result s = Some p ->
    heap s !! r = Some body ->
    heap s !! p = Some pre ->
    exists s',
      exitDefCircuit ctx s = Ok s'
      ∧ result s' = Some p
      ∧ previous_result s' = None
      ∧ buffer (result s') s'
        = pre ++ [RawInstr (defcircuit_header ctx +:+ indented_lines (out <$> body))]
      ∧ (body = [] ->
         buffer (result s') s' = pre ++ [RawInstr (defcircuit_header ctx)]).
Proof.
  intros ctx s r p body pre Hr Hp Hbody Hpre.
  destruct (exitDefCircuit_text ctx s r p body pre Hr Hp Hbody Hpre)
    as (s' & Hexit & Hres & Hprev & Hbuf & _).
  exists s'. split_and!; try done.
  intros ->. rewrite Hbuf. cbn [fmap list_fmap indented_lines foldr].
  by rewrite string_app_nil_r.
Qed.

(** The circuit forms of gate, measure and reset are kept as text, and
    their handlers do not raise. *)
Lemma raw_circuit_node_appends (n : CircuitInstrNode) (s : PyQuilListener) r :
  is_raw_circuit_node n ->
  result s = Some r ->
  exists line,
    walk_circuit_instr n s
    = Ok (mkListener (alter (fun b => b ++ [RawInstr line]) r (heap s)) (Some r)
                     (previous_result s)).
Proof.
  intros Hn Hr.
  destruct n as [[]| |]; try done; cbn [walk_circuit_instr walk_instr];
    unfold exitCircuitGate, exitCircuitMeasure, exitCircuitResetState, append;
    rewrite Hr; repeat case_match; by eexists.
Qed.

(** X12. A circuit definition whose body has only the circuit forms of
    gate, measure and reset never fails, and when [out()] of a raw
    instruction is its text, the definition instruction holds the header
    followed by the texts of the body's raw instructions, one per body
    node and in order, each on its own indented line. *)
Theorem X12_circuit_body_kept_as_text :
  forall (ctx : DefCircuitContext) (body : list CircuitInstrNode) (s : PyQuilListener)
         r pre,
    (forall text, out (RawInstr text) = text) ->
    Forall is_raw_circuit_node body ->
    result s = Some r ->
    heap s !! r = Some pre ->
    exists s' lines,
      walk_defcircuit ctx body s = Ok s'
      ∧ length lines = length body
      ∧ result s' = Some r
      ∧ heap s' !! fresh (dom (heap s)) = Some (RawInstr <$> lines)
      ∧ buffer (result s') s'
        = pre ++ [RawInstr (defcircuit_header ctx +:+ indented_lines lines)].
Proof.
  intros ctx body s r pre Hout Hbody Hr Hpre.
  assert (Hwalk : forall (t : PyQuilListener) q,
            result t = Some q ->
            exists lines,
              length lines = length body
              ∧ walk_circuit_body body t
                = Ok (mkListener (alter (fun b => b ++ (RawInstr <$> lines)) q (heap t))
                                 (Some q) (previous_result t))).
  { induction Hbody as [|n body Hn _ IH]; intros t q Hq.
    - exists []. split; [done|]. cbn [walk_circuit_body fmap list_fmap].
      rewrite alter_id by (intros; apply app_nil_r). destruct t; simpl in *; by subst.
    - destruct (raw_circuit_node_appends n t q Hn Hq) as [line Hline].
      cbn [walk_circuit_body]. rewrite Hline. cbn [mbind res_bind].
      destruct (IH (mkListener (alter (fun b => b ++ [RawInstr line]) q (heap t))
                      (Some q) (previous_result t)) q) as (lines & Hlen & ->); [done|].
      exists (line :: lines). split; [simpl; by rewrite Hlen|].
      cbn [heap previous_result]. rewrite alter_alter_eq. do 2 f_equal.
      apply alter_ext. intros b _. cbn. by rewrite <- app_assoc. }
  unfold walk_defcircuit, enterDefCircuit. cbn [mbind res_bind].
  destruct (Hwalk (enter_definition s) (fresh (dom (heap s))) eq_refl)
    as (lines & Hlen & ->).
  cbn [mbind res_bind]. unfold enter_definition. cbn [heap previous_result].
  rewrite alter_insert_eq. cbn [app].
  pose proof (fresh_loc_ne s r pre Hpre) as Hne.
  destruct (exitDefCircuit_text ctx
              (mkListener (<[fresh (dom (heap s)):=RawInstr <$> lines]> (heap s))
                 (Some (fresh (dom (heap s)))) (result s))
              (fresh (dom (heap s))) r (RawInstr <$> lines) pre)
    as (s' & Hexit & Hres & _ & Hbuf & Hheap).
  - done.
  - done.
  - cbn [heap]. by rewrite lookup_insert_eq.
  - cbn [heap]. by rewrite lookup_insert_ne.
  - exists s', lines. split_and!; try done.
    + rewrite Hheap. cbn [heap]. by rewrite lookup_alter_ne, lookup_insert_eq.
    + assert (Hmap : out <$> (RawInstr <$> lines) = lines).
      { clear -Hout. induction lines as [|line lines IH]; [done|].
        cbn [fmap list_fmap] in *. by rewrite Hout, IH. }
      by rewrite Hbuf, Hmap.
Qed.

End CircuitExtras.

(** ** Named parameters *)

Section NamedParameterExtras.
Context `{Host}.

Lemma named_parameters_loop_foldl (params : list NamedParamContext) values ret :
  mapM (fun p => _expression (NamedParam_expression p)) params = Ok values ->
  named_parameters_loop params ret
  = Ok (foldl (fun m kv => <[ kv.1 := kv.2 ]> m) ret
          (zip (NamedParam_IDENTIFIER <$> params) values)).
Proof.
  revert values ret. induction params as [|p params IH]; intros values ret Hv.
  - by injection Hv as <-.
  - cbn [mapM] in Hv.
    destruct (_expression (NamedParam_expression p)) as [v|] eqn:Hp;
      cbn [mbind res_bind] in Hv; [|done].
    destruct (mapM _ params) as [vs|] eqn:Hvs; cbn [mbind res_bind] in Hv; [|done].
    injection Hv as <-. cbn [named_parameters_loop]. rewrite Hp. cbn [mbind res_bind].
    by rewrite (IH vs).
Qed.

Lemma foldl_insert_not_in {V} (pairs : list (string * V)) (m : gmap string V) k :
  k ∉ pairs.*1 ->
  foldl (fun m kv => <[ kv.1 := kv.2 ]> m) m pairs !! k = m !! k.
Proof.
  revert m. induction pairs as [|[k' v'] pairs IH]; intros m Hk; [done|].
  cbn [foldl]. rewrite fmap_cons in Hk. apply not_elem_of_cons in Hk as [Hne Hk].
  rewrite IH by done. by rewrite lookup_insert_ne.
Qed.

Lemma foldl_insert_last {V} (before after : list (string * V)) (m : gmap string V) k v :
  k ∉ after.*1 ->
  foldl (fun m kv => <[ kv.1 := kv.2 ]> m) m (before ++ (k, v) :: after) !! k = Some v.
Proof.
  intros Hk. rewrite foldl_app. cbn [foldl].
  rewrite foldl_insert_not_in by done. apply lookup_insert_eq.
Qed.

Lemma foldl_insert_is_Some {V} (pairs : list (string * V)) (m : gmap string V) k :
  is_Some (foldl (fun m kv => <[ kv.1 := kv.2 ]> m) m pairs !! k)
  <-> k ∈ pairs.*1 ∨ is_Some (m !! k).
Proof.
  revert m. induction pairs as [|[k' v'] pairs IH]; intros m.
  - cbn. split; [by right|]. intros [Hk|?]; [|done]. by apply elem_of_nil in Hk.
  - cbn [foldl]. rewrite IH, fmap_cons, elem_of_cons, lookup_insert_is_Some.
    cbn [fst snd]. split.
    + intros [Hk|[->|[_ Hk]]]; [by left; right|by left; left|by right].
    + intros [[->|Hk]|Hk]; [by right; left|by left|].
      destruct (decide (k' = k)) as [->|Hne]; [by right; left|by right; right].
Qed.

(** X13. When the expressions of all named parameters evaluate,
    [_named_parameters] returns a mapping whose keys are exactly the
    parameter names, and a name that occurs several times is mapped to
    the value of its last occurrence. *)
Theorem X13_named_parameters_last_wins :
  forall (params : list NamedParamContext) values,
    mapM (fun p => _expression (NamedParam_expression p)) params = Ok values ->
    exists ret,
      _named_parameters params = Ok ret
      ∧ (forall k, is_Some (ret !! k) <-> k ∈ NamedParam_IDENTIFIER <$> params)
      ∧ (forall before p after,
           params = before ++ p :: after ->
           NamedParam_IDENTIFIER p ∉ NamedParam_IDENTIFIER <$> after ->
           ret !! NamedParam_IDENTIFIER p = values !! length before
           ∧ is_Some (values !! length before)).
Proof.
  intros params values Hv. eexists. split; [by apply named_parameters_loop_foldl|].
  assert (Hlen : length values = length params).
  { clear -Hv. revert values Hv. induction params as [|p params IH]; intros values Hv.
    - by injection Hv as <-.
    - cbn [mapM] in Hv.
      destruct (_expression _); cbn [mbind res_bind] in Hv; [|done].
      destruct (mapM _ params) as [vs|] eqn:Hvs; cbn [mbind res_bind] in Hv; [|done].
      injection Hv as <-. simpl. by rewrite (IH vs). }
  split.
  - intros k. rewrite foldl_insert_is_Some, fst_zip by (rewrite length_fmap; lia).
    rewrite lookup_empty. split; [intros [?|[? ?]]; done|by left].
  - intros before p after -> Hp.
    rewrite length_app in Hlen. simpl in Hlen.
    destruct (lookup_lt_is_Some_2 values (length before)) as [v Hvl]; [lia|].
    rewrite Hvl. split; [|by eexists].
    rewrite fmap_app, fmap_cons.
    rewrite <- (take_drop (length before) values).
    rewrite zip_with_app by (rewrite length_fmap, length_take; lia).
    rewrite (drop_S _ _ _ Hvl). cbn [zip_with].
    apply foldl_insert_last.
    intros Hin. apply Hp.
    apply list_elem_of_fmap in Hin as ([k' v'] & -> & Hin).
    apply elem_of_zip_l in Hin. done.
Qed.

End NamedParameterExtras.

(** ** The expression evaluator *)

Section EvaluatorExtras.
Context {num : Type} `{HostNumbers num}.

Lemma apply_operator_value op (a b v : PyVal num) :
  Evaluator.apply_operator op a b = Ok v ->
  _contained_mrefs v = _contained_mrefs a ∪ _contained_mrefs b
  ∧ is_Expression v = is_Expression a || is_Expression b.
Proof.
  unfold Evaluator.apply_operator.
  destruct a, b; try (intros [= <-]; split; [done|done]).
  destruct (num_operator op n n0); cbn [mbind res_bind]; [|done].
  intros [= <-]. split; [|done]. cbn [_contained_mrefs]. by rewrite union_empty_l_L.
Qed.

Lemma apply_function_value func (arg v : PyVal num) :
  Evaluator._apply_function func arg = Ok v ->
  _contained_mrefs v = _contained_mrefs arg ∧ is_Expression v = is_Expression arg.
Proof.
  unfold Evaluator._apply_function.
  destruct arg, func; cbn [mbind res_bind]; try done; try (by intros [= <-]);
    repeat (match goal with
            | |- context [mbind _ ?x] => destruct x; cbn [mbind res_bind]; [|done]
            end);
    by intros [= <-].
Qed.

(** What the value of an expression says about its leaves. *)
Lemma expression_value (e : ExpressionNode) (v : PyVal num) :
  Evaluator._expression e = Ok v ->
  (forall m, m ∈ _contained_mrefs v <-> exists a, a ∈ addr_leaves e ∧ _addr a = Ok m)
  ∧ (is_Expression v = false <-> addr_leaves e = [] ∧ variable_leaves e = []).
Proof.
  revert v.
  assert (Hbin : forall op e1 e2,
    (forall v, Evaluator._expression e1 = Ok v ->
       (forall m, m ∈ _contained_mrefs v <-> exists a, a ∈ addr_leaves e1 ∧ _addr a = Ok m)
       ∧ (is_Expression v = false <-> addr_leaves e1 = [] ∧ variable_leaves e1 = [])) ->
    (forall v, Evaluator._expression e2 = Ok v ->
       (forall m, m ∈ _contained_mrefs v <-> exists a, a ∈ addr_leaves e2 ∧ _addr a = Ok m)
       ∧ (is_Expression v = false <-> addr_leaves e2 = [] ∧ variable_leaves e2 = [])) ->
    forall v,
      (a ← Evaluator._expression e1; b ← Evaluator._expression e2;
       Evaluator.apply_operator op a b) = Ok v ->
      (forall m, m ∈ _contained_mrefs v
                 <-> exists a, a ∈ addr_leaves e1 ++ addr_leaves e2 ∧ _addr a = Ok m)
      ∧ (is_Expression v = false
         <-> addr_leaves e1 ++ addr_leaves e2 = []
             ∧ variable_leaves e1 ++ variable_leaves e2 = [])).
  { intros op e1 e2 IH1 IH2 v Hv.
    destruct (Evaluator._expression e1) as [a|]; cbn [mbind res_bind] in Hv; [|done].
    destruct (Evaluator._expression e2) as [b|]; cbn [mbind res_bind] in Hv; [|done].
    destruct (IH1 a eq_refl) as [Hm1 Hs1]. destruct (IH2 b eq_refl) as [Hm2 Hs2].
    apply apply_operator_value in Hv as [-> ->]. split.
    - intros m. rewrite elem_of_union, Hm1, Hm2. split.
      + intros [(x & Hx & Hxm)|(x & Hx & Hxm)]; exists x;
          (split; [apply elem_of_app; by auto|done]).
      + intros (x & [Hx|Hx]%elem_of_app & Hxm); [left|right]; by exists x.
    - rewrite orb_false_iff, Hs1, Hs2.
      split.
      + intros [[-> ->] [-> ->]]. done.
      + intros [[-> ->]%app_eq_nil [-> ->]%app_eq_nil]. done. }
  induction e as [e IH|e1 IH1 e2 IH2|token e1 IH1 e2 IH2|token e1 IH1 e2 IH2
                  |sign e IH|func e IH|addr|number_ctx|identifier|text]; intros v Hv.
  - by apply IH.
  - cbn [addr_leaves variable_leaves]. by apply (Hbin OpPow).
  - cbn [addr_leaves variable_leaves].
    destruct token; [by apply (Hbin OpMul)|by apply (Hbin OpTrueDiv)].
  - cbn [addr_leaves variable_leaves].
    destruct token; [by apply (Hbin OpAdd)|by apply (Hbin OpSub)].
  - cbn [addr_leaves variable_leaves]. destruct sign; [by apply IH|].
    cbn [Evaluator._expression] in Hv.
    destruct (Evaluator._expression e) as [a|]; cbn [mbind res_bind] in Hv; [|done].
    destruct (IH a eq_refl) as [Hm Hs].
    apply apply_operator_value in Hv as [-> ->]. split.
    + intros m. rewrite <- Hm. cbn [_contained_mrefs]. by rewrite union_empty_l_L.
    + by rewrite <- Hs.
  - cbn [addr_leaves variable_leaves]. cbn [Evaluator._expression] in Hv.
    destruct (Evaluator._expression e) as [a|]; cbn [mbind res_bind] in Hv; [|done].
    destruct (IH a eq_refl) as [Hm Hs].
    apply apply_function_value in Hv as [-> ->]. done.
  - cbn [Evaluator._expression] in Hv.
    destruct (_addr addr) as [m'|] eqn:Ha; cbn [mbind res_bind] in Hv; [|done].
    injection Hv as <-. split.
    + intros m. cbn. rewrite elem_of_singleton. split.
      * intros ->. exists addr. split; [by apply list_elem_of_singleton|done].
      * intros (a' & ->%list_elem_of_singleton & Hm). congruence.
    + cbn. split; [done|by intros [? _]].
  - cbn [Evaluator._expression] in Hv.
    destruct (Evaluator._number number_ctx); cbn [mbind res_bind] in Hv; [|done].
    injection Hv as <-. split.
    + intros m. cbn. split; [by intros ?%not_elem_of_empty|].
      by intros (a' & ?%elem_of_nil & _).
    + done.
  - injection Hv as <-. split.
    + intros m. cbn. split; [by intros ?%not_elem_of_empty|].
      by intros (a' & ?%elem_of_nil & _).
    + cbn. split; [done|by intros [_ ?]].
  - done.
Qed.

(** X14. The memory references found in the value of an expression are
    those of its address leaves: a memory reference is among the
    sub-expressions of the value exactly when some address node of the
    expression resolves to it; signs, parentheses, operators and functions
    neither hide nor add one. *)
Theorem X14_value_holds_the_address_leaves :
  forall (e : ExpressionNode) (v : PyVal num),
    Evaluator._expression e = Ok v ->
    forall m,
      subexpression (VMemoryReference m) v
      <-> exists a, a ∈ addr_leaves e ∧ _addr a = Ok m.
Proof.
  intros e v Hv m. destruct (expression_value e v Hv) as [Hm _].
  rewrite <- Hm. symmetry.
  exact (contained_mrefs_subexpression
           (H := evaluator_host ∅ ∅ (fun _ => "") (fun _ => "")) v m).
Qed.

End EvaluatorExtras.

Section EvaluatorClaims.
Context {num : Type} `{HostNumbers num}.

(** X15. The value of an expression is a host number exactly when the
    expression has neither an address nor a variable among its leaves;
    with one of them the value is symbolic, whatever the operators,
    signs and functions around it. *)
Theorem X15_number_iff_no_symbolic_leaf :
  forall (e : ExpressionNode) (v : PyVal num),
    Evaluator._expression e = Ok v ->
    (exists n, v = VNumber n) <-> addr_leaves e = [] ∧ variable_leaves e = [].
Proof.
  intros e v Hv. destruct (expression_value e v Hv) as [_ <-].
  destruct v; cbn; split; try done; try (by intros [? ?]). by eexists.
Qed.

(** When an expression evaluates, each of its address leaves has been
    resolved. *)
Lemma addr_leaves_resolve (e : ExpressionNode) (v : PyVal num) :
  Evaluator._expression e = Ok v ->
  forall a, a ∈ addr_leaves e -> exists m, _addr a = Ok m.
Proof.
  revert v.
  assert (Hbin : forall (f : PyVal num -> PyVal num -> res (PyVal num)) e1 e2,
    (forall v, Evaluator._expression e1 = Ok v ->
       forall a, a ∈ addr_leaves e1 -> exists m, _addr a = Ok m) ->
    (forall v, Evaluator._expression e2 = Ok v ->
       forall a, a ∈ addr_leaves e2 -> exists m, _addr a = Ok m) ->
    forall v,
      (a ← Evaluator._expression e1; b ← Evaluator._expression e2; f a b) = Ok v ->
      forall a, a ∈ addr_leaves e1 ++ addr_leaves e2 -> exists m, _addr a = Ok m).
  { intros f e1 e2 IH1 IH2 v Hv a Ha.
    destruct (Evaluator._expression e1) as [x|]; cbn [mbind res_bind] in Hv; [|done].
    destruct (Evaluator._expression e2) as [y|]; cbn [mbind res_bind] in Hv; [|done].
    apply elem_of_app in Ha as [Ha|Ha]; [by apply (IH1 x)|by apply (IH2 y)]. }
  induction e as [e IH|e1 IH1 e2 IH2|token e1 IH1 e2 IH2|token e1 IH1 e2 IH2
                  |sign e IH|func e IH|addr|number_ctx|identifier|text]; intros v Hv;
    cbn [addr_leaves].
  - by apply (IH v).
  - by apply (Hbin (Evaluator.apply_operator OpPow) e1 e2 IH1 IH2 v).
  - destruct token;
      [by apply (Hbin (Evaluator.apply_operator OpMul) e1 e2 IH1 IH2 v)
      |by apply (Hbin (Evaluator.apply_operator OpTrueDiv) e1 e2 IH1 IH2 v)].
  - destruct token;
      [by apply (Hbin (Evaluator.apply_operator OpAdd) e1 e2 IH1 IH2 v)
      |by apply (Hbin (Evaluator.apply_operator OpSub) e1 e2 IH1 IH2 v)].
  - destruct sign; [by apply (IH v)|]. cbn [Evaluator._expression] in Hv.
    destruct (Evaluator._expression e) as [x|]; cbn [mbind res_bind] in Hv; [|done].
    by apply (IH x).
  - cbn [Evaluator._expression] in Hv.
    destruct (Evaluator._expression e) as [x|]; cbn [mbind res_bind] in Hv; [|done].
    by apply (IH x).
  - cbn [Evaluator._expression] in Hv.
    destruct (_addr addr) as [m|] eqn:Ha; cbn [mbind res_bind] in Hv; [|done].
    intros a ->%list_elem_of_singleton. by exists m.
  - by intros a ?%elem_of_nil.
  - by intros a ?%elem_of_nil.
  - done.
Qed.

Lemma mapM_Forall2 {A B} (f : A -> res B) (l : list A) (k : list B) :
  mapM f l = Ok k -> Forall2 (fun x y => f x = Ok y) l k.
Proof.
  revert k. induction l as [|x l IH]; intros k Hk.
  - injection Hk as <-. constructor.
  - cbn [mapM] in Hk. destruct (f x) as [y|] eqn:Hx; cbn [mbind res_bind] in Hk; [|done].
    destruct (mapM f l) as [k'|]; cbn [mbind res_bind] in Hk; [|done].
    injection Hk as <-. constructor; [done|by apply IH].
Qed.

(** X16. With the listener's own evaluator, a calibration definition whose
    parameters evaluate is rejected exactly when the expression of one of
    its parameters has an address leaf: then the exit handler raises the
    ValueError about a non-empty set of memory references, and otherwise,
    a buffer being saved, it returns. *)
Theorem X16_calibration_rejects_address_leaves :
  forall gates waveform_classes str_of_mrefs out_of
         (ctx : @DefCalibrationContext
                  (evaluator_host gates waveform_classes str_of_mrefs out_of))
         (s : @PyQuilListener (evaluator_host gates waveform_classes str_of_mrefs out_of))
         parameters,
    mapM (_param (H := evaluator_host gates waveform_classes str_of_mrefs out_of))
         (DefCalibration_param ctx) = Ok parameters ->
    ((exists p e, p ∈ DefCalibration_param ctx ∧ param_expression p = Some e
                  ∧ addr_leaves e ≠ []) ->
     exists mrefs,
       mrefs ≠ ∅
       ∧ exitDefCalibration ctx s
         = Raise (Exn "ValueError"
                    ("Unexpected memory references " +:+ str_of_mrefs mrefs
                       +:+ " in DEFCAL " +:+ getText (DefCalibration_name ctx)
                       +:+ ". Did you forget a '%'?")))
    ∧ ((forall p e, p ∈ DefCalibration_param ctx -> param_expression p = Some e ->
                    addr_leaves e = []) ->
       forall r, previous_result s = Some r ->
                 is_ok (exitDefCalibration ctx s) = true).
Proof.
  intros gates waveform_classes str_of_mrefs out_of ctx s parameters Hp.
  set (EH := evaluator_host gates waveform_classes str_of_mrefs out_of) in *.
  pose proof (mapM_Forall2 _ _ _ Hp) as Hall. split.
  - intros (p & e & Hin & He & Hleaves).
    apply list_elem_of_lookup in Hin as [i Hi].
    destruct (Forall2_lookup_l _ _ _ _ _ Hall Hi) as (v & Hv & Hpv).
    unfold _param in Hpv. rewrite He in Hpv.
    assert (Hne : _contained_mrefs v ≠ ∅).
    { destruct (addr_leaves e) as [|a leaves] eqn:Hl; [done|].
      destruct (addr_leaves_resolve e v Hpv a) as [m Hm]; [rewrite Hl; by left|].
      destruct (expression_value e v Hpv) as [Hmrefs _].
      intros Hempty. assert (m ∈ _contained_mrefs v) as Hmin.
      { apply Hmrefs. exists a. split; [rewrite Hl; by left|done]. }
      rewrite Hempty in Hmin. by apply not_elem_of_empty in Hmin. }
    destruct (first_offending (H := EH) parameters) as (before & q & after & -> & Hb & Hq).
    { apply Exists_exists. exists v. split; [by eapply list_elem_of_lookup_2|done]. }
    exists (_contained_mrefs q). split; [done|].
    unfold exitDefCalibration. rewrite Hp. cbn [mbind res_bind].
    by rewrite (check_parameters_raises (H := EH)).
  - intros Hnone r Hprev.
    assert (Hok : check_parameters (H := EH) (getText (DefCalibration_name ctx)) parameters
                  = Ok ()).
    { apply check_parameters_ok. apply Forall_forall. intros v Hv.
      apply list_elem_of_lookup in Hv as [i Hi].
      destruct (Forall2_lookup_r _ _ _ _ _ Hall Hi) as (p & Hpi & Hpv).
      unfold _param in Hpv.
      destruct (param_expression p) as [e|] eqn:He; [|done].
      destruct (expression_value e v Hpv) as [Hmrefs _].
      apply set_eq. intros m. rewrite Hmrefs.
      rewrite (Hnone p e) by (by eapply list_elem_of_lookup_2 || done).
      split; [by intros (a & ?%elem_of_nil & _)|by intros ?%not_elem_of_empty]. }
    destruct (mapM_formalQubit_total (DefCalibration_formalQubit ctx)) as (qubits & Hq & _).
    unfold exitDefCalibration. rewrite Hp. cbn [mbind res_bind]. rewrite Hok, Hq.
    cbn [mbind res_bind]. unfold restore_and_append, append. cbn [result].
    by rewrite Hprev.
Qed.

End EvaluatorClaims.

Section PermutationExtras.
Context `{Host}.

(** X17 ([_permutation], [_matrix]).  A permutation is read from a matrix
    exactly when the matrix evaluates to a single row, and is then that row;
    a matrix with any other number of rows is refused with a
    [RuntimeError] that reports the number of rows, whether or not its
    entries could be evaluated. *)
Theorem X17_permutation_is_the_single_matrix_row
    (matrix : list (list ExpressionContext)) :
  (forall row, _permutation matrix = Ok row <-> _matrix matrix = Ok [row])
  ∧ (length matrix ≠ 1%nat ->
     _permutation matrix
     = Raise (Exn "RuntimeError"
                ("Permutation gates are defined by a single row, but found "
                   +:+ Py.str_int (Z.of_nat (length matrix)) +:+ " during parsing."))).
Proof.
  split.
  - intros row. unfold _matrix.
    destruct matrix as [|r [|r' rest]].
    + split; discriminate.
    + cbn [_permutation mapM mbind res_bind mret res_ret].
      destruct (mapM _expression r) as [vs|e]; cbn [mbind res_bind]; split;
        intros E; inversion E; reflexivity.
    + split; [discriminate|].
      cbn [mapM mbind res_bind mret res_ret].
      destruct (mapM _expression r) as [vs|e]; cbn [mbind res_bind]; [|discriminate].
      destruct (mapM _expression r') as [vs'|e]; cbn [mbind res_bind]; [|discriminate].
      destruct (mapM (λ row0, mapM _expression row0) rest) as [vss|e];
        cbn [mbind res_bind]; discriminate.
  - intros Hlen. destruct matrix as [|r [|r' rest]]; [reflexivity|done|reflexivity].
Qed.

End PermutationExtras.

(** ** The further properties at work on the example programs *)

Lemma X1_generic_gate_keeps_qubits_witness :
  exists gate,
    exitGate (H := example_host) (ex_foo ["CONTROLLED"; "DAGGER"] []) ex_after_halt
    = append (H := example_host) (IGate gate) ex_after_halt
    ∧ gate_name gate = "FOO"
    ∧ gate_qubits gate = [Qubit 0; Qubit 1]
    ∧ modifier_keyword <$> gate_modifiers gate = ["CONTROLLED"; "DAGGER"].
Proof.
  refine (@X1_generic_gate_keeps_qubits example_host (ex_foo ["CONTROLLED"; "DAGGER"] [])
            ex_after_halt [] [Qubit 0; Qubit 1] _ _ _ _ _).
  - reflexivity.
  - reflexivity.
  - reflexivity.
  - repeat constructor.
  - vm_compute. lia.
Defined.

Lemma X2_generic_gate_parameters_witness :
  exists gate,
    exitGate (H := example_host)
      (ex_foo ["FORKED"] [ex_param "1" 1%Q; ex_param "2" 2%Q; ex_param "3" 3%Q])
      ex_after_halt
    = append (H := example_host) (IGate gate) ex_after_halt
    ∧ gate_params gate = [VNumber 1%Q; VNumber 2%Q].
Proof.
  destruct (@X2_generic_gate_parameters example_host
              (ex_foo ["FORKED"] [ex_param "1" 1%Q; ex_param "2" 2%Q; ex_param "3" 3%Q])
              ex_after_halt [VNumber 1%Q; VNumber 2%Q; VNumber 3%Q] [Qubit 0; Qubit 1])
    as (gate & Hg & Hp & _).
  - reflexivity.
  - reflexivity.
  - reflexivity.
  - repeat constructor.
  - vm_compute. lia.
  - by exists gate.
Defined.

Lemma X3_unsupported_modifier_witness :
  exitGate (H := example_host) ex_gate_unsupported ex_init
  = Raise (Exn "ValueError" "Unsupported gate modifier FOO.").
Proof.
  refine (@X3_unsupported_modifier example_host ex_gate_unsupported ex_init []
            [Qubit 0; Qubit 1] (new_Gate "Y" [] [Qubit 1]) ["DAGGER"] "FOO" ["CONTROLLED"]
            _ _ _ _ _ _ _).
  - reflexivity.
  - reflexivity.
  - reflexivity.
  - reflexivity.
  - repeat constructor.
  - vm_compute. lia.
  - reflexivity.
Defined.

Lemma X4_too_few_qubits_witness :
  exitGate (H := example_host) ex_gate_too_few_qubits ex_after_halt
  = Raise (Exn "IndexError" "list index out of range").
Proof.
  refine (@X4_too_few_qubits example_host ex_gate_too_few_qubits ex_after_halt []
            [Qubit 0] _ _ _).
  - reflexivity.
  - reflexivity.
  - vm_compute. lia.
Defined.

Lemma X5_one_instruction_per_top_level_node_witness :
  exists instrs,
    run_parser (LexerMismatch ex_recognizer 1 0 "token recognition error"
                  (ParserTree ex_program)) = Ok instrs
    ∧ length instrs = 4%nat.
Proof.
  destruct (run_parser (LexerMismatch ex_recognizer 1 0 "token recognition error"
                          (ParserTree ex_program))) as [instrs|] eqn:Hrun;
    [|by vm_compute in Hrun].
  exists instrs. split; [done|].
  destruct (proj2 (@X5_one_instruction_per_top_level_node example_host example_functions)
              _ instrs Hrun) as (tree & Htree & ->).
  by injection Htree as <-.
Defined.

Lemma X6_single_saved_buffer_witness :
  exists msg,
    exitDefMeasCalibration (H := example_host)
      {| DefMeasCalibration_name := None; DefMeasCalibration_formalQubit := ex_text "0" |}
      ex_init
    = Raise (Exn "AttributeError" msg).
Proof.
  refine (proj1 (@X6_single_saved_buffer example_host) _ ex_init _). reflexivity.
Defined.

Lemma X7_body_instructions_independent_of_buffer_witness :
  exists instrs,
    length instrs = 2%nat
    ∧ walk_body ex_evaluator_body ex_after_nop
      = Ok (mkListener (alter (fun b => b ++ instrs) 0%nat (heap ex_after_nop))
                       (Some 0%nat) (previous_result ex_after_nop)).
Proof.
  destruct (walk_body ex_evaluator_body (enter_definition ex_after_nop))
    as [s1'|] eqn:Hw; [|by vm_compute in Hw].
  destruct (proj1 (@X7_body_instructions_independent_of_buffer example_evaluator_host
                     example_evaluator_functions)
              ex_evaluator_body (enter_definition ex_after_nop) s1' ex_after_nop
              (fresh (dom (heap ex_after_nop))) 0%nat)
    as (instrs & Hlen & _ & Hsame).
  - reflexivity.
  - reflexivity.
  - exact Hw.
  - by exists instrs.
Defined.

Lemma X8_expected_token_outside_vocabulary_witness :
  exists m,
    syntaxError ex_recognizer ")" 3 5 "mismatched input" (Some ([1] ++ 7 :: [2]))
    = Raise (Exn "IndexError" m).
Proof.
  refine (X8_expected_token_outside_vocabulary ex_recognizer ")" 3 5 "mismatched input"
            [1] 7 [2] _ _).
  - repeat constructor; by eexists.
  - by left.
Defined.

Lemma X9_negative_token_type_counts_from_the_end_witness :
  py_display_name ex_recognizer (-1) = display_name ex_recognizer (3 + -1).
Proof.
  refine (proj2 (proj2 (proj2 X9_negative_token_type_counts_from_the_end
                          ex_recognizer (-1) _ _))).
  - reflexivity.
  - simpl. lia.
Defined.

Lemma X10_frame_name_is_the_literal_contents_witness :
  _str_contents (Frame_STRING ex_frame) = "rf".
Proof.
  refine (proj1 (proj2 X10_frame_name_is_the_literal_contents) "rf" _).
  split; discriminate.
Defined.

Lemma X11_circuit_definition_text_witness :
  exists s',
    exitDefCircuit (H := example_host) ex_defcircuit ex_in_circuit = Ok s'
    ∧ buffer (result s') s'
      = [Halt]
        ++ [RawInstr ("DEFCIRCUIT BELL a b:" +:+ String "010" "    H a"
                        +:+ String "010" "    MEASURE a ro")].
Proof.
  destruct (@X11_circuit_definition_text example_host ex_defcircuit ex_in_circuit
              1%nat 0%nat [RawInstr "H a"; RawInstr "MEASURE a ro"] [Halt])
    as (s' & Hexit & _ & _ & Hbuf & _).
  - reflexivity.
  - reflexivity.
  - reflexivity.
  - reflexivity.
  - exists s'. split; [done|]. exact Hbuf.
Defined.

Lemma X12_circuit_body_kept_as_text_witness :
  exists s' lines,
    walk_defcircuit (H := example_host) ex_defcircuit ex_circuit_body ex_init = Ok s'
    ∧ length lines = 3%nat
    ∧ buffer (result s') s'
      = [] ++ [RawInstr (defcircuit_header ex_defcircuit +:+ indented_lines lines)].
Proof.
  destruct (@X12_circuit_body_kept_as_text example_host example_functions ex_defcircuit
              ex_circuit_body ex_init 0%nat [])
    as (s' & lines & Hw & Hlen & _ & _ & Hbuf).
  - reflexivity.
  - repeat constructor.
  - reflexivity.
  - reflexivity.
  - by exists s', lines.
Defined.

Lemma X13_named_parameters_last_wins_witness :
  exists ret,
    _named_parameters (H := example_host) ex_named_params = Ok ret
    ∧ ret !! "t" = Some (VNumber 2%Q).
Proof.
  destruct (@X13_named_parameters_last_wins example_host ex_named_params
              [VNumber 1%Q; VNumber 2%Q]) as (ret & Hret & _ & Hlast); [reflexivity|].
  exists ret. split; [done|].
  refine (proj1 (Hlast [@Build_NamedParamContext example_host "t" (ex_number 1%Q)]
                   (@Build_NamedParamContext example_host "t" (ex_number 2%Q)) [] _ _)).
  - reflexivity.
  - apply not_elem_of_nil.
Defined.

Lemma X14_value_holds_the_address_leaves_witness :
  subexpression (VMemoryReference (MemRef "theta" 0))
    (VBinaryExp "*" (VFunction "SIN" (VMemoryReference (MemRef "theta" 0)))
       (VParameter (number := ExampleNumber) "x")).
Proof.
  refine (proj2 (@X14_value_holds_the_address_leaves ExampleNumber example_numbers
                   ex_sin_theta_times_x _ _ (MemRef "theta" 0)) _).
  - reflexivity.
  - exists ex_theta0. split; [by apply list_elem_of_singleton|reflexivity].
Defined.

Lemma X15_number_iff_no_symbolic_leaf_witness :
  exists n, VNumber (ExInt 14) = VNumber n.
Proof.
  refine (proj2 (@X15_number_iff_no_symbolic_leaf ExampleNumber example_numbers
                   ex_two_plus_three_times_four (VNumber (ExInt 14)) _) _).
  - reflexivity.
  - split; reflexivity.
Defined.

Lemma X16_calibration_rejects_address_leaves_witness :
  exists (mrefs : gset MemoryReference) msg,
    mrefs ≠ ∅
    ∧ exitDefCalibration (H := example_evaluator_host) ex_defcal_evaluator
        (enter_definition (@init example_evaluator_host))
      = Raise (Exn "ValueError" msg).
Proof.
  destruct (proj1 (@X16_calibration_rejects_address_leaves ExampleNumber example_numbers
                     ∅ ∅ (fun _ => "{...}")
                     (fun i => match i with RawInstr text => text | _ => "..." end)
                     ex_defcal_evaluator
                     (enter_definition (@init example_evaluator_host))
                     [VBinaryExp "*" (VFunction "SIN" (VMemoryReference (MemRef "theta" 0)))
                        (VParameter "x")] eq_refl))
    as (mrefs & Hne & Hraise).
  - eexists _, ex_sin_theta_times_x. split; [by apply list_elem_of_singleton|].
    split; [reflexivity|discriminate].
  - exists mrefs. eexists. split; [done|exact Hraise].
Defined.

Lemma X17_permutation_is_the_single_matrix_row_witness :
  _permutation (H := example_host) ex_two_rows
  = Raise (Exn "RuntimeError"
             "Permutation gates are defined by a single row, but found 2 during parsing.").
Proof.
  refine (proj2 (@X17_permutation_is_the_single_matrix_row example_host ex_two_rows) _).
  discriminate.
Defined.

